(** * Reconciliation reports: a shallow embedding and its properties

    The development follows the report lambda of the API package
    (the second document of [packages/api/endpoints/providers.js]):
    the merge-joins over paginated listings, the per-granule file
    comparison, the orchestration of a report run and the normalisation
    of the request.

    Part I holds the definitions, component by component, under the names
    the JavaScript source gives them.  Part II holds the lemmas and the
    theorems. *)

From Stdlib Require Import String Ascii List Bool Arith Lia Sorted OrderedTypeEx.
From stdpp Require Import base option list sorting gmap strings pretty.

(* ===================================================================== *)
(** * Part I: definitions *)
(* ===================================================================== *)

(** ** JavaScript values as far as the lambda looks at them *)

Module JS.

(** [!!s] on a string: only the empty string is falsy. *)
Definition truthy (s : string) : bool := negb (String.eqb s "").

(** [!!x] where [x] is a string or [undefined]. *)
Definition truthy_opt (o : option string) : bool :=
  match o with
  | Some s => truthy s
  | None => false
  end.

(** [a < b] on two strings: lexicographic on code units. *)
Definition lt (a b : string) : Prop := String.ltb a b = true.

(** [url.split('/').pop()]: what follows the last slash, the whole
    string when it has none. *)
Fixpoint lastSegment (cur s : string) : string :=
  match s with
  | EmptyString => cur
  | String c rest =>
      if Ascii.eqb c "/"%char then lastSegment "" rest
      else lastSegment (cur +:+ String c "") rest
  end.

Definition split_pop (s : string) : string := lastSegment "" s.

End JS.

(** ** SortedCursor: a queue over a paginated listing *)

Module Cursor.

Section Queue.
Context {T : Type}.

(** Modelled from the spec: the queue classes of the client packages
    ([S3ListObjectsV2Queue], [DynamoDbSearchQueue],
    [CMRSearchConceptQueue], [ESCollectionGranuleQueue]) are missing.
    A cursor buffers one page at a time; [source] is what the paginated
    listing has not handed out yet, page by page. *)
Record Queue : Type := { items : list T; source : list (list T) }.

Definition open (pages : list (list T)) : Queue :=
  {| items := []; source := pages |}.

(** Modelled from the spec: when the buffer is empty and the source
    signals that more pages exist, fetch the next page; the pages of a
    scan may be empty, so fetching goes on until a page has an item or
    the source is complete. *)
Fixpoint fetchItems (pages : list (list T)) : list T * list (list T) :=
  match pages with
  | [] => ([], [])
  | [] :: more => fetchItems more
  | (x :: page) :: more => (x :: page, more)
  end.

Definition fill (q : Queue) : Queue :=
  match items q with
  | [] => let '(buf, more) := fetchItems (source q) in
          {| items := buf; source := more |}
  | _ :: _ => q
  end.

(** Modelled from the spec: [peek] returns the head element or the
    empty sentinel ([None]) and does not advance. *)
Definition peek (q : Queue) : option T * Queue :=
  let q' := fill q in (head (items q'), q').

(** Modelled from the spec: [shift] returns the head element or the
    empty sentinel and advances past it. *)
Definition shift (q : Queue) : option T * Queue :=
  let q' := fill q in
  (head (items q'), {| items := tail (items q'); source := source q' |}).

(** Everything the cursor has still to yield, in order. *)
Definition contents (q : Queue) : list T := items q ++ concat (source q).

Definition remaining (q : Queue) : nat := length (contents q).

End Queue.

Arguments Queue : clear implicits.

End Cursor.

(** ** A plain object of counts: [okCountByGranule]

    [okCountByGranule] starts as [{}] and is read and written with
    [o[k]].  A read of a key that the object does not have itself goes
    on to [Object.prototype]; a write makes a property of the object,
    except under [__proto__]. *)

Module OkCounts.

(** What the object holds under a key: a number, counted up from 0, or
    what [+] makes of its operands once one of them is no number.  The
    numbers are counts of files, far below the size from which
    JavaScript prints a number in another way than in decimal. *)
Inductive count : Type :=
| Num (n : nat)
| NaN
| Text (s : string).

(** The properties of the object itself. *)
Abbreviation t := (gmap string count).

(** [String(f)] of a built-in function, as Node prints it. *)
Definition nativeFunction (name : string) : string :=
  "function " +:+ name +:+ "() { [native code] }".

(** [String(Object.prototype[k])]: what the value that a plain object
    inherits under [k] turns into when [+] takes it.  The properties of
    [Object.prototype] are functions, but for [__proto__], which reads
    as [Object.prototype] itself.  [None]: [Object.prototype] has no
    such property. *)
Definition inherited (k : string) : option string :=
  if String.eqb k "__proto__" then Some "[object Object]"
  else if String.eqb k "constructor" then Some (nativeFunction "Object")
  else if existsb (String.eqb k)
            ["__defineGetter__"; "__defineSetter__"; "hasOwnProperty"; "__lookupGetter__";
             "__lookupSetter__"; "isPrototypeOf"; "propertyIsEnumerable"; "toString";
             "valueOf"; "toLocaleString"]
       then Some (nativeFunction k)
  else None.

(** What a read finds: a property of the object, a property of
    [Object.prototype], given by the string it turns into, or nothing,
    which reads as [undefined]. *)
Inductive found : Type :=
| Own (c : count)
| Inherited (text : string)
| Undefined.

(** [o[k]] *)
Definition get (o : t) (k : string) : found :=
  match o !! k with
  | Some c => Own c
  | None =>
      match inherited k with
      | Some text => Inherited text
      | None => Undefined
      end
  end.

(** [o[k] = c] for a number or a string [c]: the setter of [__proto__]
    ignores a value that is neither an object nor [null]. *)
Definition set (k : string) (c : count) (o : t) : t :=
  if String.eqb k "__proto__" then o else <[k := c]> o.

(** [!!v] *)
Definition truthy (v : found) : bool :=
  match v with
  | Own (Num n) => negb (n =? 0)
  | Own NaN => false
  | Own (Text s) => JS.truthy s
  | Inherited _ => true
  | Undefined => false
  end.

(** [String(c)] *)
Definition toString (c : count) : string :=
  match c with
  | Num n => pretty n
  | NaN => "NaN"
  | Text s => s
  end.

(** [a + b] on numbers and strings: the sum of two numbers, and the
    strings of both, one after the other, when one is a string. *)
Definition add (a b : count) : count :=
  match a, b with
  | Text s, _ => Text (s +:+ toString b)
  | _, Text s => Text (toString a +:+ s)
  | Num n, Num m => Num (n + m)
  | _, _ => NaN
  end.

(** [v + c] for what a read found: a function and [Object.prototype]
    go into the sum as their strings, [undefined] as itself. *)
Definition plus (v : found) (c : count) : count :=
  match v with
  | Own a => add a c
  | Inherited text => add (Text text) c
  | Undefined =>
      match c with
      | Text s => Text ("undefined" +:+ s)
      | _ => NaN
      end
  end.

(** [v || 0] *)
Definition orZero (v : found) : found :=
  if truthy v then v else Own (Num 0).

End OkCounts.

(** ** BucketReconciler: [createReconciliationReportForBucket] *)

Module Bucket.
Import Cursor.

(** An entry of an S3 [listObjectsV2] page. *)
Record S3Object : Type := { Key : string }.

(** A record of the granule files cache. *)
Record DynamoDbItem : Type := { key : string; granuleId : string }.

(** An element of [onlyInDynamoDb]: [{ uri, granuleId }]. *)
Module Entry.
Record t : Type := { uri : string; granuleId : string }.
End Entry.

Record Report : Type := {
  okCount : nat;
  onlyInS3 : list string;
  onlyInDynamoDb : list Entry.t;
  okCountByGranule : OkCounts.t
}.

Section WithBucket.
(** [buildS3Uri] of the S3 client package is not part of the sources at
    hand; the merge-join only compares and reports its results. *)
Variable buildS3Uri : string -> string -> string.
Variable Bucket : string.

Definition entryOf (dynamoDbItem : DynamoDbItem) : Entry.t :=
  {| Entry.uri := buildS3Uri Bucket (key dynamoDbItem);
     Entry.granuleId := granuleId dynamoDbItem |}.

(** [if (!okCountByGranule[id]) okCountByGranule[id] = 0] *)
Definition initCount (id : string) (m : OkCounts.t) : OkCounts.t :=
  if negb (OkCounts.truthy (OkCounts.get m id)) then OkCounts.set id (OkCounts.Num 0) m
  else m.

(** [okCountByGranule[id] += 1] *)
Definition increment (id : string) (m : OkCounts.t) : OkCounts.t :=
  OkCounts.set id (OkCounts.plus (OkCounts.get m id) (OkCounts.Num 1)) m.

(** The local variables of the function while its loops run. *)
Record State : Type := {
  s3ObjectsQueue : Queue S3Object;
  dynamoDbFilesLister : Queue DynamoDbItem;
  report : Report
}.

(** One pass through the body of the first [while], the two [peek]s at
    its end included.  [None]: a [shift] came back empty where the code
    reads a property of its result. *)
Definition step (nextS3Object : S3Object) (nextDynamoDbItem : DynamoDbItem)
    (st : State)
  : option (option S3Object * option DynamoDbItem * State) :=
  let nextS3Uri := buildS3Uri Bucket (Key nextS3Object) in
  let nextDynamoDbUri := buildS3Uri Bucket (key nextDynamoDbItem) in
  let r := report st in
  let counts := initCount (granuleId nextDynamoDbItem) (okCountByGranule r) in
  st' ←
    (if String.ltb nextS3Uri nextDynamoDbUri then
       let '(_, q) := shift (s3ObjectsQueue st) in
       Some {| s3ObjectsQueue := q;
               dynamoDbFilesLister := dynamoDbFilesLister st;
               report := {| okCount := okCount r;
                            onlyInS3 := onlyInS3 r ++ [nextS3Uri];
                            onlyInDynamoDb := onlyInDynamoDb r;
                            okCountByGranule := counts |} |}
     else if String.ltb nextDynamoDbUri nextS3Uri then
       let '(shifted, q) := shift (dynamoDbFilesLister st) in
       dynamoDbItem ← shifted;
       Some {| s3ObjectsQueue := s3ObjectsQueue st;
               dynamoDbFilesLister := q;
               report := {| okCount := okCount r;
                            onlyInS3 := onlyInS3 r;
                            onlyInDynamoDb := onlyInDynamoDb r ++ [entryOf dynamoDbItem];
                            okCountByGranule := counts |} |}
     else
       let '(_, q1) := shift (s3ObjectsQueue st) in
       let '(_, q2) := shift (dynamoDbFilesLister st) in
       Some {| s3ObjectsQueue := q1;
               dynamoDbFilesLister := q2;
               report := {| okCount := okCount r + 1;
                            onlyInS3 := onlyInS3 r;
                            onlyInDynamoDb := onlyInDynamoDb r;
                            okCountByGranule :=
                              increment (granuleId nextDynamoDbItem) counts |} |});
  let '(n1, q1) := peek (s3ObjectsQueue st') in
  let '(n2, q2) := peek (dynamoDbFilesLister st') in
  Some (n1, n2, {| s3ObjectsQueue := q1; dynamoDbFilesLister := q2;
                   report := report st' |}).

(** [while (nextS3Object && nextDynamoDbItem) { ... }]; [None] when the
    fuel runs out first. *)
Fixpoint mainLoop (fuel : nat) (nextS3Object : option S3Object)
    (nextDynamoDbItem : option DynamoDbItem) (st : State) : option State :=
  match nextS3Object, nextDynamoDbItem with
  | Some o, Some d =>
      match fuel with
      | 0 => None
      | S fuel' =>
          '(n1, n2, st') ← step o d st;
          mainLoop fuel' n1 n2 st'
      end
  | _, _ => Some st
  end.

(** [while (await s3ObjectsQueue.peek()) { ... }] *)
Fixpoint drainS3 (fuel : nat) (q : Queue S3Object) (acc : list string)
  : option (list string) :=
  match peek q with
  | (None, _) => Some acc
  | (Some _, q1) =>
      match fuel with
      | 0 => None
      | S fuel' =>
          let '(shifted, q2) := shift q1 in
          s3Object ← shifted;
          drainS3 fuel' q2 (acc ++ [buildS3Uri Bucket (Key s3Object)])
      end
  end.

(** [while (await dynamoDbFilesLister.peek()) { ... }] *)
Fixpoint drainDynamoDb (fuel : nat) (q : Queue DynamoDbItem)
    (acc : list Entry.t) : option (list Entry.t) :=
  match peek q with
  | (None, _) => Some acc
  | (Some _, q1) =>
      match fuel with
      | 0 => None
      | S fuel' =>
          let '(shifted, q2) := shift q1 in
          dynamoDbItem ← shifted;
          drainDynamoDb fuel' q2 (acc ++ [entryOf dynamoDbItem])
      end
  end.

(** The whole function.  [s3Listing] is what [listObjectsV2] returns for
    the bucket, page by page, and [dynamoDbScan] what the scan of the
    files table returns.  Every pass of a loop consumes an item, so the
    number of items still to come is fuel enough. *)
Definition createReconciliationReportForBucket
    (s3Listing : list (list S3Object))
    (dynamoDbScan : list (list DynamoDbItem)) : option Report :=
  let s3ObjectsQueue0 := open s3Listing in
  let dynamoDbFilesLister0 := open dynamoDbScan in
  let fuel := remaining s3ObjectsQueue0 + remaining dynamoDbFilesLister0 in
  let '(nextS3Object, q1) := peek s3ObjectsQueue0 in
  let '(nextDynamoDbItem, q2) := peek dynamoDbFilesLister0 in
  st ← mainLoop fuel nextS3Object nextDynamoDbItem
         {| s3ObjectsQueue := q1; dynamoDbFilesLister := q2;
            report := {| okCount := 0; onlyInS3 := []; onlyInDynamoDb := [];
                         okCountByGranule := ∅ |} |};
  inS3 ← drainS3 fuel (s3ObjectsQueue st) (onlyInS3 (report st));
  inDb ← drainDynamoDb fuel (dynamoDbFilesLister st) (onlyInDynamoDb (report st));
  Some {| okCount := okCount (report st);
          onlyInS3 := inS3;
          onlyInDynamoDb := inDb;
          okCountByGranule := okCountByGranule (report st) |}.

End WithBucket.

End Bucket.

(** ** Request parameters as JavaScript objects *)

Module Value.

(** The values an event payload can carry, as far as the lambda tells
    them apart. *)
#[warnings="-register-all"]
Inductive value : Type :=
| Undefined
| Null
| Bool (b : bool)
| Number (z : Z)
| NaN
| Str (s : string)
| Arr (l : list value).

(** [!!v] *)
Definition truthy (v : value) : bool :=
  match v with
  | Undefined | Null | NaN => false
  | Bool b => b
  | Number z => negb (Z.eqb z 0)
  | Str s => JS.truthy s
  | Arr _ => true
  end.

(** [_.isString(v)] *)
Definition isString (v : value) : bool :=
  match v with Str _ => true | _ => false end.

(** [_.isNil(v)] *)
Definition isNil (v : value) : bool :=
  match v with Undefined | Null => true | _ => false end.

(** A plain object with string keys. *)
Abbreviation object := (gmap string value).

(** [o[k]]: a missing key reads as [undefined]. *)
Definition get (o : object) (k : string) : value := default Undefined (o !! k).

(** [a || b] *)
Definition or (a b : value) : value := if truthy a then a else b.

(** [v === s] for a string literal [s]. *)
Definition isStr (v : value) (s : string) : bool :=
  match v with Str s' => String.eqb s' s | _ => false end.

(** [`${v}`]: the string a template literal makes of a value (numbers are
    integers of fewer than 22 digits, which print in decimal). *)
Fixpoint toString (v : value) : string :=
  match v with
  | Undefined => "undefined"
  | Null => "null"
  | Bool true => "true"
  | Bool false => "false"
  | Number z => pretty z
  | NaN => "NaN"
  | Str s => s
  | Arr l =>
      (fix join (xs : list value) : string :=
         match xs with
         | [] => ""
         | x :: rest =>
             let sx := match x with
                       | Undefined | Null => ""
                       | _ => toString x
                       end in
             match rest with
             | [] => sx
             | _ :: _ => sx +:+ "," +:+ join rest
             end
         end) l
  end.

End Value.

(** ** CollectionReconciler: [reconciliationReportForCollections] *)

Module Collections.
Import Value.

(** [['startTimestamp', 'endTimestamp'].some((e) => !!reportParams[e])] *)
Definition isOneWayReport (reportParams : object) : bool :=
  existsb (fun e => truthy (get reportParams e))
          ["startTimestamp"; "endTimestamp"].

Record Report : Type := {
  okCollections : list string;
  onlyInCumulus : list string;
  onlyInCmr : list string
}.

(** The arrays and the accumulators while the loop runs. *)
Record State : Type := {
  esCollectionIds : list string;
  cmrCollectionIds : list string;
  report : Report
}.

(** [xs.length !== 0 ? xs[0] : undefined], and [xs[0]] before the loop. *)
Definition first (xs : list string) : option string := head xs.

(** One pass through the body of the [while]; [Array.prototype.shift]
    drops the first element. *)
Definition step (oneWayReport : bool) (nextDbCollectionId nextCmrCollectionId : string)
    (st : State) : State :=
  let r := report st in
  if String.ltb nextDbCollectionId nextCmrCollectionId then
    {| esCollectionIds := tail (esCollectionIds st);
       cmrCollectionIds := cmrCollectionIds st;
       report := {| okCollections := okCollections r;
                    onlyInCumulus := onlyInCumulus r ++ [nextDbCollectionId];
                    onlyInCmr := onlyInCmr r |} |}
  else if String.ltb nextCmrCollectionId nextDbCollectionId then
    {| esCollectionIds := esCollectionIds st;
       cmrCollectionIds := tail (cmrCollectionIds st);
       report := {| okCollections := okCollections r;
                    onlyInCumulus := onlyInCumulus r;
                    onlyInCmr := if oneWayReport then onlyInCmr r
                                 else onlyInCmr r ++ [nextCmrCollectionId] |} |}
  else
    {| esCollectionIds := tail (esCollectionIds st);
       cmrCollectionIds := tail (cmrCollectionIds st);
       report := {| okCollections := okCollections r ++ [nextDbCollectionId];
                    onlyInCumulus := onlyInCumulus r;
                    onlyInCmr := onlyInCmr r |} |}.

(** [while (nextDbCollectionId && nextCmrCollectionId) { ... }]: the
    condition is the truthiness of two values that are a string or
    [undefined]. *)
Fixpoint mainLoop (fuel : nat) (oneWayReport : bool)
    (nextDbCollectionId nextCmrCollectionId : option string) (st : State)
  : option State :=
  match nextDbCollectionId, nextCmrCollectionId with
  | Some db, Some cmr =>
      if JS.truthy db && JS.truthy cmr then
        match fuel with
        | 0 => None
        | S fuel' =>
            let st' := step oneWayReport db cmr st in
            mainLoop fuel' oneWayReport (first (esCollectionIds st'))
                     (first (cmrCollectionIds st')) st'
        end
      else Some st
  | _, _ => Some st
  end.

(** The comparison of the function, from the two sorted arrays on:
    [cmrCollectionIds] is what [filterCMRCollections] returned and
    [esCollectionIds] what [fetchESCollections] returned. *)
Definition reconciliationReportForCollections (recReportParams : object)
    (cmrCollectionIds0 esCollectionIds0 : list string) : option Report :=
  let oneWayReport := isOneWayReport recReportParams in
  let fuel := length esCollectionIds0 + length cmrCollectionIds0 in
  st ← mainLoop fuel oneWayReport (first esCollectionIds0) (first cmrCollectionIds0)
         {| esCollectionIds := esCollectionIds0;
            cmrCollectionIds := cmrCollectionIds0;
            report := {| okCollections := []; onlyInCumulus := [];
                         onlyInCmr := [] |} |};
  let r := report st in
  Some {| okCollections := okCollections r;
          onlyInCumulus := onlyInCumulus r ++ esCollectionIds st;
          onlyInCmr := if oneWayReport then onlyInCmr r
                       else onlyInCmr r ++ cmrCollectionIds st |}.

End Collections.

(** ** Plain objects whose key order matters *)

Module JSObject.

(** The value of a string of decimal digits; [None] for anything else. *)
Fixpoint digits (acc : N) (s : string) : option N :=
  match s with
  | EmptyString => Some acc
  | String c rest =>
      let n := N_of_ascii c in
      if (48 <=? n)%N && (n <=? 57)%N then digits (acc * 10 + (n - 48))%N rest
      else None
  end.

(** A key is an array index when it is the canonical decimal form of an
    integer below [2^32 - 1]; such keys are enumerated first. *)
Definition arrayIndex (k : string) : option N :=
  match k with
  | EmptyString => None
  | String c rest =>
      if Ascii.eqb c "0"%char && negb (String.eqb rest "") then None
      else n ← digits 0 k; if (n <? 4294967295)%N then Some n else None
  end.

Section Obj.
Context {V : Type}.

(** Own properties in the order of their creation. *)
Definition t : Type := list (string * V).

(** [o[k]] *)
Definition get (o : t) (k : string) : option V :=
  snd <$> List.find (fun kv => String.eqb k (fst kv)) o.

(** [o[k] = v]: an existing key keeps its place. *)
Fixpoint set (k : string) (v : V) (o : t) : t :=
  match o with
  | [] => [(k, v)]
  | (k', v') :: o' =>
      if String.eqb k k' then (k, v) :: o' else (k', v') :: set k v o'
  end.

(** [delete o[k]] *)
Definition delete (k : string) (o : t) : t :=
  List.filter (fun kv => negb (String.eqb k (fst kv))) o.

Definition isIndex (kv : string * V) : bool :=
  match arrayIndex (fst kv) with Some _ => true | None => false end.

Definition indexLe (a b : string * V) : Prop :=
  (default 0 (arrayIndex (fst a)) <= default 0 (arrayIndex (fst b)))%N.

#[local] Instance indexLe_dec a b : Decision (indexLe a b).
Proof. unfold indexLe. apply _. Defined.

(** [Object.entries(o)]: the array indices in ascending order, then the
    other keys in the order of their creation. *)
Definition entries (o : t) : list (string * V) :=
  merge_sort indexLe (List.filter isIndex o)
  ++ List.filter (fun kv => negb (isIndex kv)) o.

(** [Object.keys(o)], in the same order. *)
Definition keys (o : t) : list string := map fst (entries o).

End Obj.

Arguments t : clear implicits.

(** [_.keyBy(xs, f)]: a later element replaces an earlier one that has
    the same key. *)
Definition keyBy {V : Type} (f : V -> string) (xs : list V) : t V :=
  fold_left (fun o x => set (f x) x o) xs [].

End JSObject.

(** ** Bucket visibility *)

Module BucketsConfig.

Record Config : Type := { name : string; type : string }.

(** Modelled from the spec: the [BucketsConfig] class of the common
    package is missing.  It wraps the buckets object of the stack, which
    maps a configuration key to the name and the type of a bucket, and
    looks a bucket up by its name. *)
Record t : Type := { buckets : list (string * Config) }.

Definition entry (bc : t) (bucketName : option string) : option (string * Config) :=
  b ← bucketName;
  List.find (fun kc => String.eqb b (name (snd kc))) (buckets bc).

(** Modelled from the spec: [key(bucketName)] is the configuration key
    of the bucket of that name, [undefined] when there is none. *)
Definition key (bc : t) (bucketName : option string) : option string :=
  fst <$> entry bc bucketName.

(** Modelled from the spec: [type(bucketName)] is the type the
    configuration gives the bucket: private, protected, public or
    another. *)
Definition type_of (bc : t) (bucketName : option string) : option string :=
  (fun kc => type (snd kc)) <$> entry bc bucketName.

End BucketsConfig.

(** ** FileReconciler: [reconciliationReportForGranuleFiles] *)

Module GranuleFiles.

(** A file of a granule as the database holds it. *)
Record File : Type := {
  fileName : string;
  bucket : option string;
  key : option string;
  source : option string
}.

(** An element of the [RelatedUrls] of a granule in CMR. *)
Record RelatedUrl : Type := { URL : string; Type' : string }.

(** An element of [onlyInCmr]: [{ URL, Type, GranuleUR }]. *)
Module CmrEntry.
Record t : Type := { URL : string; Type' : string; GranuleUR : string }.
End CmrEntry.

(** An element of [onlyInCumulus]: [{ fileName, uri, granuleId }]. *)
Module CumulusEntry.
Record t : Type := { fileName : string; uri : option string; granuleId : string }.
End CumulusEntry.

Record GranuleInDb : Type := {
  granuleId : string;
  collectionId : string;
  files : list File
}.

Record GranuleInCmr : Type := {
  GranuleUR : string;
  ShortName : string;
  Version : string;
  RelatedUrls : list RelatedUrl
}.

Record Report : Type := {
  okCount : nat;
  onlyInCumulus : list CumulusEntry.t;
  onlyInCmr : list CmrEntry.t
}.

(** The argument of [constructOnlineAccessUrl]. *)
Record UrlRequest : Type := {
  file : File;
  distEndpoint : option string;
  bucketTypes : gmap string string;
  cmrGranuleUrlType : string;
  distributionBucketMap : gmap string string
}.

Definition cmrGetDataTypes : list string := ["GET DATA"; "GET RELATED VISUALIZATION"].
Definition cmrRelatedDataTypes : list string := ["VIEW RELATED INFORMATION"].

(** [types.includes(t)] *)
Definition includes (types : list string) (t : string) : bool :=
  existsb (String.eqb t) types.

(** [Object.values(buckets).reduce((acc, { name, type }) => ({ ...acc, [name]: type }), {})] *)
Definition bucketTypesOf (bucketsConfig : BucketsConfig.t) : gmap string string :=
  fold_left (fun acc kc => <[BucketsConfig.name (snd kc) := BucketsConfig.type (snd kc)]> acc)
            (BucketsConfig.buckets bucketsConfig) ∅.

(** [bucketsConfig.key(file.bucket)] as a condition. *)
Definition knownBucket (bucketsConfig : BucketsConfig.t) (f : File) : bool :=
  JS.truthy_opt (BucketsConfig.key bucketsConfig (bucket f)).

(** [bucketsConfig.key(b) && bucketsConfig.type(b) === 'private'] *)
Definition inPrivateBucket (bucketsConfig : BucketsConfig.t) (f : File) : bool :=
  knownBucket bucketsConfig f
  && bool_decide (BucketsConfig.type_of bucketsConfig (bucket f) = Some "private").

Section WithPolicy.
(** The access-URL policy of the CMR package and [buildS3Uri] of the S3
    client package are not part of the sources at hand.
    [constructOnlineAccessUrl] gives the [URL] of the object it returns,
    [None] when it returns [undefined]. *)
Variable constructOnlineAccessUrl : UrlRequest -> option string.
Variable buildS3Uri : string -> string -> string.
(** [process.env.DISTRIBUTION_ENDPOINT] *)
Variable DISTRIBUTION_ENDPOINT : option string.

Variable bucketsConfig : BucketsConfig.t.
Variable distributionBucketMap0 : gmap string string.

Definition cmrEntryOf (granuleInCmr : GranuleInCmr) (relatedUrl : RelatedUrl) : CmrEntry.t :=
  {| CmrEntry.URL := URL relatedUrl;
     CmrEntry.Type' := Type' relatedUrl;
     CmrEntry.GranuleUR := GranuleUR granuleInCmr |}.

Definition accessUrl (f : File) (urlType : string) : option string :=
  constructOnlineAccessUrl
    {| file := f;
       distEndpoint := DISTRIBUTION_ENDPOINT;
       bucketTypes := bucketTypesOf bucketsConfig;
       cmrGranuleUrlType := urlType;
       distributionBucketMap := distributionBucketMap0 |}.

(** A callback of [RelatedUrls.map] that waits at an [await]: the entry it
    checks, the file name it took from the URL and the two candidate URLs. *)
Record Waiting : Type := {
  relatedUrl : RelatedUrl;
  urlFileName : string;
  distributionAccessUrl : option string;
  s3AccessUrl : option string
}.

(** What the callbacks share. *)
Record Tally : Type := {
  tallyOk : nat;
  tallyOnlyInCmr : list CmrEntry.t;
  granuleFiles : JSObject.t File
}.

(** The callback from its start to its first [await].  [map] calls the
    callbacks one after the other, and an async function runs until its
    first [await] before it gives the control back.  So every entry is
    checked against [granuleFiles] as [keyBy] built it: no callback has
    reached its [delete] yet.  An entry that finds no file in a known
    bucket is done here: it never awaits.  The other entries build their
    candidate URLs from the file that [granuleFiles] holds under their
    name, which is still the same file when the second URL is built, as
    every callback passes its second [await] before any passes its last
    statements. *)
Definition start (granuleInCmr : GranuleInCmr) (files0 : JSObject.t File)
    (acc : list CmrEntry.t * list Waiting) (relatedUrl0 : RelatedUrl)
  : list CmrEntry.t * list Waiting :=
  let '(onlyInCmr0, waiting) := acc in
  if includes cmrGetDataTypes (Type' relatedUrl0)
     || includes cmrRelatedDataTypes (Type' relatedUrl0) then
    let name := JS.split_pop (URL relatedUrl0) in
    match JSObject.get files0 name with
    | Some f =>
        if knownBucket bucketsConfig f then
          (onlyInCmr0,
           waiting ++ [{| relatedUrl := relatedUrl0;
                          urlFileName := name;
                          distributionAccessUrl := accessUrl f "distribution";
                          s3AccessUrl := accessUrl f "s3" |}])
        else if includes cmrGetDataTypes (Type' relatedUrl0) then
          (onlyInCmr0 ++ [cmrEntryOf granuleInCmr relatedUrl0], waiting)
        else acc
    | None =>
        if includes cmrGetDataTypes (Type' relatedUrl0) then
          (onlyInCmr0 ++ [cmrEntryOf granuleInCmr relatedUrl0], waiting)
        else acc
    end
  else acc.

(** [candidate && relatedUrl.URL === candidate.URL] *)
Definition sameUrl (candidate : option string) (url : string) : bool :=
  match candidate with
  | Some u => String.eqb url u
  | None => false
  end.

(** The callback after its last [await]: the comparison of the URLs and
    the [delete].  The callbacks resume in the order in which they
    suspended. *)
Definition settle (granuleInCmr : GranuleInCmr) (t : Tally) (w : Waiting) : Tally :=
  let url := URL (relatedUrl w) in
  let files' := JSObject.delete (urlFileName w) (granuleFiles t) in
  if sameUrl (distributionAccessUrl w) url then
    {| tallyOk := tallyOk t + 1; tallyOnlyInCmr := tallyOnlyInCmr t;
       granuleFiles := files' |}
  else if sameUrl (s3AccessUrl w) url then
    {| tallyOk := tallyOk t + 1; tallyOnlyInCmr := tallyOnlyInCmr t;
       granuleFiles := files' |}
  else if includes cmrGetDataTypes (Type' (relatedUrl w)) then
    {| tallyOk := tallyOk t;
       tallyOnlyInCmr := tallyOnlyInCmr t ++ [cmrEntryOf granuleInCmr (relatedUrl w)];
       granuleFiles := files' |}
  else
    {| tallyOk := tallyOk t; tallyOnlyInCmr := tallyOnlyInCmr t;
       granuleFiles := files' |}.

(** The [uri] of an entry of [onlyInCumulus]: the [source] of the file,
    or its S3 URI when it has a bucket and a key. *)
Definition uriOf (f : File) : option string :=
  match bucket f, key f with
  | Some b, Some k =>
      if JS.truthy b && JS.truthy k then Some (buildS3Uri b k) else source f
  | _, _ => source f
  end.

(** The body of [Object.keys(granuleFiles).forEach]. *)
Definition leftover (granuleInDb : GranuleInDb) (files' : JSObject.t File)
    (acc : nat * list CumulusEntry.t) (name : string) : nat * list CumulusEntry.t :=
  match JSObject.get files' name with
  | Some f =>
      if inPrivateBucket bucketsConfig f then (fst acc + 1, snd acc)
      else (fst acc,
            snd acc ++ [{| CumulusEntry.fileName := name;
                           CumulusEntry.uri := uriOf f;
                           CumulusEntry.granuleId := granuleId granuleInDb |}])
  | None => acc
  end.

Definition reconciliationReportForGranuleFiles
    (granuleInDb : GranuleInDb) (granuleInCmr : GranuleInCmr) : Report :=
  let files0 := JSObject.keyBy fileName (files granuleInDb) in
  let '(onlyInCmr0, waiting) :=
    fold_left (start granuleInCmr files0) (RelatedUrls granuleInCmr) ([], []) in
  let t := fold_left (settle granuleInCmr) waiting
             {| tallyOk := 0; tallyOnlyInCmr := onlyInCmr0; granuleFiles := files0 |} in
  let '(ok, inCumulus) :=
    fold_left (leftover granuleInDb (granuleFiles t))
              (JSObject.keys (granuleFiles t)) (tallyOk t, []) in
  {| okCount := ok; onlyInCumulus := inCumulus; onlyInCmr := tallyOnlyInCmr t |}.

(** *** The parts of the report

    The names below say where the numbers of the report come from; the
    theorems of Part II state the report in their terms. *)

(** The callback of an entry that reaches its first [await], as [start]
    leaves it: the entry has a type the function looks at, and its file
    name is that of a file in a bucket of the configuration. *)
Definition waitingOf (files0 : JSObject.t File) (relatedUrl0 : RelatedUrl) : option Waiting :=
  if includes cmrGetDataTypes (Type' relatedUrl0)
     || includes cmrRelatedDataTypes (Type' relatedUrl0) then
    match JSObject.get files0 (JS.split_pop (URL relatedUrl0)) with
    | Some f =>
        if knownBucket bucketsConfig f then
          Some {| relatedUrl := relatedUrl0;
                  urlFileName := JS.split_pop (URL relatedUrl0);
                  distributionAccessUrl := accessUrl f "distribution";
                  s3AccessUrl := accessUrl f "s3" |}
        else None
    | None => None
    end
  else None.

(** The URL of the entry is the distribution URL or the S3 URL of the
    file. *)
Definition candidateMatch (relatedUrl0 : RelatedUrl) (f : File) : bool :=
  sameUrl (accessUrl f "distribution") (URL relatedUrl0)
  || sameUrl (accessUrl f "s3") (URL relatedUrl0).

(** One of the two candidate URLs is the URL of the entry. *)
Definition matches (w : Waiting) : bool :=
  sameUrl (distributionAccessUrl w) (URL (relatedUrl w))
  || sameUrl (s3AccessUrl w) (URL (relatedUrl w)).

Definition granuleFilesOf (granuleInDb : GranuleInDb) : JSObject.t File :=
  JSObject.keyBy fileName (files granuleInDb).

Definition waitingUrls (granuleInDb : GranuleInDb) (granuleInCmr : GranuleInCmr)
  : list Waiting :=
  omap (waitingOf (granuleFilesOf granuleInDb)) (RelatedUrls granuleInCmr).

(** The entries of the catalog that count as ok. *)
Definition okUrls (granuleInDb : GranuleInDb) (granuleInCmr : GranuleInCmr) : list Waiting :=
  List.filter matches (waitingUrls granuleInDb granuleInCmr).

(** The file names that an entry of the catalog takes out of
    [granuleFiles]. *)
Definition claimedNames (granuleInDb : GranuleInDb) (granuleInCmr : GranuleInCmr)
  : list string :=
  map urlFileName (waitingUrls granuleInDb granuleInCmr).

(** The files that are still in [granuleFiles] when the callbacks are
    done, under their names. *)
Definition leftoverFiles (granuleInDb : GranuleInDb) (granuleInCmr : GranuleInCmr)
  : JSObject.t File :=
  List.filter (fun kv => negb (includes (claimedNames granuleInDb granuleInCmr) (fst kv)))
              (granuleFilesOf granuleInDb).

(** Those of them that are in a private bucket. *)
Definition privateLeft (granuleInDb : GranuleInDb) (granuleInCmr : GranuleInCmr)
  : JSObject.t File :=
  List.filter (fun kv => inPrivateBucket bucketsConfig (snd kv))
              (leftoverFiles granuleInDb granuleInCmr).

(** The download entries that find no file in a bucket of the
    configuration, and those that wait for a file and match neither of
    its candidate URLs. *)
Definition strandedUrls (granuleInDb : GranuleInDb) (granuleInCmr : GranuleInCmr)
  : list RelatedUrl :=
  List.filter (fun e => includes cmrGetDataTypes (Type' e)
                        && match waitingOf (granuleFilesOf granuleInDb) e with
                           | Some _ => false
                           | None => true
                           end)
              (RelatedUrls granuleInCmr).

Definition mismatchedUrls (granuleInDb : GranuleInDb) (granuleInCmr : GranuleInCmr)
  : list Waiting :=
  List.filter (fun w => negb (matches w)
                        && includes cmrGetDataTypes (Type' (relatedUrl w)))
              (waitingUrls granuleInDb granuleInCmr).

(** The entry of [onlyInCumulus] for a file left under [name]. *)
Definition cumulusEntryOf (granuleInDb : GranuleInDb) (kv : string * File) : CumulusEntry.t :=
  {| CumulusEntry.fileName := fst kv;
     CumulusEntry.uri := uriOf (snd kv);
     CumulusEntry.granuleId := granuleId granuleInDb |}.

End WithPolicy.

End GranuleFiles.

(** ** GranuleReconciler: [reconciliationReportForGranules] *)

Module Granules.
Import Cursor.

(** A granule as the Elasticsearch queue yields it. *)
Record DbItem : Type := { granuleId : string; files : list GranuleFiles.File }.

(** A granule as the CMR queue yields it: the fields of [umm] the
    function reads, [CollectionReference] flattened. *)
Record CmrItem : Type := {
  GranuleUR : string;
  ShortName : string;
  Version : string;
  RelatedUrls : list GranuleFiles.RelatedUrl
}.

(** An element of [granulesReport.onlyInCumulus]. *)
Module CumulusEntry.
Record t : Type := { granuleId : string; collectionId : string }.
End CumulusEntry.

(** An element of [granulesReport.onlyInCmr]. *)
Module CmrEntry.
Record t : Type := { GranuleUR : string; ShortName : string; Version : string }.
End CmrEntry.

Record GranulesReport : Type := {
  okCount : nat;
  onlyInCumulus : list CumulusEntry.t;
  onlyInCmr : list CmrEntry.t
}.

Record Result : Type := {
  granulesReport : GranulesReport;
  filesReport : GranuleFiles.Report
}.

Section WithCollection.
Variable constructOnlineAccessUrl : GranuleFiles.UrlRequest -> option string.
Variable buildS3Uri : string -> string -> string.
Variable DISTRIBUTION_ENDPOINT : option string.
Variable bucketsConfig : BucketsConfig.t.
Variable distributionBucketMap : gmap string string.
Variable collectionId : string.
(** [isOneWayReport(recReportParams)] *)
Variable oneWay : bool.

Record State : Type := {
  esGranulesIterator : Queue DbItem;
  cmrGranulesIterator : Queue CmrItem;
  result : Result
}.

Definition cumulusEntryOf (id : string) : CumulusEntry.t :=
  {| CumulusEntry.granuleId := id; CumulusEntry.collectionId := collectionId |}.

(** One pass through the body of the first [while], the two [peek]s at
    its end included. *)
Definition step (nextDbItem : DbItem) (nextCmrItem : CmrItem) (st : State)
  : option DbItem * option CmrItem * State :=
  let nextDbGranuleId := granuleId nextDbItem in
  let nextCmrGranuleId := GranuleUR nextCmrItem in
  let g := granulesReport (result st) in
  let f := filesReport (result st) in
  let st' :=
    if String.ltb nextDbGranuleId nextCmrGranuleId then
      {| esGranulesIterator := snd (shift (esGranulesIterator st));
         cmrGranulesIterator := cmrGranulesIterator st;
         result := {| granulesReport :=
                        {| okCount := okCount g;
                           onlyInCumulus := onlyInCumulus g ++ [cumulusEntryOf nextDbGranuleId];
                           onlyInCmr := onlyInCmr g |};
                      filesReport := f |} |}
    else if String.ltb nextCmrGranuleId nextDbGranuleId then
      {| esGranulesIterator := esGranulesIterator st;
         cmrGranulesIterator := snd (shift (cmrGranulesIterator st));
         result := {| granulesReport :=
                        {| okCount := okCount g;
                           onlyInCumulus := onlyInCumulus g;
                           onlyInCmr :=
                             if oneWay then onlyInCmr g
                             else onlyInCmr g
                                  ++ [{| CmrEntry.GranuleUR := nextCmrGranuleId;
                                         CmrEntry.ShortName := ShortName nextCmrItem;
                                         CmrEntry.Version := Version nextCmrItem |}] |};
                      filesReport := f |} |}
    else
      let granuleInDb :=
        {| GranuleFiles.granuleId := nextDbGranuleId;
           GranuleFiles.collectionId := collectionId;
           GranuleFiles.files := files nextDbItem |} in
      let granuleInCmr :=
        {| GranuleFiles.GranuleUR := nextCmrGranuleId;
           GranuleFiles.ShortName := ShortName nextCmrItem;
           GranuleFiles.Version := Version nextCmrItem;
           GranuleFiles.RelatedUrls := RelatedUrls nextCmrItem |} in
      let fileReport :=
        GranuleFiles.reconciliationReportForGranuleFiles
          constructOnlineAccessUrl buildS3Uri DISTRIBUTION_ENDPOINT
          bucketsConfig distributionBucketMap granuleInDb granuleInCmr in
      {| esGranulesIterator := snd (shift (esGranulesIterator st));
         cmrGranulesIterator := snd (shift (cmrGranulesIterator st));
         result := {| granulesReport :=
                        {| okCount := okCount g + 1;
                           onlyInCumulus := onlyInCumulus g;
                           onlyInCmr := onlyInCmr g |};
                      filesReport :=
                        {| GranuleFiles.okCount :=
                             GranuleFiles.okCount f + GranuleFiles.okCount fileReport;
                           GranuleFiles.onlyInCumulus :=
                             GranuleFiles.onlyInCumulus f
                             ++ GranuleFiles.onlyInCumulus fileReport;
                           GranuleFiles.onlyInCmr :=
                             GranuleFiles.onlyInCmr f
                             ++ GranuleFiles.onlyInCmr fileReport |} |} |} in
  let '(n1, q1) := peek (esGranulesIterator st') in
  let '(n2, q2) := peek (cmrGranulesIterator st') in
  (n1, n2, {| esGranulesIterator := q1; cmrGranulesIterator := q2;
              result := result st' |}).

(** [while (nextDbItem && nextCmrItem) { ... }]: the state the loop ends
    in and the last value of [nextCmrItem], which the code reads again
    below; [None] when the fuel runs out first. *)
Fixpoint mainLoop (fuel : nat) (nextDbItem : option DbItem)
    (nextCmrItem : option CmrItem) (st : State) : option (option CmrItem * State) :=
  match nextDbItem, nextCmrItem with
  | Some d, Some c =>
      match fuel with
      | 0 => None
      | S fuel' =>
          let '(n1, n2, st') := step d c st in
          mainLoop fuel' n1 n2 st'
      end
  | _, _ => Some (nextCmrItem, st)
  end.

(** [while (await esGranulesIterator.peek()) { ... }] *)
Fixpoint drainDb (fuel : nat) (q : Queue DbItem) (acc : list CumulusEntry.t)
  : option (list CumulusEntry.t) :=
  match peek q with
  | (None, _) => Some acc
  | (Some _, q1) =>
      match fuel with
      | 0 => None
      | S fuel' =>
          let '(shifted, q2) := shift q1 in
          dbItem ← shifted;
          drainDb fuel' q2 (acc ++ [cumulusEntryOf (granuleId dbItem)])
      end
  end.

(** [while (await cmrGranulesIterator.peek()) { ... }]: the entry takes
    its [GranuleUR] from the item shifted, and its [ShortName] and
    [Version] from [nextCmrItem], the item the first loop looked at
    last. *)
Fixpoint drainCmr (fuel : nat) (nextCmrItem : option CmrItem) (q : Queue CmrItem)
    (acc : list CmrEntry.t) : option (list CmrEntry.t) :=
  match peek q with
  | (None, _) => Some acc
  | (Some _, q1) =>
      match fuel with
      | 0 => None
      | S fuel' =>
          let '(shifted, q2) := shift q1 in
          cmrItem ← shifted;
          last ← nextCmrItem;
          drainCmr fuel' nextCmrItem q2
            (acc ++ [{| CmrEntry.GranuleUR := GranuleUR cmrItem;
                        CmrEntry.ShortName := ShortName last;
                        CmrEntry.Version := Version last |}])
      end
  end.

(** The whole function: [cmrGranules] is what the CMR search returns for
    the collection, page by page, and [esGranules] what the Elasticsearch
    query returns. *)
Definition reconciliationReportForGranules
    (cmrGranules : list (list CmrItem)) (esGranules : list (list DbItem))
  : option Result :=
  let cmrGranulesIterator0 := open cmrGranules in
  let esGranulesIterator0 := open esGranules in
  let fuel := remaining esGranulesIterator0 + remaining cmrGranulesIterator0 in
  let '(nextDbItem, q1) := peek esGranulesIterator0 in
  let '(nextCmrItem, q2) := peek cmrGranulesIterator0 in
  '(lastCmrItem, st) ←
    mainLoop fuel nextDbItem nextCmrItem
      {| esGranulesIterator := q1; cmrGranulesIterator := q2;
         result := {| granulesReport :=
                        {| okCount := 0; onlyInCumulus := []; onlyInCmr := [] |};
                      filesReport :=
                        {| GranuleFiles.okCount := 0;
                           GranuleFiles.onlyInCumulus := [];
                           GranuleFiles.onlyInCmr := [] |} |} |};
  let g := granulesReport (result st) in
  inCumulus ← drainDb fuel (esGranulesIterator st) (onlyInCumulus g);
  inCmr ← (if oneWay then Some (onlyInCmr g)
           else drainCmr fuel lastCmrItem (cmrGranulesIterator st) (onlyInCmr g));
  Some {| granulesReport :=
            {| okCount := okCount g; onlyInCumulus := inCumulus; onlyInCmr := inCmr |};
          filesReport := filesReport (result st) |}.

End WithCollection.

End Granules.

(** ** Effects: thrown errors, the tracking records and the report documents *)

Module Effects.

(** A thrown error: its [name] ([TypeError], [Error], ...) and its message. *)
Record Error : Type := { name : string; message : string }.

Definition TypeError (msg : string) : Error := {| name := "TypeError"; message := msg |}.

Inductive result (A : Type) : Type :=
| Returned (a : A)
| Threw (e : Error).

Arguments Returned {A} a.
Arguments Threw {A} e.

(** The computation returned: it did not throw. *)
Definition returned {A : Type} (r : result A) : bool :=
  match r with
  | Returned _ => true
  | Threw _ => false
  end.

(** The [error] field of a failed record: [{ Error, Cause }]. *)
Record Failure : Type := { Error' : string; Cause : string }.

(** A record of the reconciliation reports table. *)
Record ReportRecord : Type := {
  recordName : string;
  type : Value.value;
  status : string;
  location : string;
  error : option Failure
}.

(** The head of a report document. *)
Record Header : Type := {
  reportType : Value.value;
  reportStatus : string;
  createStartTime : string;
  createEndTime : option string
}.

Record FilesInCumulus : Type := {
  okCount : nat;
  okCountByGranule : OkCounts.t;
  onlyInS3 : list string;
  onlyInDynamoDb : list Bucket.Entry.t
}.

(** [collectionsInCumulusCmr]: [{ okCount, onlyInCumulus, onlyInCmr }]. *)
Record CollectionsInCumulusCmr : Type := {
  okCollectionCount : nat;
  collectionsOnlyInCumulus : list string;
  collectionsOnlyInCmr : list string
}.

(** What [reconciliationReportForCumulusCMR] returns. *)
Record CumulusCmrReport : Type := {
  collections : CollectionsInCumulusCmr;
  granules : Granules.GranulesReport;
  granuleFiles : GranuleFiles.Report
}.

(** The report document, the [Body] of a [putObject] before
    [JSON.stringify]. *)
Record Document : Type := {
  header : Header;
  filesInCumulus : FilesInCumulus;
  collectionsInCumulusCmr : CollectionsInCumulusCmr;
  granulesInCumulusCmr : Granules.GranulesReport;
  filesInCumulusCmr : GranuleFiles.Report
}.

(** The calls that leave the process, in the order in which they are
    made. *)
Inductive Effect : Type :=
| Create (r : ReportRecord)
| UpdateStatus (key status' : string)
| Update (key status' : string) (failure : Failure)
| Get (key : string)
| GetJsonS3Object (what : string)
| PutObject (Bucket Key : string) (Body : Document)
| Reconcile (what : string).

(** The calls that the report functions make: reads and writes of S3
    objects and the comparisons. *)
Definition ofReportFunction (e : Effect) : Prop :=
  match e with
  | GetJsonS3Object _ | PutObject _ _ _ | Reconcile _ => True
  | _ => False
  end.

(** The statuses of the report documents that a log writes, in order. *)
Definition writtenStatuses (evs : list Effect) : list string :=
  flat_map (fun e => match e with
                     | PutObject _ _ body => [reportStatus (header body)]
                     | _ => []
                     end) evs.

(** The stores the lambda writes to, and the log of its calls. *)
Record World : Type := {
  reports : gmap string ReportRecord;
  objects : gmap (string * string) Document;
  log : list Effect
}.

(** A computation that reads and writes the world and may throw. *)
Definition M (A : Type) : Type := World -> World * result A.

Definition ret {A : Type} (a : A) : M A := fun w => (w, Returned a).

Definition throw {A : Type} (e : Error) : M A := fun w => (w, Threw e).

Definition bind {A B : Type} (m : M A) (k : A -> M B) : M B :=
  fun w =>
    match m w with
    | (w', Returned a) => k a w'
    | (w', Threw e) => (w', Threw e)
    end.

(** [try { m } catch (error) { handler error }] *)
Definition try_catch {A : Type} (m : M A) (handler : Error -> M A) : M A :=
  fun w =>
    match m w with
    | (w', Returned a) => (w', Returned a)
    | (w', Threw e) => handler e w'
    end.

(** The outcome of an [await] on something the world decides. *)
Definition settle {A : Type} (outcome : result A) : M A := fun w => (w, outcome).

Definition emit (e : Effect) : M unit :=
  fun w => ({| reports := reports w; objects := objects w; log := log w ++ [e] |},
           Returned tt).

Definition setReports (f : gmap string ReportRecord -> gmap string ReportRecord) : M unit :=
  fun w => ({| reports := f (reports w); objects := objects w; log := log w |},
           Returned tt).

Definition setObjects (f : gmap (string * string) Document -> gmap (string * string) Document)
  : M unit :=
  fun w => ({| reports := reports w; objects := f (objects w); log := log w |},
           Returned tt).

#[global] Instance result_ret : MRet result := @Returned.
#[global] Instance result_bind : MBind result :=
  fun A B k r => match r with Returned a => k a | Threw e => Threw e end.
#[global] Instance M_ret : MRet M := @ret.
#[global] Instance M_bind : MBind M := fun A B k m => bind m k.

End Effects.

(** ** The reconciliation reports table *)

Module ReconciliationReport.
Import Effects.

(** Modelled from the spec: the model class of the table is missing.  The
    spec asks for a tracking-record store with create and update by key;
    [create] puts the record under its [name]. *)
Definition create (r : ReportRecord) : M unit :=
  emit (Create r);;
  setReports (fun db => <[recordName r := r]> db).

Definition withStatus (s : string) (failure : option Failure) (r : ReportRecord)
  : ReportRecord :=
  {| recordName := recordName r; type := type r; status := s;
     location := location r;
     error := match failure with Some f => Some f | None => error r end |}.

(** Modelled from the spec: [updateStatus(key, status)] sets the status
    of the record under the key. *)
Definition updateStatus (key s : string) : M unit :=
  emit (UpdateStatus key s);;
  setReports (fun db => alter (withStatus s None) key db).

(** Modelled from the spec: [update(key, { status, error })] sets both
    fields of the record under the key. *)
Definition update (key s : string) (failure : Failure) : M unit :=
  emit (Update key s failure);;
  setReports (fun db => alter (withStatus s (Some failure)) key db).

(** The read of the table behind [get]. *)
Definition read (key : string) : M ReportRecord :=
  fun w =>
    match reports w !! key with
    | Some r => (w, Returned r)
    | None => (w, Threw {| name := "RecordDoesNotExist";
                           message := "No record found for " +:+ key |})
    end.

(** Modelled from the spec: [get(key)] reads the record under the key and
    throws when there is none. *)
Definition get (key : string) : M ReportRecord :=
  emit (Get key);; read key.

End ReconciliationReport.

(** ** The request: [isoTimestamp] and [normalizeEvent] *)

Module Normalize.
Import Value Effects.

Definition lowerAscii (c : ascii) : ascii :=
  let n := N_of_ascii c in
  if (65 <=? n)%N && (n <=? 90)%N then ascii_of_N (n + 32) else c.

(** [s.toLowerCase()] on the letters A to Z. *)
Fixpoint lower (s : string) : string :=
  match s with
  | EmptyString => EmptyString
  | String c rest => String (lowerAscii c) (lower rest)
  end.

(** [v.toLowerCase()]: only a string has the method. *)
Definition toLowerCase (v : value) : result string :=
  match v with
  | Str s => Returned (lower s)
  | _ => Threw (TypeError "reportType.toLowerCase is not a function")
  end.

Section WithRuntime.
(** [process.env] *)
Variable env : gmap string string.
(** [new Date(v).valueOf()], [None] when it is [NaN]. *)
Variable dateValue : value -> option Z.
(** [aDate.toISOString()] from the time value of the date. *)
Variable toISOString : Z -> string.
Variable JSON_stringify : value -> string.
(** [removeNilProperties] of the common package is not part of the
    sources at hand. *)
Variable removeNilProperties : object -> object.

Definition envGet (k : string) : value :=
  match env !! k with
  | Some s => Str s
  | None => Undefined
  end.

Definition isoTimestamp (dateable : value) : result value :=
  if truthy dateable then
    match dateValue dateable with
    | None =>
        Threw (TypeError (toString dateable +:+ " is not a valid input for new Date()."))
    | Some t => Returned (Str (toISOString t))
    end
  else Returned Undefined.

Definition normalizeEvent (event : object) : result object :=
  let systemBucket := or (get event "systemBucket") (envGet "system_bucket") in
  let stackName := or (get event "stackName") (envGet "stackName") in
  startTimestamp ← isoTimestamp (get event "startTimestamp");
  endTimestamp ← isoTimestamp (get event "endTimestamp");
  let reportType0 := or (get event "reportType") (Str "Inventory") in
  lowered ← toLowerCase reportType0;
  let reportType :=
    if String.eqb lowered "granulenotfound" then Str "Granule Not Found"
    else reportType0 in
  let anyCollectionIds := get event "collectionIds" in
  let collectionId := get event "collectionId" in
  let modifiedEvent : object := delete "collectionId" (delete "collectionIds" event) in
  if truthy anyCollectionIds then
    Threw (TypeError "`collectionIds` is not a valid input key for a reconciliation report, use `collectionId` instead.")
  else
    modifiedEvent' ←
      (if truthy collectionId then
         if isStr reportType "Internal" then
           if negb (isString collectionId) then
             Threw (TypeError (JSON_stringify collectionId
                               +:+ " is not valid input for an 'Internal' report."))
           else Returned (<["collectionIds" := Arr [collectionId]]> event)
         else
           let collectionIds :=
             if isString collectionId then Arr [collectionId] else collectionId in
           Returned (<["collectionIds" := collectionIds]> modifiedEvent)
       else Returned modifiedEvent);
    Returned
      (removeNilProperties
         (<["reportType" := reportType]>
            (<["endTimestamp" := endTimestamp]>
               (<["startTimestamp" := startTimestamp]>
                  (<["stackName" := stackName]>
                     (<["systemBucket" := systemBucket]> modifiedEvent')))))).

End WithRuntime.

End Normalize.

(** ** ReportOrchestrator: [createReconciliationReport], [processRequest], [handler] *)

Module Orchestrator.
Import Value Effects.

(** [['private', 'public', 'protected'].includes(bucketConfig.type)] *)
Definition isDataBucket (bucketConfig : BucketsConfig.Config) : bool :=
  GranuleFiles.includes ["private"; "public"; "protected"] (BucketsConfig.type bucketConfig).

(** Modelled from the spec: [initialReportHeader] of the report library
    is missing.  A report is created in status Pending at request time
    and persisted once with zeroed sub-reports. *)
Definition initialReportHeader (recReportParams : object) : Header :=
  {| reportType := get recReportParams "reportType";
     reportStatus := "Pending";
     createStartTime := toString (get recReportParams "createStartTime");
     createEndTime := None |}.

(** [s3().putObject({ Bucket, Key, Body }).promise()] *)
Definition putObject (bucket key : string) (body : Document) : M unit :=
  emit (PutObject bucket key body);;
  setObjects (fun store => <[(bucket, key) := body]> store).

(** The body of [bucketReports.forEach].  [Object.keys] gives the keys
    of the properties of the report of the bucket itself; a pass of the
    inner [forEach] reads and writes under its own key only, so the
    order of the keys does not matter. *)
Definition addBucketReport (acc : FilesInCumulus) (bucketReport : Bucket.Report)
  : FilesInCumulus :=
  {| okCount := okCount acc + Bucket.okCount bucketReport;
     okCountByGranule :=
       map_fold (fun granuleId bucketGranuleCount counts =>
                   let currentGranuleCount := OkCounts.get counts granuleId in
                   OkCounts.set granuleId
                     (OkCounts.plus (OkCounts.orZero currentGranuleCount) bucketGranuleCount)
                     counts)
                (okCountByGranule acc) (Bucket.okCountByGranule bucketReport);
     onlyInS3 := onlyInS3 acc ++ Bucket.onlyInS3 bucketReport;
     onlyInDynamoDb := onlyInDynamoDb acc ++ Bucket.onlyInDynamoDb bucketReport |}.

Definition reportFormatCumulusCmr : CollectionsInCumulusCmr :=
  {| okCollectionCount := 0; collectionsOnlyInCumulus := []; collectionsOnlyInCmr := [] |}.

Section WithWorld.
Variable buildS3Uri : string -> string -> string.
(** [_.camelCase] *)
Variable camelCase : string -> string.
(** [errorify] of the API library is not part of the sources at hand. *)
Variable errorify : Error -> string.
(** [moment.utc()] at the start of a run, formatted for the name of the
    report and as a timestamp, and at its end. *)
Variable startStamp : string.
Variable startTime : string.
Variable endTime : string.
(** What the world answers: the two JSON objects of the system bucket,
    the bucket reports once all of them have settled, the comparison
    with CMR, and the internal report.  Each is a value or the error that
    was thrown. *)
Variable bucketsConfigJson : result (list (string * BucketsConfig.Config)).
Variable distributionBucketMapJson : result (gmap string string).
Variable bucketReports : list string -> result (list Bucket.Report).
Variable reconciliationReportForCumulusCMR :
  BucketsConfig.t -> gmap string string -> object -> result CumulusCmrReport.
Variable createInternalReconciliationReport : object -> result unit.

(** [Object.values(bucketsConfigJson).filter(isDataBucket).map((config) => config.name)] *)
Definition dataBucketsOf (json : list (string * BucketsConfig.Config)) : list string :=
  map BucketsConfig.name (List.filter isDataBucket (map snd json)).

Definition createReconciliationReport (recReportParams : object) : M unit :=
  let reportKey := toString (get recReportParams "reportKey") in
  let systemBucket := toString (get recReportParams "systemBucket") in
  emit (GetJsonS3Object "buckets");;
  json ← settle bucketsConfigJson;
  emit (GetJsonS3Object "distribution_bucket_map");;
  distributionBucketMap ← settle distributionBucketMapJson;
  let dataBuckets := dataBucketsOf json in
  let bucketsConfig := {| BucketsConfig.buckets := json |} in
  let report0 :=
    {| header := initialReportHeader recReportParams;
       filesInCumulus := {| okCount := 0; okCountByGranule := ∅;
                            onlyInS3 := []; onlyInDynamoDb := [] |};
       collectionsInCumulusCmr := reportFormatCumulusCmr;
       granulesInCumulusCmr :=
         {| Granules.okCount := 0; Granules.onlyInCumulus := [];
            Granules.onlyInCmr := [] |};
       filesInCumulusCmr :=
         {| GranuleFiles.okCount := 0; GranuleFiles.onlyInCumulus := [];
            GranuleFiles.onlyInCmr := [] |} |} in
  putObject systemBucket reportKey report0;;
  emit (Reconcile "buckets");;
  reports ← settle (bucketReports dataBuckets);
  let files := fold_left addBucketReport reports (filesInCumulus report0) in
  emit (Reconcile "cumulus-cmr");;
  cumulusCmrReport ← settle (reconciliationReportForCumulusCMR
                               bucketsConfig distributionBucketMap recReportParams);
  putObject systemBucket reportKey
    {| header := {| reportType := reportType (header report0);
                    reportStatus := "SUCCESS";
                    createStartTime := createStartTime (header report0);
                    createEndTime := Some endTime |};
       filesInCumulus := files;
       collectionsInCumulusCmr := collections cumulusCmrReport;
       granulesInCumulusCmr := granules cumulusCmrReport;
       filesInCumulusCmr := granuleFiles cumulusCmrReport |}.

(** The name of the report record: [reportName] or a name made of the
    report type and the time. *)
Definition reportRecordNameOf (params : object) : string :=
  toString (or (get params "reportName")
               (Str (camelCase (toString (get params "reportType"))
                     +:+ "Report-" +:+ startStamp))).

Definition reportKeyOf (params : object) : string :=
  toString (get params "stackName") +:+ "/reconciliation-reports/"
  +:+ reportRecordNameOf params +:+ ".json".

Definition reportRecordOf (params : object) : ReportRecord :=
  {| recordName := reportRecordNameOf params;
     type := get params "reportType";
     status := "Pending";
     location := buildS3Uri (toString (get params "systemBucket")) (reportKeyOf params);
     error := None |}.

(** [{ ...params, createStartTime, reportKey, reportType }] *)
Definition recReportParamsOf (params : object) : object :=
  <["reportType" := get params "reportType"]>
    (<["reportKey" := Str (reportKeyOf params)]>
       (<["createStartTime" := Str startTime]> params)).

(** The report function that the [try] block calls for the type of the
    report. *)
Definition createReport (recReportParams : object) : M unit :=
  if isStr (get recReportParams "reportType") "Internal" then
    emit (Reconcile "internal");;
    settle (createInternalReconciliationReport recReportParams)
  else createReconciliationReport recReportParams.

Definition processRequest (params : object) : M ReportRecord :=
  let reportRecord := reportRecordOf params in
  ReconciliationReport.create reportRecord;;
  try_catch
    (createReport (recReportParamsOf params);;
     ReconciliationReport.updateStatus (recordName reportRecord) "Generated")
    (fun error =>
       ReconciliationReport.update (recordName reportRecord) "Failed"
         {| Error' := message error; Cause := errorify error |});;
  ReconciliationReport.get (recordName reportRecord).

(** What the report function comes to, from the answers of the world
    alone: the first error thrown, if any. *)
Definition outcome (recReportParams : object) : result unit :=
  if isStr (get recReportParams "reportType") "Internal" then
    createInternalReconciliationReport recReportParams
  else
    json ← bucketsConfigJson;
    distributionBucketMap ← distributionBucketMapJson;
    _ ← bucketReports (dataBucketsOf json);
    _ ← reconciliationReportForCumulusCMR
          {| BucketsConfig.buckets := json |} distributionBucketMap recReportParams;
    Returned tt.

Section WithRuntime.
Variable env : gmap string string.
Variable dateValue : value -> option Z.
Variable toISOString : Z -> string.
Variable JSON_stringify : value -> string.
Variable removeNilProperties : object -> object.

Definition handler (event : object) : M ReportRecord :=
  match Normalize.normalizeEvent env dateValue toISOString JSON_stringify
          removeNilProperties event with
  | Returned reportParams => processRequest reportParams
  | Threw e => throw e
  end.

End WithRuntime.

End WithWorld.

End Orchestrator.

(** ** The merge-join over two complete listings

    The three reconcilers walk two sorted listings in step.  [mergeJoin]
    is that walk over the listings as lists, with no cursor: the event of
    every pass, then what is left of either listing.  The lemmas of
    Part II relate the loops of the source to it. *)

Module MergeJoin.

Section Events.
Context {A B : Type}.
Variable keyA : A -> string.
Variable keyB : B -> string.

Inductive event : Type :=
| Less (a : A) (b : B)
| Greater (a : A) (b : B)
| Equal (a : A) (b : B)
| RestA (a : A)
| RestB (b : B).

Fixpoint mergeJoin (xs : list A) : list B -> list event :=
  fix inner (ys : list B) : list event :=
    match xs with
    | [] => map RestB ys
    | a :: xs' =>
        match ys with
        | [] => map RestA xs
        | b :: ys' =>
            if String.ltb (keyA a) (keyB b) then Less a b :: mergeJoin xs' ys
            else if String.ltb (keyB b) (keyA a) then Greater a b :: inner ys'
            else Equal a b :: mergeJoin xs' ys'
        end
    end.

(** The elements the walk found on the first side only, on the second
    side only, and the number of those it found on both. *)
Definition onlyA (evs : list event) : list A :=
  flat_map (fun e => match e with Less a _ | RestA a => [a] | _ => [] end) evs.

Definition onlyB (evs : list event) : list B :=
  flat_map (fun e => match e with Greater _ b | RestB b => [b] | _ => [] end) evs.

Definition both (evs : list event) : list A :=
  flat_map (fun e => match e with Equal a _ => [a] | _ => [] end) evs.

End Events.

End MergeJoin.

(** ** The reports as folds over the events of the merge-join *)

Module Folds.

Section BucketFold.
Variable buildS3Uri : string -> string -> string.
Variable Bucket : string.

Definition s3Uri (o : Bucket.S3Object) : string := buildS3Uri Bucket (Bucket.Key o).
Definition dynamoDbUri (d : Bucket.DynamoDbItem) : string := buildS3Uri Bucket (Bucket.key d).

(** What a pass with the event [e] makes of the report of a bucket. *)
Definition bucketEvent (r : Bucket.Report) (e : @MergeJoin.event Bucket.S3Object Bucket.DynamoDbItem)
  : Bucket.Report :=
  match e with
  | MergeJoin.Less a b =>
      {| Bucket.okCount := Bucket.okCount r;
         Bucket.onlyInS3 := Bucket.onlyInS3 r ++ [s3Uri a];
         Bucket.onlyInDynamoDb := Bucket.onlyInDynamoDb r;
         Bucket.okCountByGranule :=
           Bucket.initCount (Bucket.granuleId b) (Bucket.okCountByGranule r) |}
  | MergeJoin.Greater a b =>
      {| Bucket.okCount := Bucket.okCount r;
         Bucket.onlyInS3 := Bucket.onlyInS3 r;
         Bucket.onlyInDynamoDb :=
           Bucket.onlyInDynamoDb r ++ [Bucket.entryOf buildS3Uri Bucket b];
         Bucket.okCountByGranule :=
           Bucket.initCount (Bucket.granuleId b) (Bucket.okCountByGranule r) |}
  | MergeJoin.Equal a b =>
      {| Bucket.okCount := Bucket.okCount r + 1;
         Bucket.onlyInS3 := Bucket.onlyInS3 r;
         Bucket.onlyInDynamoDb := Bucket.onlyInDynamoDb r;
         Bucket.okCountByGranule :=
           Bucket.increment (Bucket.granuleId b)
             (Bucket.initCount (Bucket.granuleId b) (Bucket.okCountByGranule r)) |}
  | MergeJoin.RestA a =>
      {| Bucket.okCount := Bucket.okCount r;
         Bucket.onlyInS3 := Bucket.onlyInS3 r ++ [s3Uri a];
         Bucket.onlyInDynamoDb := Bucket.onlyInDynamoDb r;
         Bucket.okCountByGranule := Bucket.okCountByGranule r |}
  | MergeJoin.RestB b =>
      {| Bucket.okCount := Bucket.okCount r;
         Bucket.onlyInS3 := Bucket.onlyInS3 r;
         Bucket.onlyInDynamoDb :=
           Bucket.onlyInDynamoDb r ++ [Bucket.entryOf buildS3Uri Bucket b];
         Bucket.okCountByGranule := Bucket.okCountByGranule r |}
  end.

Definition emptyBucketReport : Bucket.Report :=
  {| Bucket.okCount := 0; Bucket.onlyInS3 := []; Bucket.onlyInDynamoDb := [];
     Bucket.okCountByGranule := ∅ |}.

(** The report of a bucket from the two complete listings. *)
Definition bucketReportOf (s3Objects : list Bucket.S3Object)
    (dynamoDbItems : list Bucket.DynamoDbItem) : Bucket.Report :=
  fold_left bucketEvent (MergeJoin.mergeJoin s3Uri dynamoDbUri s3Objects dynamoDbItems)
            emptyBucketReport.

End BucketFold.

(** What a pass with the event [e] makes of the report on collections. *)
Definition collectionEvent (oneWayReport : bool) (r : Collections.Report)
    (e : @MergeJoin.event string string) : Collections.Report :=
  match e with
  | MergeJoin.Less a _ | MergeJoin.RestA a =>
      {| Collections.okCollections := Collections.okCollections r;
         Collections.onlyInCumulus := Collections.onlyInCumulus r ++ [a];
         Collections.onlyInCmr := Collections.onlyInCmr r |}
  | MergeJoin.Greater _ b | MergeJoin.RestB b =>
      {| Collections.okCollections := Collections.okCollections r;
         Collections.onlyInCumulus := Collections.onlyInCumulus r;
         Collections.onlyInCmr :=
           if oneWayReport then Collections.onlyInCmr r
           else Collections.onlyInCmr r ++ [b] |}
  | MergeJoin.Equal a _ =>
      {| Collections.okCollections := Collections.okCollections r ++ [a];
         Collections.onlyInCumulus := Collections.onlyInCumulus r;
         Collections.onlyInCmr := Collections.onlyInCmr r |}
  end.

End Folds.

(** ** Sample inputs *)

Module Samples.

(** [s3://bucket/key], the shape of the URIs in the examples. *)
Definition buildS3Uri (bucket key : string) : string :=
  "s3://" +:+ bucket +:+ "/" +:+ key.

(** A bucket whose storage lists a, b, d in three pages, one of them
    empty, and whose files table lists a, c, d in two. *)
Definition s3Listing : list (list Bucket.S3Object) :=
  [[{| Bucket.Key := "a" |}; {| Bucket.Key := "b" |}]; []; [{| Bucket.Key := "d" |}]].

Definition dynamoDbScan : list (list Bucket.DynamoDbItem) :=
  [[{| Bucket.key := "a"; Bucket.granuleId := "g1" |}];
   [{| Bucket.key := "c"; Bucket.granuleId := "g1" |};
    {| Bucket.key := "d"; Bucket.granuleId := "g2" |}]].

(** The collections of the catalog and of the index. *)
Definition cmrIds : list string := ["X___1"; "Y___1"].
Definition esIds : list string := ["X___1"; "Z___1"].

(** A request with no time window, and one with a start time. *)
Definition twoWayParams : Value.object := {["reportType" := Value.Str "Inventory"]}.
Definition oneWayParams : Value.object :=
  <["startTimestamp" := Value.Str "2020-09-01T00:00:00.000Z"]> twoWayParams.

(** The buckets of a stack: one private, one protected, one public. *)
Definition bucketsConfig : BucketsConfig.t :=
  {| BucketsConfig.buckets :=
       [("private", {| BucketsConfig.name := "priv"; BucketsConfig.type := "private" |});
        ("protected", {| BucketsConfig.name := "prot"; BucketsConfig.type := "protected" |});
        ("public", {| BucketsConfig.name := "pub"; BucketsConfig.type := "public" |})] |}.

(** An access-URL policy: a file in a protected or a public bucket is
    served by the distribution endpoint or read from S3; other files
    have no URL. *)
Definition constructOnlineAccessUrl (req : GranuleFiles.UrlRequest) : option string :=
  b ← GranuleFiles.bucket (GranuleFiles.file req);
  k ← GranuleFiles.key (GranuleFiles.file req);
  t ← GranuleFiles.bucketTypes req !! b;
  if GranuleFiles.includes ["protected"; "public"] t then
    if String.eqb (GranuleFiles.cmrGranuleUrlType req) "distribution" then
      Some (default "" (GranuleFiles.distEndpoint req) +:+ "/" +:+ b +:+ "/" +:+ k)
    else if String.eqb (GranuleFiles.cmrGranuleUrlType req) "s3" then
      Some (buildS3Uri b k)
    else None
  else None.

Definition DISTRIBUTION_ENDPOINT : option string := Some "https://dist".

(** The files of a granule: one in the protected bucket, one in the
    private bucket. *)
Definition f1 : GranuleFiles.File :=
  {| GranuleFiles.fileName := "f1.hdf"; GranuleFiles.bucket := Some "prot";
     GranuleFiles.key := Some "path/f1.hdf"; GranuleFiles.source := None |}.
Definition f2 : GranuleFiles.File :=
  {| GranuleFiles.fileName := "f2.met"; GranuleFiles.bucket := Some "priv";
     GranuleFiles.key := Some "path/f2.met"; GranuleFiles.source := None |}.

Definition granuleInDb : GranuleFiles.GranuleInDb :=
  {| GranuleFiles.granuleId := "G1"; GranuleFiles.collectionId := "X___1";
     GranuleFiles.files := [f1; f2] |}.

(** A granule that has the protected file only. *)
Definition loneGranule : GranuleFiles.GranuleInDb :=
  {| GranuleFiles.granuleId := "G1"; GranuleFiles.collectionId := "X___1";
     GranuleFiles.files := [f1] |}.

(** The catalog declares a download URL at the address of f1. *)
Definition matchingUrl : GranuleFiles.RelatedUrl :=
  {| GranuleFiles.URL := "https://dist/prot/path/f1.hdf"; GranuleFiles.Type' := "GET DATA" |}.

(** A download URL that names f1 at another address. *)
Definition movedUrl : GranuleFiles.RelatedUrl :=
  {| GranuleFiles.URL := "https://elsewhere/f1.hdf"; GranuleFiles.Type' := "GET DATA" |}.

(** A download URL for a file the granule does not have. *)
Definition strangerUrl : GranuleFiles.RelatedUrl :=
  {| GranuleFiles.URL := "https://dist/prot/path/f9.hdf"; GranuleFiles.Type' := "GET DATA" |}.

Definition granuleInCmr (urls : list GranuleFiles.RelatedUrl) : GranuleFiles.GranuleInCmr :=
  {| GranuleFiles.GranuleUR := "G1"; GranuleFiles.ShortName := "X";
     GranuleFiles.Version := "1"; GranuleFiles.RelatedUrls := urls |}.

(** The granules of a collection in the index and in the catalog. *)
Definition esGranules : list (list Granules.DbItem) :=
  [[{| Granules.granuleId := "G1"; Granules.files := [f1; f2] |}];
   [{| Granules.granuleId := "G3"; Granules.files := [] |}]].

Definition cmrGranules : list (list Granules.CmrItem) :=
  [[{| Granules.GranuleUR := "G1"; Granules.ShortName := "X"; Granules.Version := "1";
       Granules.RelatedUrls := [matchingUrl] |};
    {| Granules.GranuleUR := "G2"; Granules.ShortName := "X"; Granules.Version := "1";
       Granules.RelatedUrls := [] |}];
   [{| Granules.GranuleUR := "G4"; Granules.ShortName := "X"; Granules.Version := "1";
       Granules.RelatedUrls := [] |}]].

(** A runtime: the environment of the process, a [Date] that reads one
    timestamp and numbers (the empty string is no date), and the helpers
    of the common package. *)
Definition env : gmap string string :=
  {["system_bucket" := "internal"; "stackName" := "stack"]}.

Definition dateValue (v : Value.value) : option Z :=
  match v with
  | Value.Number z => Some z
  | Value.Str s =>
      if String.eqb s "2020-09-01T00:00:00.000Z" then Some 1598918400000%Z else None
  | _ => None
  end.

Definition toISOString (t : Z) : string := "2020-09-01T00:00:00.000Z".

Definition removeNilProperties (o : Value.object) : Value.object :=
  filter (fun kv => Value.isNil (snd kv) = false) o.

(** Requests: a start time that is the empty string, the plural
    [collectionIds] as an empty string next to a [collectionId], a start
    time that is no date, and the plural [collectionIds] as an array. *)
Definition blankStartEvent : Value.object :=
  {["startTimestamp" := Value.Str ""]}.

Definition blankPluralEvent : Value.object :=
  {["collectionIds" := Value.Str ""; "collectionId" := Value.Str "X___1"]}.

Definition blankPluralOnlyEvent : Value.object :=
  {["collectionIds" := Value.Str ""]}.

Definition badDateEvent : Value.object :=
  {["startTimestamp" := Value.Str "yesterday-ish"]}.

Definition pluralEvent : Value.object :=
  {["collectionIds" := Value.Arr [Value.Str "X___1"]]}.

(** A world with no record and no object, and answers that all succeed
    with empty reports. *)
Definition emptyWorld : Effects.World :=
  {| Effects.reports := ∅; Effects.objects := ∅; Effects.log := [] |}.

Definition noCumulusCmrReport : Effects.CumulusCmrReport :=
  {| Effects.collections :=
       {| Effects.okCollectionCount := 0; Effects.collectionsOnlyInCumulus := [];
          Effects.collectionsOnlyInCmr := [] |};
     Effects.granules :=
       {| Granules.okCount := 0; Granules.onlyInCumulus := []; Granules.onlyInCmr := [] |};
     Effects.granuleFiles :=
       {| GranuleFiles.okCount := 0; GranuleFiles.onlyInCumulus := [];
          GranuleFiles.onlyInCmr := [] |} |}.

(** A run of [createReconciliationReport] in which every answer is a
    value. *)
Definition successfulRun : Effects.World * Effects.result unit :=
  Orchestrator.createReconciliationReport "2020-09-01T00:00:05.000Z"
    (Effects.Returned (BucketsConfig.buckets bucketsConfig))
    (Effects.Returned ∅)
    (fun _ => Effects.Returned [])
    (fun _ _ _ => Effects.Returned noCumulusCmrReport)
    (<["reportKey" := Value.Str "stack/reconciliation-reports/r.json"]>
       (<["systemBucket" := Value.Str "internal"]> twoWayParams))
    emptyWorld.

End Samples.

(** ** The pairs that the merge-join matches *)

Module MergeJoinPairs.

(** The pairs of elements that the walk finds on both sides. *)
Definition matched {A B : Type} (evs : list (@MergeJoin.event A B)) : list (A * B) :=
  flat_map (fun e => match e with MergeJoin.Equal a b => [(a, b)] | _ => [] end) evs.

End MergeJoinPairs.

Module MergeJoinSeconds.

(** The elements of the second side that the passes of the walk compare
    with an element of the first. *)
Definition compared {A B : Type} (evs : list (@MergeJoin.event A B)) : list B :=
  flat_map (fun e => match e with
                     | MergeJoin.Less _ b | MergeJoin.Greater _ b | MergeJoin.Equal _ b => [b]
                     | _ => []
                     end) evs.

End MergeJoinSeconds.

(** ** The report on the granules of a collection as a fold over the events *)

Module GranuleFolds.

Section GranuleFold.
Variable constructOnlineAccessUrl : GranuleFiles.UrlRequest -> option string.
Variable buildS3Uri : string -> string -> string.
Variable DISTRIBUTION_ENDPOINT : option string.
Variable bucketsConfig : BucketsConfig.t.
Variable distributionBucketMap : gmap string string.
Variable collectionId : string.
Variable oneWay : bool.

(** [granuleInDb] and [granuleInCmr] as the third branch of the loop
    builds them from the two items it looks at. *)
Definition granuleInDbOf (d : Granules.DbItem) : GranuleFiles.GranuleInDb :=
  {| GranuleFiles.granuleId := Granules.granuleId d;
     GranuleFiles.collectionId := collectionId;
     GranuleFiles.files := Granules.files d |}.

Definition granuleInCmrOf (c : Granules.CmrItem) : GranuleFiles.GranuleInCmr :=
  {| GranuleFiles.GranuleUR := Granules.GranuleUR c;
     GranuleFiles.ShortName := Granules.ShortName c;
     GranuleFiles.Version := Granules.Version c;
     GranuleFiles.RelatedUrls := Granules.RelatedUrls c |}.

Definition fileReportOf (d : Granules.DbItem) (c : Granules.CmrItem) : GranuleFiles.Report :=
  GranuleFiles.reconciliationReportForGranuleFiles constructOnlineAccessUrl buildS3Uri
    DISTRIBUTION_ENDPOINT bucketsConfig distributionBucketMap
    (granuleInDbOf d) (granuleInCmrOf c).

(** An element of [granulesReport.onlyInCmr]: the [GranuleUR] of [item]
    with the [ShortName] and the [Version] of [fields]. *)
Definition cmrEntryOf (fields item : Granules.CmrItem) : Granules.CmrEntry.t :=
  {| Granules.CmrEntry.GranuleUR := Granules.GranuleUR item;
     Granules.CmrEntry.ShortName := Granules.ShortName fields;
     Granules.CmrEntry.Version := Granules.Version fields |}.

Definition addFileReport (f fileReport : GranuleFiles.Report) : GranuleFiles.Report :=
  {| GranuleFiles.okCount := GranuleFiles.okCount f + GranuleFiles.okCount fileReport;
     GranuleFiles.onlyInCumulus :=
       GranuleFiles.onlyInCumulus f ++ GranuleFiles.onlyInCumulus fileReport;
     GranuleFiles.onlyInCmr := GranuleFiles.onlyInCmr f ++ GranuleFiles.onlyInCmr fileReport |}.

(** What a pass with the event [e] makes of the two reports.  The items
    that the last loop takes from the CMR cursor get their [ShortName] and
    [Version] from [first], the item at which the first loop stopped. *)
Definition granuleEvent (first : option Granules.CmrItem) (r : Granules.Result)
    (e : @MergeJoin.event Granules.DbItem Granules.CmrItem) : Granules.Result :=
  let g := Granules.granulesReport r in
  let f := Granules.filesReport r in
  match e with
  | MergeJoin.Less a _ | MergeJoin.RestA a =>
      {| Granules.granulesReport :=
           {| Granules.okCount := Granules.okCount g;
              Granules.onlyInCumulus :=
                Granules.onlyInCumulus g
                ++ [Granules.cumulusEntryOf collectionId (Granules.granuleId a)];
              Granules.onlyInCmr := Granules.onlyInCmr g |};
         Granules.filesReport := f |}
  | MergeJoin.Greater _ b =>
      {| Granules.granulesReport :=
           {| Granules.okCount := Granules.okCount g;
              Granules.onlyInCumulus := Granules.onlyInCumulus g;
              Granules.onlyInCmr :=
                if oneWay then Granules.onlyInCmr g
                else Granules.onlyInCmr g ++ [cmrEntryOf b b] |};
         Granules.filesReport := f |}
  | MergeJoin.RestB b =>
      {| Granules.granulesReport :=
           {| Granules.okCount := Granules.okCount g;
              Granules.onlyInCumulus := Granules.onlyInCumulus g;
              Granules.onlyInCmr :=
                if oneWay then Granules.onlyInCmr g
                else Granules.onlyInCmr g ++ [cmrEntryOf (default b first) b] |};
         Granules.filesReport := f |}
  | MergeJoin.Equal a b =>
      {| Granules.granulesReport :=
           {| Granules.okCount := Granules.okCount g + 1;
              Granules.onlyInCumulus := Granules.onlyInCumulus g;
              Granules.onlyInCmr := Granules.onlyInCmr g |};
         Granules.filesReport := addFileReport f (fileReportOf a b) |}
  end.

(** The first item that the walk leaves to the last loop. *)
Definition firstRestB (evs : list (@MergeJoin.event Granules.DbItem Granules.CmrItem))
  : option Granules.CmrItem :=
  head (flat_map (fun e => match e with MergeJoin.RestB b => [b] | _ => [] end) evs).

Definition emptyResult : Granules.Result :=
  {| Granules.granulesReport :=
       {| Granules.okCount := 0; Granules.onlyInCumulus := []; Granules.onlyInCmr := [] |};
     Granules.filesReport :=
       {| GranuleFiles.okCount := 0; GranuleFiles.onlyInCumulus := [];
          GranuleFiles.onlyInCmr := [] |} |}.

Definition granuleJoin (esGranules : list Granules.DbItem) (cmrGranules : list Granules.CmrItem)
  : list (@MergeJoin.event Granules.DbItem Granules.CmrItem) :=
  MergeJoin.mergeJoin Granules.granuleId Granules.GranuleUR esGranules cmrGranules.

(** The two reports from the two complete listings. *)
Definition granulesReportOf (esGranules : list Granules.DbItem)
    (cmrGranules : list Granules.CmrItem) : Granules.Result :=
  let evs := granuleJoin esGranules cmrGranules in
  fold_left (granuleEvent (firstRestB evs)) evs emptyResult.

End GranuleFold.

End GranuleFolds.

(** ** Counts by granule *)

Module Counts.

(** The number that a count is, 0 when it is no number. *)
Definition valueOf (c : OkCounts.count) : nat :=
  match c with
  | OkCounts.Num n => n
  | _ => 0
  end.

(** The sum of the numbers that an [okCountByGranule] object holds. *)
Definition total (okCountByGranule : OkCounts.t) : nat :=
  map_fold (fun _ count sum => valueOf count + sum) 0 okCountByGranule.

(** The number that the object holds for a granule: a granule with no
    entry has no file counted. *)
Definition countOf (okCountByGranule : OkCounts.t) (granuleId : string) : nat :=
  match okCountByGranule !! granuleId with
  | Some count => valueOf count
  | None => 0
  end.

(** The object holds numbers only, and holds them under keys that
    [Object.prototype] does not have. *)
Definition plain (okCountByGranule : OkCounts.t) : Prop :=
  map_Forall (fun granuleId count =>
                OkCounts.inherited granuleId = None /\ exists n, count = OkCounts.Num n)
             okCountByGranule.

End Counts.

Module BucketSamples.

(** The reports of two buckets that hold files of the same granule. *)
Definition bucketReports : list Bucket.Report :=
  [{| Bucket.okCount := 2; Bucket.onlyInS3 := ["s3://priv/b"]; Bucket.onlyInDynamoDb := [];
      Bucket.okCountByGranule := {["g1" := OkCounts.Num 1; "g2" := OkCounts.Num 1]} |};
   {| Bucket.okCount := 3; Bucket.onlyInS3 := [];
      Bucket.onlyInDynamoDb :=
        [{| Bucket.Entry.uri := "s3://prot/c"; Bucket.Entry.granuleId := "g3" |}];
      Bucket.okCountByGranule := {["g1" := OkCounts.Num 3; "g3" := OkCounts.Num 0]} |}].

Definition recReportParams : Value.object :=
  <["reportKey" := Value.Str "stack/reconciliation-reports/r.json"]>
    (<["systemBucket" := Value.Str "internal"]> Samples.twoWayParams).

End BucketSamples.

Module CountSamples.

(** The files table lists a file of a granule whose id is the name of a
    property of [Object.prototype]. *)
Definition s3Listing : list (list Bucket.S3Object) :=
  [[{| Bucket.Key := "a" |}; {| Bucket.Key := "b" |}]].

Definition dynamoDbScan : list (list Bucket.DynamoDbItem) :=
  [[{| Bucket.key := "a"; Bucket.granuleId := "constructor" |};
    {| Bucket.key := "b"; Bucket.granuleId := "constructor" |}]].

End CountSamples.

(** ** The comparison with CMR: [reconciliationReportForCumulusCMR] *)

Module CumulusCmr.
Import Effects.

Section WithHoldings.
Variable constructOnlineAccessUrl : GranuleFiles.UrlRequest -> option string.
Variable buildS3Uri : string -> string -> string.
Variable DISTRIBUTION_ENDPOINT : option string.
(** What the CMR search and the Elasticsearch query return for the
    granules of a collection, page by page. *)
Variable cmrGranulesOf : string -> list (list Granules.CmrItem).
Variable esGranulesOf : string -> list (list Granules.DbItem).

(** [Promise.all(collectionReport.okCollections.map((collectionId) =>
    reconciliationReportForGranules({ collectionId, ... })))]: the calls
    share nothing, and the reports come back in the order of the
    collections. *)
Definition granuleAndFilesReports (bucketsConfig : BucketsConfig.t)
    (distributionBucketMap : gmap string string) (recReportParams : Value.object)
    (okCollections : list string) : option (list Granules.Result) :=
  mapM (fun collectionId =>
          Granules.reconciliationReportForGranules constructOnlineAccessUrl buildS3Uri
            DISTRIBUTION_ENDPOINT bucketsConfig distributionBucketMap collectionId
            (Collections.isOneWayReport recReportParams)
            (cmrGranulesOf collectionId) (esGranulesOf collectionId))
       okCollections.

(** The function, from the collections that the CMR search and the
    Elasticsearch query of [reconciliationReportForCollections] return. *)
Definition reconciliationReportForCumulusCMR (bucketsConfig : BucketsConfig.t)
    (distributionBucketMap : gmap string string) (recReportParams : Value.object)
    (cmrCollectionIds esCollectionIds : list string) : option CumulusCmrReport :=
  collectionReport ←
    Collections.reconciliationReportForCollections recReportParams
      cmrCollectionIds esCollectionIds;
  let collectionsInCumulusCmr :=
    {| okCollectionCount := length (Collections.okCollections collectionReport);
       collectionsOnlyInCumulus := Collections.onlyInCumulus collectionReport;
       collectionsOnlyInCmr := Collections.onlyInCmr collectionReport |} in
  granuleAndFilesReports ←
    granuleAndFilesReports bucketsConfig distributionBucketMap recReportParams
      (Collections.okCollections collectionReport);
  let granulesInCumulusCmr :=
    {| Granules.okCount :=
         fold_left (fun accumulator currentValue =>
                      accumulator + Granules.okCount (Granules.granulesReport currentValue))
                   granuleAndFilesReports 0;
       Granules.onlyInCumulus :=
         fold_left (fun accumulator currentValue =>
                      accumulator ++ Granules.onlyInCumulus (Granules.granulesReport currentValue))
                   granuleAndFilesReports [];
       Granules.onlyInCmr :=
         fold_left (fun accumulator currentValue =>
                      accumulator ++ Granules.onlyInCmr (Granules.granulesReport currentValue))
                   granuleAndFilesReports [] |} in
  let filesInCumulusCmr :=
    {| GranuleFiles.okCount :=
         fold_left (fun accumulator currentValue =>
                      accumulator + GranuleFiles.okCount (Granules.filesReport currentValue))
                   granuleAndFilesReports 0;
       GranuleFiles.onlyInCumulus :=
         fold_left (fun accumulator currentValue =>
                      accumulator ++ GranuleFiles.onlyInCumulus (Granules.filesReport currentValue))
                   granuleAndFilesReports [];
       GranuleFiles.onlyInCmr :=
         fold_left (fun accumulator currentValue =>
                      accumulator ++ GranuleFiles.onlyInCmr (Granules.filesReport currentValue))
                   granuleAndFilesReports [] |} in
  Some {| collections := collectionsInCumulusCmr;
          granules := granulesInCumulusCmr;
          granuleFiles := filesInCumulusCmr |}.

End WithHoldings.

End CumulusCmr.

Module CumulusCmrSamples.

(** The granules of the collection X___1 on both sides; no other
    collection has any. *)
Definition cmrGranulesOf (collectionId : string) : list (list Granules.CmrItem) :=
  if String.eqb collectionId "X___1" then Samples.cmrGranules else [].

Definition esGranulesOf (collectionId : string) : list (list Granules.DbItem) :=
  if String.eqb collectionId "X___1" then Samples.esGranules else [].

End CumulusCmrSamples.

(** ** The S3 helpers of the client package

    The second document of [packages/aws-client/src/Kinesis.ts] is the S3
    module of the client package: the helpers on keys and URIs, and the
    listing of a bucket page by page. *)

Module S3.
Import Effects.

(** [s.split('/')]: the segments between the slashes; a string with no
    slash is its only segment. *)
Fixpoint split (s : string) : list string :=
  match s with
  | EmptyString => [EmptyString]
  | String c rest =>
      if Ascii.eqb c "/"%char then EmptyString :: split rest
      else match split rest with
           | segment :: segments => String c segment :: segments
           | [] => [String c EmptyString]
           end
  end.

(** [token.replace(/^\//, '')] *)
Definition removeLeadingSlash (token : string) : string :=
  match token with
  | String c rest => if Ascii.eqb c "/"%char then rest else token
  | EmptyString => token
  end.

(** [token.replace(/\/$/, '')] *)
Fixpoint removeTrailingSlash (token : string) : string :=
  match token with
  | EmptyString => EmptyString
  | String c rest =>
      match rest with
      | EmptyString => if Ascii.eqb c "/"%char then EmptyString else token
      | String _ _ => String c (removeTrailingSlash rest)
      end
  end.

(** [token.length > 0] *)
Definition isNotEmptyString (token : string) : bool :=
  negb (String.eqb token "").

(** [s.endsWith('/')] *)
Fixpoint endsWithSlash (s : string) : bool :=
  match s with
  | EmptyString => false
  | String c rest =>
      match rest with
      | EmptyString => Ascii.eqb c "/"%char
      | String _ _ => endsWithSlash rest
      end
  end.

(** [s3Join(...args)], from the tokens on: the arguments themselves, or
    the array that is the first argument.  [tokens[tokens.length - 1]] of
    an empty array is [undefined], which has no method. *)
Definition s3Join (tokens : list string) : result string :=
  let key :=
    String.concat "/"
      (List.filter isNotEmptyString
         (map removeTrailingSlash (map removeLeadingSlash tokens))) in
  match last tokens with
  | Some lastToken =>
      if endsWithSlash lastToken then Returned (key +:+ "/") else Returned key
  | None => Threw (TypeError "Cannot read property 'endsWith' of undefined")
  end.

(** [key.replace(/^\/+/, '')] *)
Fixpoint removeLeadingSlashes (key : string) : string :=
  match key with
  | String c rest => if Ascii.eqb c "/"%char then removeLeadingSlashes rest else key
  | EmptyString => key
  end.

(** [`s3://${bucket}/${key.replace(/^\/+/, '')}`] *)
Definition buildS3Uri (bucket key : string) : string :=
  "s3://" +:+ bucket +:+ "/" +:+ removeLeadingSlashes key.

(** An element of an S3 [TagSet]. *)
Record Tag : Type := { Key : string; Value : string }.

(** [s.substring(1)] *)
Definition substring1 (s : string) : string :=
  match s with
  | EmptyString => EmptyString
  | String _ rest => rest
  end.

(** [tagset.reduce((acc, tag) => acc.concat(`&${tag.Key}=${tag.Value}`), '').substring(1)] *)
Definition s3TagSetToQueryString (tagset : list Tag) : string :=
  substring1
    (fold_left (fun acc tag => acc +:+ ("&" +:+ Key tag +:+ "=" +:+ Value tag)) tagset "").

(** The double quote of the message below. *)
Definition quote : string := String (Ascii.ascii_of_nat 34) EmptyString.

(** [getFileBucketAndKey(pathParams)]: the first segment of the path and
    the other segments joined again.  [split] returns one segment at
    least. *)
Definition getFileBucketAndKey (pathParams : string) : result (string * string) :=
  match split pathParams with
  | Bucket :: fields =>
      let Key := String.concat "/" fields in
      if (String.length Bucket =? 0) || (String.length Key =? 0) then
        Threw {| name := "UnparsableFileLocationError";
                 message := "File location " +:+ quote +:+ pathParams +:+ quote
                            +:+ " could not be parsed" |}
      else Returned (Bucket, Key)
  | [] => Threw (TypeError "Cannot read property 'length' of undefined")
  end.

(** The answer to a [listObjectsV2] call, as far as [listS3ObjectsV2]
    reads it. *)
Record ListObjectsV2Output : Type := {
  Contents : option (list Bucket.S3Object);
  IsTruncated : bool;
  NextContinuationToken : option string
}.

(** The parameters of a call: [params] as the caller gave them, or
    [{ ...params, ContinuationToken }]. *)
Inductive ListObjectsV2Request : Type :=
| Params
| WithContinuationToken (token : option string).

Section WithService.
(** [s3().listObjectsV2(request).promise()], when it resolves. *)
Variable listObjectsV2 : ListObjectsV2Request -> ListObjectsV2Output.

(** [while (listObjectsResponse.IsTruncated) { ... }]; [None] when the
    fuel runs out first. *)
Fixpoint listMore (fuel : nat) (listObjectsResponse : ListObjectsV2Output)
    (discoveredObjects : option (list Bucket.S3Object))
  : option (option (list Bucket.S3Object)) :=
  if IsTruncated listObjectsResponse then
    match fuel with
    | 0 => None
    | S fuel' =>
        let listObjectsResponse' :=
          listObjectsV2 (WithContinuationToken (NextContinuationToken listObjectsResponse)) in
        listMore fuel' listObjectsResponse'
          (Some (default [] discoveredObjects
                 ++ default [] (Contents listObjectsResponse')))
    end
  else Some discoveredObjects.

(** [listS3ObjectsV2(params)]: what it returns is an array or
    [undefined]. *)
Definition listS3ObjectsV2 (fuel : nat) : option (option (list Bucket.S3Object)) :=
  let listObjectsResponse := listObjectsV2 Params in
  listMore fuel listObjectsResponse (Contents listObjectsResponse).

(** The answers of the service in the order of the calls: the answer to
    [params], then the answer to the token of the answer before. *)
Fixpoint response (n : nat) : ListObjectsV2Output :=
  match n with
  | 0 => listObjectsV2 Params
  | S k => listObjectsV2 (WithContinuationToken (NextContinuationToken (response k)))
  end.

(** The [Contents] of the answers [from] to [from + count - 1], one
    after the other; an answer without [Contents] adds nothing. *)
Definition contentsOf (from count : nat) : list Bucket.S3Object :=
  concat (map (fun i => default [] (Contents (response i))) (seq from count)).

End WithService.

(** The string has a slash in it. *)
Fixpoint hasSlash (s : string) : bool :=
  match s with
  | EmptyString => false
  | String c rest => Ascii.eqb c "/"%char || hasSlash rest
  end.

(** [s.startsWith('/')] *)
Definition startsWithSlash (s : string) : bool :=
  match s with
  | String c _ => Ascii.eqb c "/"%char
  | EmptyString => false
  end.

(** A token that is not empty and has no slash at either end. *)
Definition cleanToken (token : string) : Prop :=
  token <> "" /\ startsWithSlash token = false /\ endsWithSlash token = false.

End S3.

Module S3Samples.

(** A listing in three pages; the second page has no [Contents]. *)
Definition listObjectsV2 (request : S3.ListObjectsV2Request) : S3.ListObjectsV2Output :=
  match request with
  | S3.Params =>
      {| S3.Contents := Some [{| Bucket.Key := "a" |}; {| Bucket.Key := "b" |}];
         S3.IsTruncated := true; S3.NextContinuationToken := Some "t1" |}
  | S3.WithContinuationToken (Some "t1") =>
      {| S3.Contents := None; S3.IsTruncated := true; S3.NextContinuationToken := Some "t2" |}
  | S3.WithContinuationToken _ =>
      {| S3.Contents := Some [{| Bucket.Key := "c" |}];
         S3.IsTruncated := false; S3.NextContinuationToken := None |}
  end.

(** The files table lists the key [a.hdf] with a leading slash. *)
Definition s3Listing : list (list Bucket.S3Object) :=
  [[{| Bucket.Key := "a.hdf" |}; {| Bucket.Key := "b.hdf" |}]].

Definition dynamoDbScan : list (list Bucket.DynamoDbItem) :=
  [[{| Bucket.key := "a.hdf"; Bucket.granuleId := "g1" |};
    {| Bucket.key := "c.hdf"; Bucket.granuleId := "g1" |}]].

End S3Samples.

(** ** The providers endpoint: [nullifyUndefinedValues] and [put]

    The first document of [packages/api/endpoints/providers.js]. *)

Module Providers.
Import Value.

Definition optionalValues : list string :=
  ["port"; "username"; "password"; "globalConnectionLimit"; "privateKey"; "cmKeyId";
   "certificateUri"].

(** [v ? v : null] *)
Definition orNull (v : value) : value := if truthy v then v else Null.

(** [returnData[value] = returnData[value] ? returnData[value] : null],
    for every optional value in turn, on a copy of [data]. *)
Definition nullifyUndefinedValues (data : object) : object :=
  fold_left
    (fun returnData value => <[value := orNull (get returnData value)]> returnData)
    optionalValues data.

(** [_.omit(o, keys)] *)
Definition omit (o : object) (keys : list string) : object :=
  fold_left (fun acc k => delete k acc) keys o.

(** The object that [put] writes to the providers table:
    [{ ...omit(body, [...]), name: body.id, created_at: body.createdAt,
    updated_at: body.updatedAt }], then [nullifyUndefinedValues]. *)
Definition createObjectOf (body : object) : object :=
  nullifyUndefinedValues
    (<["updated_at" := get body "updatedAt"]>
       (<["created_at" := get body "createdAt"]>
          (<["name" := get body "id"]>
             (omit body ["id"; "encrypted"; "createdAt"; "updatedAt"])))).

(** What [put] answers. *)
Inductive Response : Type :=
| BadRequest (message : string)
| NotFound (message : string)
| Send (record : object).

(** What [put] writes: the update of the row of the providers table
    whose [name] is given, and the record that the model creates. *)
Inductive Write : Type :=
| PostgresUpdate (name : string) (createObject : object)
| DynamoCreate (body : object).

(** [put({ params: { id }, body }, res)], when the stores answer:
    [existsInDynamo] and [existsInPostgres] are what the two checks of
    [Promise.all] resolve to, and [record] is what
    [providerModel.create(body)] resolves to. *)
Definition put (id : string) (body : object) (existsInDynamo existsInPostgres : bool)
    (record : object) : list Write * Response :=
  if negb (isStr (get body "id") id) then
    ([], BadRequest ("Expected provider ID to be '" +:+ id +:+ "', but found '"
                     +:+ toString (get body "id") +:+ "' in payload"))
  else if negb (length (List.filter (fun b : bool => b) [existsInDynamo; existsInPostgres])
                =? 2) then
    ([], NotFound ("Provider with ID '" +:+ id
                   +:+ "' not found in Dynamo and PostGres databases"))
  else
    ([PostgresUpdate id (createObjectOf body); DynamoCreate body], Send record).

End Providers.

Module ProviderSamples.

(** A provider whose port is 0 and whose password is the empty string. *)
Definition body : Value.object :=
  {["id" := Value.Str "p1"; "host" := Value.Str "example.org"; "port" := Value.Number 0;
    "password" := Value.Str ""; "username" := Value.Str "u";
    "createdAt" := Value.Number 1; "encrypted" := Value.Bool true]}.

End ProviderSamples.

Module RequestSamples.

(** Requests for the collection X___1: an inventory report, and an
    internal one. *)
Definition inventoryEvent : Value.object :=
  {["collectionId" := Value.Str "X___1"]}.

Definition internalEvent : Value.object :=
  {["collectionId" := Value.Str "X___1"; "reportType" := Value.Str "Internal"]}.

(** What [normalizeEvent] makes of them where the environment names no
    bucket and no stack. *)
Definition inventoryParams : Value.object :=
  {["collectionIds" := Value.Arr [Value.Str "X___1"];
    "reportType" := Value.Str "Inventory"]}.

Definition internalParams : Value.object :=
  {["collectionId" := Value.Str "X___1";
    "collectionIds" := Value.Arr [Value.Str "X___1"];
    "reportType" := Value.Str "Internal"]}.

End RequestSamples.

(** ** Where a run writes the report document *)

Module Places.

(** The bucket and the key of every [putObject] of a log, in order. *)
Definition writtenPlaces (evs : list Effects.Effect) : list (string * string) :=
  flat_map (fun e => match e with
                     | Effects.PutObject Bucket Key _ => [(Bucket, Key)]
                     | _ => []
                     end) evs.

End Places.

Module PlacesSamples.

(** A request for an inventory report named [r], the way [normalizeEvent]
    hands it to [processRequest]. *)
Definition params : Value.object :=
  {["reportType" := Value.Str "Inventory"; "reportName" := Value.Str "r";
    "stackName" := Value.Str "stack"; "systemBucket" := Value.Str "internal"]}.

End PlacesSamples.

(* ===================================================================== *)
(** * Part II: lemmas and theorems *)
(* ===================================================================== *)

(** ** The order of strings *)

Lemma ltb_lt (a b : string) : String.ltb a b = true <-> String.compare a b = Lt.
Proof.
  unfold String.ltb. destruct (String.compare a b); split; congruence.
Qed.

Lemma ltb_irrefl (a : string) : String.ltb a a = false.
Proof.
  unfold String.ltb.
  assert (H : String.compare a a = Eq) by (apply String_as_OT.cmp_eq; reflexivity).
  rewrite H. reflexivity.
Qed.

Lemma ltb_trans (a b c : string) :
  String.ltb a b = true -> String.ltb b c = true -> String.ltb a c = true.
Proof.
  rewrite !ltb_lt. intros H1 H2.
  apply String_as_OT.cmp_lt in H1. apply String_as_OT.cmp_lt in H2.
  apply String_as_OT.cmp_lt. eapply String_as_OT.lt_trans; eassumption.
Qed.

Lemma ltb_asym (a b : string) : String.ltb a b = true -> String.ltb b a = false.
Proof.
  intros H. destruct (String.ltb b a) eqn:E; [|reflexivity].
  pose proof (ltb_trans _ _ _ H E) as Haa. rewrite ltb_irrefl in Haa. discriminate.
Qed.

Lemma ltb_total (a b : string) :
  String.ltb a b = false -> String.ltb b a = false -> a = b.
Proof.
  unfold String.ltb. rewrite (String.compare_antisym b a).
  destruct (String.compare a b) eqn:E; simpl; try discriminate.
  intros _ _. apply String_as_OT.cmp_eq. exact E.
Qed.

Lemma ltb_neq (a b : string) : String.ltb a b = true -> a <> b.
Proof. intros H ->. rewrite ltb_irrefl in H. discriminate. Qed.

#[local] Instance JS_lt_trans : Transitive JS.lt.
Proof. intros a b c. apply ltb_trans. Qed.

(** A strictly sorted list puts its head below every other element. *)
Lemma sorted_head_lt (k : string) (ks : list string) :
  Sorted JS.lt (k :: ks) -> Forall (JS.lt k) ks.
Proof.
  intros H. apply Sorted_StronglySorted in H; [|apply JS_lt_trans].
  inversion H; assumption.
Qed.

Lemma sorted_tail (k : string) (ks : list string) :
  Sorted JS.lt (k :: ks) -> Sorted JS.lt ks.
Proof. intros H. inversion H; assumption. Qed.

Lemma lt_all_not_in (k : string) (ks : list string) :
  Forall (JS.lt k) ks -> k ∉ ks.
Proof.
  intros H Hin. rewrite Forall_forall in H. apply H in Hin.
  unfold JS.lt in Hin. rewrite ltb_irrefl in Hin. discriminate.
Qed.

(** ** What the merge-join finds in two strictly sorted listings *)

Lemma filter_agree {A : Type} (P Q : A -> Prop)
    `{!forall x, Decision (P x)} `{!forall x, Decision (Q x)} (l : list A) :
  Forall (fun x => P x <-> Q x) l -> filter P l = filter Q l.
Proof.
  induction 1 as [|x l Hx _ IH]; [reflexivity|].
  rewrite !filter_cons, IH.
  destruct (decide (P x)), (decide (Q x)); tauto.
Qed.

Lemma filter_all {A : Type} (P : A -> Prop) `{!forall x, Decision (P x)} (l : list A) :
  Forall P l -> filter P l = l.
Proof.
  induction 1 as [|x l Hx _ IH]; [reflexivity|].
  rewrite filter_cons_True by assumption. congruence.
Qed.

Lemma filter_none {A : Type} (P : A -> Prop) `{!forall x, Decision (P x)} (l : list A) :
  Forall (fun x => ~ P x) l -> filter P l = [].
Proof.
  induction 1 as [|x l Hx _ IH]; [reflexivity|].
  rewrite filter_cons_False by assumption. assumption.
Qed.

Lemma Forall_map_iff {A B : Type} (f : A -> B) (P : B -> Prop) (l : list A) :
  Forall P (map f l) <-> Forall (fun x => P (f x)) l.
Proof.
  induction l as [|x l IH]; simpl.
  - split; constructor.
  - rewrite !Forall_cons, IH. tauto.
Qed.

Section MergeJoinFacts.
Context {A B : Type}.
Variable keyA : A -> string.
Variable keyB : B -> string.

Abbreviation mergeJoin := (MergeJoin.mergeJoin keyA keyB).
Abbreviation onlyA := MergeJoin.onlyA.
Abbreviation onlyB := MergeJoin.onlyB.
Abbreviation both := MergeJoin.both.

Lemma mergeJoin_nil_l (ys : list B) : mergeJoin [] ys = map MergeJoin.RestB ys.
Proof. destruct ys; reflexivity. Qed.

Lemma mergeJoin_nil_r (xs : list A) : mergeJoin xs [] = map MergeJoin.RestA xs.
Proof. destruct xs; reflexivity. Qed.

Lemma mergeJoin_cons (a : A) (xs : list A) (b : B) (ys : list B) :
  mergeJoin (a :: xs) (b :: ys) =
  if String.ltb (keyA a) (keyB b) then MergeJoin.Less a b :: mergeJoin xs (b :: ys)
  else if String.ltb (keyB b) (keyA a) then MergeJoin.Greater a b :: mergeJoin (a :: xs) ys
  else MergeJoin.Equal a b :: mergeJoin xs ys.
Proof. reflexivity. Qed.

Lemma onlyA_RestA (xs : list A) : onlyA (map (@MergeJoin.RestA A B) xs) = xs.
Proof. induction xs as [|x xs IH]; simpl; [reflexivity|]. f_equal. exact IH. Qed.

Lemma onlyA_RestB (ys : list B) : onlyA (map (@MergeJoin.RestB A B) ys) = [].
Proof. induction ys as [|y ys IH]; simpl; [reflexivity|exact IH]. Qed.

Lemma onlyB_RestA (xs : list A) : onlyB (map (@MergeJoin.RestA A B) xs) = [].
Proof. induction xs as [|x xs IH]; simpl; [reflexivity|exact IH]. Qed.

Lemma onlyB_RestB (ys : list B) : onlyB (map (@MergeJoin.RestB A B) ys) = ys.
Proof. induction ys as [|y ys IH]; simpl; [reflexivity|]. f_equal. exact IH. Qed.

Lemma both_RestA (xs : list A) : both (map (@MergeJoin.RestA A B) xs) = [].
Proof. induction xs as [|x xs IH]; simpl; [reflexivity|exact IH]. Qed.

Lemma both_RestB (ys : list B) : both (map (@MergeJoin.RestB A B) ys) = [].
Proof. induction ys as [|y ys IH]; simpl; [reflexivity|exact IH]. Qed.

Lemma onlyA_cons (e : @MergeJoin.event A B) (evs : list (@MergeJoin.event A B)) :
  onlyA (e :: evs) =
  match e with MergeJoin.Less a _ | MergeJoin.RestA a => [a] | _ => [] end ++ onlyA evs.
Proof. reflexivity. Qed.

Lemma onlyB_cons (e : @MergeJoin.event A B) (evs : list (@MergeJoin.event A B)) :
  onlyB (e :: evs) =
  match e with MergeJoin.Greater _ b | MergeJoin.RestB b => [b] | _ => [] end ++ onlyB evs.
Proof. reflexivity. Qed.

Lemma both_cons (e : @MergeJoin.event A B) (evs : list (@MergeJoin.event A B)) :
  both (e :: evs) =
  match e with MergeJoin.Equal a _ => [a] | _ => [] end ++ both evs.
Proof. reflexivity. Qed.

(** In two strictly sorted listings the walk finds on one side only
    exactly the elements whose key the other side does not have, in
    their order, and on both sides the elements whose key it has. *)
Lemma mergeJoin_sorted (xs : list A) (ys : list B) :
  Sorted JS.lt (map keyA xs) -> Sorted JS.lt (map keyB ys) ->
  onlyA (mergeJoin xs ys) = filter (fun a => keyA a ∉ map keyB ys) xs
  /\ onlyB (mergeJoin xs ys) = filter (fun b => keyB b ∉ map keyA xs) ys
  /\ both (mergeJoin xs ys) = filter (fun a => keyA a ∈ map keyB ys) xs.
Proof.
  revert ys. induction xs as [|a xs IHxs]; intros ys Hxs Hys.
  { rewrite mergeJoin_nil_l, onlyA_RestB, onlyB_RestB, both_RestB. simpl.
    repeat split. symmetry. apply filter_all.
    apply Forall_forall. intros x _. apply not_elem_of_nil. }
  induction ys as [|b ys IHys].
  { rewrite mergeJoin_nil_r, onlyA_RestA, onlyB_RestA, both_RestA. simpl map.
    repeat split.
    - symmetry. apply filter_all. apply Forall_forall. intros x _. apply not_elem_of_nil.
    - symmetry. apply filter_none. apply Forall_forall. intros x _ H.
      exact (not_elem_of_nil _ H). }
  simpl map in Hxs, Hys.
  pose proof (sorted_head_lt _ _ Hxs) as Ha. pose proof (sorted_tail _ _ Hxs) as Hxs'.
  pose proof (sorted_head_lt _ _ Hys) as Hb. pose proof (sorted_tail _ _ Hys) as Hys'.
  rewrite mergeJoin_cons.
  destruct (String.ltb (keyA a) (keyB b)) eqn:Hab.
  - (* the head of the first side is below everything on the second *)
    destruct (IHxs (b :: ys) Hxs' Hys) as (IH1 & IH2 & IH3).
    assert (Hnot : keyA a ∉ map keyB (b :: ys)).
    { apply lt_all_not_in. simpl. constructor; [exact Hab|].
      eapply Forall_impl; [exact Hb|]. intros k Hk. exact (ltb_trans _ _ _ Hab Hk). }
    repeat split.
    + rewrite onlyA_cons; cbn [app]. rewrite filter_cons_True by exact Hnot. f_equal. exact IH1.
    + rewrite onlyB_cons; cbn [app]. rewrite IH2. apply filter_agree.
      apply Forall_forall. intros y Hy. simpl. rewrite not_elem_of_cons.
      split; [intros H; split; [|exact H]|tauto].
      intros E. apply Hnot. rewrite <- E.
      apply list_elem_of_In, in_map, list_elem_of_In, Hy.
    + rewrite both_cons; cbn [app]. rewrite filter_cons_False by tauto. exact IH3.
  - destruct (String.ltb (keyB b) (keyA a)) eqn:Hba.
    + (* the head of the second side is below everything on the first *)
      destruct (IHys Hys') as (IH1 & IH2 & IH3).
      assert (Hnot : keyB b ∉ map keyA (a :: xs)).
      { apply lt_all_not_in. simpl. constructor; [exact Hba|].
        eapply Forall_impl; [exact Ha|]. intros k Hk. exact (ltb_trans _ _ _ Hba Hk). }
      assert (Hagree : forall x, x ∈ a :: xs ->
                keyA x ∈ map keyB (b :: ys) <-> keyA x ∈ map keyB ys).
      { intros x Hx. simpl. rewrite elem_of_cons.
        split; [intros [E|H]; [|exact H]|tauto].
        exfalso. apply Hnot. rewrite <- E.
        apply list_elem_of_In, in_map, list_elem_of_In, Hx. }
      repeat split.
      * rewrite onlyA_cons; cbn [app]. rewrite IH1. apply filter_agree.
        apply Forall_forall. intros x Hx. specialize (Hagree x Hx). tauto.
      * rewrite onlyB_cons; cbn [app]. rewrite filter_cons_True by exact Hnot. f_equal. exact IH2.
      * rewrite both_cons; cbn [app]. rewrite IH3. apply filter_agree.
        apply Forall_forall. intros x Hx. symmetry. exact (Hagree x Hx).
    + (* the two heads have the same key *)
      pose proof (ltb_total _ _ Hab Hba) as Heq.
      destruct (IHxs ys Hxs' Hys') as (IH1 & IH2 & IH3).
      assert (HnotA : keyA a ∉ map keyA xs) by (apply lt_all_not_in; exact Ha).
      assert (HnotB : keyB b ∉ map keyB ys) by (apply lt_all_not_in; exact Hb).
      repeat split.
      * rewrite onlyA_cons; cbn [app]. rewrite filter_cons_False.
        2:{ intros H. apply H. simpl. rewrite Heq. apply list_elem_of_here. }
        rewrite IH1. apply filter_agree. apply Forall_forall. intros x Hx.
        simpl. rewrite not_elem_of_cons. split; [intros H; split; [|exact H]|tauto].
        intros E. apply HnotA. rewrite Heq, <- E.
        apply list_elem_of_In, in_map, list_elem_of_In, Hx.
      * rewrite onlyB_cons; cbn [app]. rewrite filter_cons_False.
        2:{ intros H. apply H. simpl. rewrite Heq. apply list_elem_of_here. }
        rewrite IH2. apply filter_agree. apply Forall_forall. intros y Hy.
        simpl. rewrite not_elem_of_cons. split; [intros H; split; [|exact H]|tauto].
        intros E. apply HnotB. rewrite <- Heq, <- E.
        apply list_elem_of_In, in_map, list_elem_of_In, Hy.
      * rewrite both_cons; cbn [app]. rewrite filter_cons_True.
        2:{ simpl. rewrite Heq. apply list_elem_of_here. }
        f_equal. rewrite IH3. apply filter_agree. apply Forall_forall. intros x Hx.
        simpl. rewrite elem_of_cons. split; [tauto|intros [E|H]; [|exact H]].
        exfalso. apply HnotA. rewrite Heq, <- E.
        apply list_elem_of_In, in_map, list_elem_of_In, Hx.
Qed.

End MergeJoinFacts.

(** ** The cursor yields the pages in order, whatever their boundaries *)

Section CursorFacts.
Context {T : Type}.
Implicit Types (q : Cursor.Queue T) (pages : list (list T)).

Lemma fetchItems_concat pages :
  fst (Cursor.fetchItems pages) ++ concat (snd (Cursor.fetchItems pages)) = concat pages.
Proof.
  induction pages as [|page more IH]; [reflexivity|].
  destruct page as [|x page]; simpl; [exact IH|reflexivity].
Qed.

Lemma fetchItems_head pages :
  head (fst (Cursor.fetchItems pages)) = head (concat pages).
Proof.
  induction pages as [|page more IH]; [reflexivity|].
  destruct page as [|x page]; simpl; [exact IH|reflexivity].
Qed.

Lemma contents_fill q : Cursor.contents (Cursor.fill q) = Cursor.contents q.
Proof.
  unfold Cursor.fill, Cursor.contents. destruct q as [[|x buf] pages]; simpl; [|reflexivity].
  pose proof (fetchItems_concat pages) as H.
  destruct (Cursor.fetchItems pages) as [buf more]. exact H.
Qed.

Lemma head_fill q : head (Cursor.items (Cursor.fill q)) = head (Cursor.contents q).
Proof.
  unfold Cursor.fill, Cursor.contents. destruct q as [[|x buf] pages]; simpl; [|reflexivity].
  pose proof (fetchItems_head pages) as H.
  destruct (Cursor.fetchItems pages) as [buf more]. exact H.
Qed.

Lemma peek_head q : fst (Cursor.peek q) = head (Cursor.contents q).
Proof. apply head_fill. Qed.

Lemma peek_contents q : Cursor.contents (snd (Cursor.peek q)) = Cursor.contents q.
Proof. apply contents_fill. Qed.

Lemma shift_head q : fst (Cursor.shift q) = head (Cursor.contents q).
Proof. apply head_fill. Qed.

Lemma fetchItems_nil pages :
  fst (Cursor.fetchItems pages) = [] -> snd (Cursor.fetchItems pages) = [].
Proof.
  induction pages as [|page more IH]; [reflexivity|].
  destruct page as [|x page]; simpl; [exact IH|discriminate].
Qed.

Lemma fill_nil q :
  Cursor.items (Cursor.fill q) = [] -> Cursor.source (Cursor.fill q) = [].
Proof.
  unfold Cursor.fill. destruct q as [[|x buf] pages]; simpl; [|discriminate].
  pose proof (fetchItems_nil pages) as H.
  destruct (Cursor.fetchItems pages) as [buf more]. exact H.
Qed.

Lemma shift_contents q :
  Cursor.contents (snd (Cursor.shift q)) = tail (Cursor.contents q).
Proof.
  rewrite <- (contents_fill q). unfold Cursor.shift, Cursor.contents. simpl.
  pose proof (fill_nil q) as H.
  destruct (Cursor.items (Cursor.fill q)) as [|x buf]; [|reflexivity].
  rewrite H by reflexivity. reflexivity.
Qed.

Lemma contents_open pages : Cursor.contents (Cursor.open pages) = concat pages.
Proof. reflexivity. Qed.

End CursorFacts.

(** Name the two results of a [peek] or a [shift]: what it returns becomes
    the head of the contents, and [Hc] says what the cursor still holds. *)
Ltac look_at call o q' Hc :=
  lazymatch call with
  | Cursor.peek ?q =>
      let Hh := fresh "Hh" in
      pose proof (peek_head q) as Hh; pose proof (peek_contents q) as Hc;
      destruct (Cursor.peek q) as [o q']; cbn [fst snd] in Hh, Hc; subst o
  | Cursor.shift ?q =>
      let Hh := fresh "Hh" in
      pose proof (shift_head q) as Hh; pose proof (shift_contents q) as Hc;
      destruct (Cursor.shift q) as [o q']; cbn [fst snd] in Hh, Hc; subst o
  end.

(** ** The loops over a bucket compute the fold over the merge-join *)

Section BucketFacts.
Variable buildS3Uri : string -> string -> string.
Variable Bucket : string.

Abbreviation s3Uri := (Folds.s3Uri buildS3Uri Bucket).
Abbreviation dynamoDbUri := (Folds.dynamoDbUri buildS3Uri Bucket).
Abbreviation bucketEvent := (Folds.bucketEvent buildS3Uri Bucket).
Abbreviation entryOf := (Bucket.entryOf buildS3Uri Bucket).
Abbreviation bucketJoin := (MergeJoin.mergeJoin s3Uri dynamoDbUri).

Lemma fold_bucket_RestA (xs : list Bucket.S3Object) (r : Bucket.Report) :
  fold_left bucketEvent (map MergeJoin.RestA xs) r =
  {| Bucket.okCount := Bucket.okCount r;
     Bucket.onlyInS3 := Bucket.onlyInS3 r ++ map s3Uri xs;
     Bucket.onlyInDynamoDb := Bucket.onlyInDynamoDb r;
     Bucket.okCountByGranule := Bucket.okCountByGranule r |}.
Proof.
  revert r. induction xs as [|x xs IH]; intros r; simpl.
  - destruct r; simpl. rewrite app_nil_r. reflexivity.
  - rewrite IH. simpl. rewrite <- app_assoc. reflexivity.
Qed.

Lemma fold_bucket_RestB (ys : list Bucket.DynamoDbItem) (r : Bucket.Report) :
  fold_left bucketEvent (map MergeJoin.RestB ys) r =
  {| Bucket.okCount := Bucket.okCount r;
     Bucket.onlyInS3 := Bucket.onlyInS3 r;
     Bucket.onlyInDynamoDb := Bucket.onlyInDynamoDb r ++ map entryOf ys;
     Bucket.okCountByGranule := Bucket.okCountByGranule r |}.
Proof.
  revert r. induction ys as [|y ys IH]; intros r; simpl.
  - destruct r; simpl. rewrite app_nil_r. reflexivity.
  - rewrite IH. simpl. rewrite <- app_assoc. reflexivity.
Qed.

Lemma drainS3_unfold (fuel : nat) (q : Cursor.Queue Bucket.S3Object) (acc : list string) :
  Bucket.drainS3 buildS3Uri Bucket fuel q acc =
  match Cursor.peek q with
  | (None, _) => Some acc
  | (Some _, q1) =>
      match fuel with
      | 0 => None
      | S fuel' =>
          let '(shifted, q2) := Cursor.shift q1 in
          s3Object ← shifted;
          Bucket.drainS3 buildS3Uri Bucket fuel' q2
            (acc ++ [buildS3Uri Bucket (Bucket.Key s3Object)])
      end
  end.
Proof. destruct fuel; reflexivity. Qed.

Lemma drainS3_spec (fuel : nat) (q : Cursor.Queue Bucket.S3Object) (acc : list string) :
  Cursor.remaining q <= fuel ->
  Bucket.drainS3 buildS3Uri Bucket fuel q acc = Some (acc ++ map s3Uri (Cursor.contents q)).
Proof.
  revert q acc. induction fuel as [|fuel IH]; intros q acc Hfuel;
    rewrite drainS3_unfold; unfold Cursor.remaining in Hfuel;
    look_at (Cursor.peek q) o q1 Hc;
    destruct (Cursor.contents q) as [|x rest] eqn:Hq; cbn [head length] in *;
    try (rewrite app_nil_r; reflexivity); try lia.
  look_at (Cursor.shift q1) o q2 Hc2. rewrite Hc. cbn [head tail mbind option_bind].
  rewrite Hc in Hc2. cbn [tail] in Hc2.
  rewrite IH by (unfold Cursor.remaining; rewrite Hc2; lia).
  rewrite Hc2. cbn [map]. rewrite <- app_assoc. reflexivity.
Qed.

Lemma drainDynamoDb_unfold (fuel : nat) (q : Cursor.Queue Bucket.DynamoDbItem)
    (acc : list Bucket.Entry.t) :
  Bucket.drainDynamoDb buildS3Uri Bucket fuel q acc =
  match Cursor.peek q with
  | (None, _) => Some acc
  | (Some _, q1) =>
      match fuel with
      | 0 => None
      | S fuel' =>
          let '(shifted, q2) := Cursor.shift q1 in
          dynamoDbItem ← shifted;
          Bucket.drainDynamoDb buildS3Uri Bucket fuel' q2 (acc ++ [entryOf dynamoDbItem])
      end
  end.
Proof. destruct fuel; reflexivity. Qed.

Lemma drainDynamoDb_spec (fuel : nat) (q : Cursor.Queue Bucket.DynamoDbItem)
    (acc : list Bucket.Entry.t) :
  Cursor.remaining q <= fuel ->
  Bucket.drainDynamoDb buildS3Uri Bucket fuel q acc
  = Some (acc ++ map entryOf (Cursor.contents q)).
Proof.
  revert q acc. induction fuel as [|fuel IH]; intros q acc Hfuel;
    rewrite drainDynamoDb_unfold; unfold Cursor.remaining in Hfuel;
    look_at (Cursor.peek q) o q1 Hc;
    destruct (Cursor.contents q) as [|x rest] eqn:Hq; cbn [head length] in *;
    try (rewrite app_nil_r; reflexivity); try lia.
  look_at (Cursor.shift q1) o q2 Hc2. rewrite Hc. cbn [head tail mbind option_bind].
  rewrite Hc in Hc2. cbn [tail] in Hc2.
  rewrite IH by (unfold Cursor.remaining; rewrite Hc2; lia).
  rewrite Hc2. cbn [map]. rewrite <- app_assoc. reflexivity.
Qed.

Lemma bucket_step_spec (a : Bucket.S3Object) (b : Bucket.DynamoDbItem)
    (st : Bucket.State) (xs : list Bucket.S3Object) (ys : list Bucket.DynamoDbItem) :
  Cursor.contents (Bucket.s3ObjectsQueue st) = a :: xs ->
  Cursor.contents (Bucket.dynamoDbFilesLister st) = b :: ys ->
  exists st1 e,
    Bucket.step buildS3Uri Bucket a b st
    = Some (head (Cursor.contents (Bucket.s3ObjectsQueue st1)),
            head (Cursor.contents (Bucket.dynamoDbFilesLister st1)), st1)
    /\ bucketJoin (a :: xs) (b :: ys)
       = e :: bucketJoin (Cursor.contents (Bucket.s3ObjectsQueue st1))
                         (Cursor.contents (Bucket.dynamoDbFilesLister st1))
    /\ Bucket.report st1 = bucketEvent (Bucket.report st) e
    /\ length (Cursor.contents (Bucket.s3ObjectsQueue st1)) <= length (a :: xs)
    /\ length (Cursor.contents (Bucket.dynamoDbFilesLister st1)) <= length (b :: ys)
    /\ length (Cursor.contents (Bucket.s3ObjectsQueue st1))
       + length (Cursor.contents (Bucket.dynamoDbFilesLister st1))
       < length (a :: xs) + length (b :: ys).
Proof.
  intros Hxs Hys. unfold Bucket.step. rewrite mergeJoin_cons.
  unfold Folds.s3Uri, Folds.dynamoDbUri.
  destruct (String.ltb (buildS3Uri Bucket (Bucket.Key a)) (buildS3Uri Bucket (Bucket.key b)));
    [|destruct (String.ltb (buildS3Uri Bucket (Bucket.key b)) (buildS3Uri Bucket (Bucket.Key a)))].
  - look_at (Cursor.shift (Bucket.s3ObjectsQueue st)) o q Hq.
    cbn [mbind option_bind Bucket.s3ObjectsQueue Bucket.dynamoDbFilesLister Bucket.report].
    look_at (Cursor.peek q) o1 q1 Hq1.
    look_at (Cursor.peek (Bucket.dynamoDbFilesLister st)) o2 q2 Hq2.
    rewrite Hxs in Hq. cbn [tail] in Hq. rewrite Hq in Hq1. rewrite Hys in Hq2.
    exists {| Bucket.s3ObjectsQueue := q1; Bucket.dynamoDbFilesLister := q2;
              Bucket.report := bucketEvent (Bucket.report st) (MergeJoin.Less a b) |},
           (MergeJoin.Less a b).
    cbn [Bucket.s3ObjectsQueue Bucket.dynamoDbFilesLister Bucket.report].
    rewrite ?Hq, ?Hq', ?Hxs, ?Hys, ?Hq1, ?Hq2. cbn [length].
    repeat split; try reflexivity; lia.
  - look_at (Cursor.shift (Bucket.dynamoDbFilesLister st)) o q Hq.
    rewrite Hys. cbn [head mbind option_bind Bucket.s3ObjectsQueue Bucket.dynamoDbFilesLister Bucket.report].
    look_at (Cursor.peek (Bucket.s3ObjectsQueue st)) o1 q1 Hq1.
    look_at (Cursor.peek q) o2 q2 Hq2.
    rewrite Hys in Hq. cbn [tail] in Hq. rewrite Hq in Hq2. rewrite Hxs in Hq1.
    exists {| Bucket.s3ObjectsQueue := q1; Bucket.dynamoDbFilesLister := q2;
              Bucket.report := bucketEvent (Bucket.report st) (MergeJoin.Greater a b) |},
           (MergeJoin.Greater a b).
    cbn [Bucket.s3ObjectsQueue Bucket.dynamoDbFilesLister Bucket.report].
    rewrite ?Hq, ?Hq', ?Hxs, ?Hys, ?Hq1, ?Hq2. cbn [length].
    repeat split; try reflexivity; lia.
  - look_at (Cursor.shift (Bucket.s3ObjectsQueue st)) o q Hq.
    look_at (Cursor.shift (Bucket.dynamoDbFilesLister st)) o' q' Hq'.
    cbn [mbind option_bind Bucket.s3ObjectsQueue Bucket.dynamoDbFilesLister Bucket.report].
    look_at (Cursor.peek q) o1 q1 Hq1.
    look_at (Cursor.peek q') o2 q2 Hq2.
    rewrite Hxs in Hq. rewrite Hys in Hq'. cbn [tail] in Hq, Hq'.
    rewrite Hq in Hq1. rewrite Hq' in Hq2.
    exists {| Bucket.s3ObjectsQueue := q1; Bucket.dynamoDbFilesLister := q2;
              Bucket.report := bucketEvent (Bucket.report st) (MergeJoin.Equal a b) |},
           (MergeJoin.Equal a b).
    cbn [Bucket.s3ObjectsQueue Bucket.dynamoDbFilesLister Bucket.report].
    rewrite ?Hq, ?Hq', ?Hxs, ?Hys, ?Hq1, ?Hq2. cbn [length].
    repeat split; try reflexivity; lia.
Qed.

Lemma bucket_mainLoop_unfold (fuel : nat) (o : Bucket.S3Object) (d : Bucket.DynamoDbItem)
    (st : Bucket.State) :
  Bucket.mainLoop buildS3Uri Bucket fuel (Some o) (Some d) st =
  match fuel with
  | 0 => None
  | S fuel' =>
      '(n1, n2, st') ← Bucket.step buildS3Uri Bucket o d st;
      Bucket.mainLoop buildS3Uri Bucket fuel' n1 n2 st'
  end.
Proof. destruct fuel; reflexivity. Qed.

Lemma bucket_mainLoop_done (fuel : nat) (o : option Bucket.S3Object)
    (d : option Bucket.DynamoDbItem) (st : Bucket.State) :
  o = None \/ d = None ->
  Bucket.mainLoop buildS3Uri Bucket fuel o d st = Some st.
Proof. intros [H | H]; subst; destruct fuel; try destruct o; reflexivity. Qed.

(** With fuel for every item still to come, the first loop ends, at the
    end of one of the cursors, and has folded the events of its passes
    into the report. *)
Lemma bucket_mainLoop_spec (fuel : nat) (st : Bucket.State) :
  length (Cursor.contents (Bucket.s3ObjectsQueue st))
  + length (Cursor.contents (Bucket.dynamoDbFilesLister st)) <= fuel ->
  exists st',
    Bucket.mainLoop buildS3Uri Bucket fuel
      (head (Cursor.contents (Bucket.s3ObjectsQueue st)))
      (head (Cursor.contents (Bucket.dynamoDbFilesLister st))) st = Some st'
    /\ (Cursor.contents (Bucket.s3ObjectsQueue st') = []
        \/ Cursor.contents (Bucket.dynamoDbFilesLister st') = [])
    /\ fold_left bucketEvent
         (bucketJoin (Cursor.contents (Bucket.s3ObjectsQueue st))
                     (Cursor.contents (Bucket.dynamoDbFilesLister st)))
         (Bucket.report st)
       = fold_left bucketEvent
           (bucketJoin (Cursor.contents (Bucket.s3ObjectsQueue st'))
                       (Cursor.contents (Bucket.dynamoDbFilesLister st')))
           (Bucket.report st')
    /\ length (Cursor.contents (Bucket.s3ObjectsQueue st'))
       <= length (Cursor.contents (Bucket.s3ObjectsQueue st))
    /\ length (Cursor.contents (Bucket.dynamoDbFilesLister st'))
       <= length (Cursor.contents (Bucket.dynamoDbFilesLister st)).
Proof.
  revert st. induction fuel as [|fuel IH]; intros st Hfuel.
  - exists st. rewrite bucket_mainLoop_done.
    + repeat split; try lia.
      destruct (Cursor.contents (Bucket.s3ObjectsQueue st)); [left; reflexivity|].
      simpl in Hfuel. lia.
    + destruct (Cursor.contents (Bucket.s3ObjectsQueue st)); [left; reflexivity|].
      simpl in Hfuel. lia.
  - destruct (Cursor.contents (Bucket.s3ObjectsQueue st)) as [|a xs] eqn:Hxs.
    { exists st. rewrite bucket_mainLoop_done by (left; reflexivity).
      rewrite Hxs. repeat split; try lia. left; reflexivity. }
    destruct (Cursor.contents (Bucket.dynamoDbFilesLister st)) as [|b ys] eqn:Hys.
    { exists st. rewrite bucket_mainLoop_done by (right; reflexivity).
      rewrite Hxs, Hys. repeat split; try lia. right; reflexivity. }
    destruct (bucket_step_spec a b st xs ys Hxs Hys)
      as (st1 & e & Hstep & Hjoin & Hrep & Hl1 & Hl2 & Hlt).
    cbn [head]. rewrite bucket_mainLoop_unfold, Hstep. cbn [mbind option_bind].
    destruct (IH st1) as (st' & Hrun & Hend & Hfold & Hl1' & Hl2').
    { cbn [length] in Hfuel, Hlt. lia. }
    exists st'. rewrite Hrun. repeat split; try assumption; try lia.
    rewrite Hjoin. cbn [fold_left]. rewrite <- Hrep. exact Hfold.
Qed.

(** The function returns the fold over the merge-join of everything the
    two listings hold, whatever the pages they come in. *)
Lemma bucket_report (s3Listing : list (list Bucket.S3Object))
    (dynamoDbScan : list (list Bucket.DynamoDbItem)) :
  Bucket.createReconciliationReportForBucket buildS3Uri Bucket s3Listing dynamoDbScan
  = Some (Folds.bucketReportOf buildS3Uri Bucket (concat s3Listing) (concat dynamoDbScan)).
Proof.
  unfold Bucket.createReconciliationReportForBucket, Folds.bucketReportOf.
  look_at (Cursor.peek (Cursor.open s3Listing)) o1 q1 Hq1.
  look_at (Cursor.peek (Cursor.open dynamoDbScan)) o2 q2 Hq2.
  rewrite contents_open in Hq1. rewrite contents_open in Hq2.
  unfold Cursor.remaining. rewrite !contents_open.
  set (st0 := {| Bucket.s3ObjectsQueue := q1; Bucket.dynamoDbFilesLister := q2;
                 Bucket.report := _ |}).
  destruct (bucket_mainLoop_spec (length (concat s3Listing) + length (concat dynamoDbScan)) st0)
    as (st' & Hrun & Hend & Hfold & Hl1 & Hl2).
  { subst st0. cbn [Bucket.s3ObjectsQueue Bucket.dynamoDbFilesLister]. rewrite Hq1, Hq2. lia. }
  subst st0. cbn [Bucket.s3ObjectsQueue Bucket.dynamoDbFilesLister Bucket.report] in *.
  rewrite Hq1, Hq2 in *. rewrite Hrun. cbn [mbind option_bind].
  rewrite drainS3_spec by (unfold Cursor.remaining; lia). cbn [mbind option_bind].
  rewrite drainDynamoDb_spec by (unfold Cursor.remaining; lia). cbn [mbind option_bind].
  f_equal. unfold Folds.emptyBucketReport. rewrite Hfold.
  destruct Hend as [Hend | Hend]; rewrite Hend.
  - rewrite mergeJoin_nil_l, fold_bucket_RestB. cbn [map]. rewrite app_nil_r. reflexivity.
  - rewrite mergeJoin_nil_r, fold_bucket_RestA. cbn [map]. rewrite app_nil_r. reflexivity.
Qed.

End BucketFacts.

(** ** What the fold puts into the report of a bucket *)

Section MergeJoinCounts.
Context {A B : Type}.
Variable keyA : A -> string.
Variable keyB : B -> string.

(** Every element of either listing is in exactly one event, whether the
    listings are sorted or not. *)
Lemma mergeJoin_lengths (xs : list A) (ys : list B) :
  length xs = length (MergeJoin.both (MergeJoin.mergeJoin keyA keyB xs ys))
              + length (MergeJoin.onlyA (MergeJoin.mergeJoin keyA keyB xs ys))
  /\ length ys = length (MergeJoin.both (MergeJoin.mergeJoin keyA keyB xs ys))
                 + length (MergeJoin.onlyB (MergeJoin.mergeJoin keyA keyB xs ys)).
Proof.
  revert ys. induction xs as [|a xs IHxs]; intros ys.
  { rewrite mergeJoin_nil_l, onlyA_RestB, onlyB_RestB, both_RestB. simpl. lia. }
  induction ys as [|b ys IHys].
  { rewrite mergeJoin_nil_r, onlyA_RestA, onlyB_RestA, both_RestA. simpl. lia. }
  rewrite mergeJoin_cons.
  destruct (String.ltb (keyA a) (keyB b)); [|destruct (String.ltb (keyB b) (keyA a))];
    rewrite onlyA_cons, onlyB_cons, both_cons; cbn [app length].
  - destruct (IHxs (b :: ys)) as [H1 H2]. cbn [length] in H2. lia.
  - destruct IHys as [H1 H2]. cbn [length] in H1. lia.
  - destruct (IHxs ys) as [H1 H2]. lia.
Qed.

End MergeJoinCounts.

Section BucketFoldFacts.
Variable buildS3Uri : string -> string -> string.
Variable Bucket : string.

Lemma bucket_fold_fields
    (evs : list (@MergeJoin.event Bucket.S3Object Bucket.DynamoDbItem)) (r : Bucket.Report) :
  let r' := fold_left (Folds.bucketEvent buildS3Uri Bucket) evs r in
  Bucket.okCount r' = Bucket.okCount r + length (MergeJoin.both evs)
  /\ Bucket.onlyInS3 r'
     = Bucket.onlyInS3 r ++ map (Folds.s3Uri buildS3Uri Bucket) (MergeJoin.onlyA evs)
  /\ Bucket.onlyInDynamoDb r'
     = Bucket.onlyInDynamoDb r ++ map (Bucket.entryOf buildS3Uri Bucket) (MergeJoin.onlyB evs).
Proof.
  revert r. induction evs as [|e evs IH]; intros r.
  - simpl. rewrite !app_nil_r. repeat split. lia.
  - cbn [fold_left]. destruct (IH (Folds.bucketEvent buildS3Uri Bucket r e)) as (H1 & H2 & H3).
    cbn zeta. rewrite H1, H2, H3, onlyA_cons, onlyB_cons, both_cons.
    destruct e; cbn [Folds.bucketEvent Bucket.okCount Bucket.onlyInS3 Bucket.onlyInDynamoDb
                     app length map];
      rewrite <- ?app_assoc; cbn [app]; repeat split; lia.
Qed.

End BucketFoldFacts.

(** ** The loop over the collections *)

Section CollectionsFacts.
Variable oneWayReport : bool.

Abbreviation collectionEvent := (Folds.collectionEvent oneWayReport).
Abbreviation collectionJoin := (MergeJoin.mergeJoin (fun s : string => s) (fun s : string => s)).

Lemma collections_mainLoop_unfold (fuel : nat) (db cmr : string) (st : Collections.State) :
  Collections.mainLoop fuel oneWayReport (Some db) (Some cmr) st =
  if JS.truthy db && JS.truthy cmr then
    match fuel with
    | 0 => None
    | S fuel' =>
        let st' := Collections.step oneWayReport db cmr st in
        Collections.mainLoop fuel' oneWayReport
          (Collections.first (Collections.esCollectionIds st'))
          (Collections.first (Collections.cmrCollectionIds st')) st'
    end
  else Some st.
Proof. destruct fuel; reflexivity. Qed.

Lemma collections_mainLoop_done (fuel : nat) (db cmr : option string) (st : Collections.State) :
  db = None \/ cmr = None ->
  Collections.mainLoop fuel oneWayReport db cmr st = Some st.
Proof. intros [H | H]; subst; destruct fuel; try destruct db; reflexivity. Qed.

Lemma collections_step_spec (a b : string) (st : Collections.State) (xs ys : list string) :
  Collections.esCollectionIds st = a :: xs ->
  Collections.cmrCollectionIds st = b :: ys ->
  let st1 := Collections.step oneWayReport a b st in
  exists e,
    collectionJoin (a :: xs) (b :: ys)
    = e :: collectionJoin (Collections.esCollectionIds st1) (Collections.cmrCollectionIds st1)
    /\ Collections.report st1 = collectionEvent (Collections.report st) e
    /\ (exists pre, a :: xs = pre ++ Collections.esCollectionIds st1)
    /\ (exists pre, b :: ys = pre ++ Collections.cmrCollectionIds st1)
    /\ length (Collections.esCollectionIds st1) + length (Collections.cmrCollectionIds st1)
       < length (a :: xs) + length (b :: ys).
Proof.
  intros Hxs Hys. unfold Collections.step. rewrite mergeJoin_cons, Hxs, Hys.
  destruct (String.ltb a b); [|destruct (String.ltb b a)];
    cbn [Collections.esCollectionIds Collections.cmrCollectionIds Collections.report tail].
  - exists (MergeJoin.Less a b). repeat split.
    + exists [a]. reflexivity.
    + exists []. reflexivity.
    + cbn [length]. lia.
  - exists (MergeJoin.Greater a b). repeat split.
    + exists []. reflexivity.
    + exists [b]. reflexivity.
    + cbn [length]. lia.
  - exists (MergeJoin.Equal a b). repeat split.
    + exists [a]. reflexivity.
    + exists [b]. reflexivity.
    + cbn [length]. lia.
Qed.

(** With fuel for every id, and no empty id, the loop ends at the end of
    one of the arrays and has folded the events of its passes into the
    report. *)
Lemma collections_mainLoop_spec (fuel : nat) (st : Collections.State) :
  Forall (fun s => JS.truthy s = true) (Collections.esCollectionIds st) ->
  Forall (fun s => JS.truthy s = true) (Collections.cmrCollectionIds st) ->
  length (Collections.esCollectionIds st) + length (Collections.cmrCollectionIds st) <= fuel ->
  exists st',
    Collections.mainLoop fuel oneWayReport
      (Collections.first (Collections.esCollectionIds st))
      (Collections.first (Collections.cmrCollectionIds st)) st = Some st'
    /\ (Collections.esCollectionIds st' = [] \/ Collections.cmrCollectionIds st' = [])
    /\ fold_left collectionEvent
         (collectionJoin (Collections.esCollectionIds st) (Collections.cmrCollectionIds st))
         (Collections.report st)
       = fold_left collectionEvent
           (collectionJoin (Collections.esCollectionIds st') (Collections.cmrCollectionIds st'))
           (Collections.report st').
Proof.
  revert st. induction fuel as [|fuel IH]; intros st Hes Hcmr Hfuel.
  - exists st. rewrite collections_mainLoop_done.
    + repeat split. destruct (Collections.esCollectionIds st); [left; reflexivity|].
      simpl in Hfuel. lia.
    + destruct (Collections.esCollectionIds st); [left; reflexivity|].
      simpl in Hfuel. lia.
  - destruct (Collections.esCollectionIds st) as [|a xs] eqn:Hxs.
    { exists st. rewrite collections_mainLoop_done by (left; reflexivity).
      rewrite Hxs. repeat split. left; reflexivity. }
    destruct (Collections.cmrCollectionIds st) as [|b ys] eqn:Hys.
    { exists st. rewrite collections_mainLoop_done by (right; reflexivity).
      rewrite Hxs, Hys. repeat split. right; reflexivity. }
    cbn [Collections.first head]. rewrite collections_mainLoop_unfold.
    apply Forall_cons in Hes as [Ha Hes]. apply Forall_cons in Hcmr as [Hb Hcmr].
    rewrite Ha, Hb. cbn [andb].
    destruct (collections_step_spec a b st xs ys Hxs Hys)
      as (e & Hjoin & Hrep & (p1 & Hp1) & (p2 & Hp2) & Hlt).
    cbn zeta in *. set (st1 := Collections.step oneWayReport a b st) in *.
    destruct (IH st1) as (st' & Hrun & Hend & Hfold).
    { eapply Forall_app. rewrite <- Hp1. constructor; assumption. }
    { eapply Forall_app. rewrite <- Hp2. constructor; assumption. }
    { cbn [length] in Hfuel, Hlt. lia. }
    exists st'. rewrite Hrun. repeat split; try assumption.
    rewrite Hjoin. cbn [fold_left]. rewrite <- Hrep. exact Hfold.
Qed.

(** Whatever the ids, the loop ends; in a one-way report it adds nothing
    to [onlyInCmr]. *)
Lemma collections_mainLoop_total (fuel : nat) (st : Collections.State) :
  length (Collections.esCollectionIds st) + length (Collections.cmrCollectionIds st) <= fuel ->
  exists st',
    Collections.mainLoop fuel oneWayReport
      (Collections.first (Collections.esCollectionIds st))
      (Collections.first (Collections.cmrCollectionIds st)) st = Some st'
    /\ (oneWayReport = true ->
        Collections.onlyInCmr (Collections.report st') = Collections.onlyInCmr (Collections.report st)).
Proof.
  revert st. induction fuel as [|fuel IH]; intros st Hfuel.
  - exists st. split; [|reflexivity]. apply collections_mainLoop_done.
    destruct (Collections.esCollectionIds st); [left; reflexivity|]. simpl in Hfuel. lia.
  - destruct (Collections.esCollectionIds st) as [|a xs] eqn:Hxs.
    { exists st. split; [|reflexivity]. apply collections_mainLoop_done. left; reflexivity. }
    destruct (Collections.cmrCollectionIds st) as [|b ys] eqn:Hys.
    { exists st. split; [|reflexivity]. apply collections_mainLoop_done. right; reflexivity. }
    cbn [Collections.first head]. rewrite collections_mainLoop_unfold.
    destruct (JS.truthy a && JS.truthy b); [|exists st; split; reflexivity].
    destruct (collections_step_spec a b st xs ys Hxs Hys)
      as (e & Hjoin & Hrep & _ & _ & Hlt).
    cbn zeta in *. set (st1 := Collections.step oneWayReport a b st) in *.
    destruct (IH st1) as (st' & Hrun & Hone).
    { cbn [length] in Hfuel, Hlt. lia. }
    exists st'. split; [exact Hrun|]. intros Hway. rewrite (Hone Hway), Hrep.
    subst oneWayReport. destruct e; reflexivity.
Qed.

Lemma fold_collection_RestA (xs : list string) (r : Collections.Report) :
  fold_left collectionEvent (map MergeJoin.RestA xs) r =
  {| Collections.okCollections := Collections.okCollections r;
     Collections.onlyInCumulus := Collections.onlyInCumulus r ++ xs;
     Collections.onlyInCmr := Collections.onlyInCmr r |}.
Proof.
  revert r. induction xs as [|x xs IH]; intros r; simpl.
  - destruct r; simpl. rewrite app_nil_r. reflexivity.
  - rewrite IH. simpl. rewrite <- app_assoc. reflexivity.
Qed.

Lemma fold_collection_RestB (ys : list string) (r : Collections.Report) :
  fold_left collectionEvent (map MergeJoin.RestB ys) r =
  {| Collections.okCollections := Collections.okCollections r;
     Collections.onlyInCumulus := Collections.onlyInCumulus r;
     Collections.onlyInCmr := if oneWayReport then Collections.onlyInCmr r
                              else Collections.onlyInCmr r ++ ys |}.
Proof.
  revert r. induction ys as [|y ys IH]; intros r; simpl.
  - destruct r; simpl. rewrite app_nil_r. destruct oneWayReport; reflexivity.
  - rewrite IH. simpl. destruct oneWayReport; [reflexivity|].
    rewrite <- app_assoc. reflexivity.
Qed.

Lemma collection_fold_fields (evs : list (@MergeJoin.event string string))
    (r : Collections.Report) :
  let r' := fold_left collectionEvent evs r in
  Collections.okCollections r' = Collections.okCollections r ++ MergeJoin.both evs
  /\ Collections.onlyInCumulus r' = Collections.onlyInCumulus r ++ MergeJoin.onlyA evs
  /\ Collections.onlyInCmr r'
     = if oneWayReport then Collections.onlyInCmr r
       else Collections.onlyInCmr r ++ MergeJoin.onlyB evs.
Proof.
  revert r. induction evs as [|e evs IH]; intros r.
  - simpl. rewrite !app_nil_r. destruct oneWayReport; repeat split.
  - cbn [fold_left]. destruct (IH (collectionEvent r e)) as (H1 & H2 & H3).
    cbn zeta. rewrite H1, H2, H3, onlyA_cons, onlyB_cons, both_cons.
    destruct e, oneWayReport;
      cbn [Folds.collectionEvent Collections.okCollections Collections.onlyInCumulus
           Collections.onlyInCmr app];
      rewrite <- ?app_assoc; cbn [app]; repeat split.
Qed.

End CollectionsFacts.

(** The function returns the fold over the merge-join of the two arrays,
    provided no id is the empty string. *)
Lemma collections_report (recReportParams : Value.object) (cmrIds esIds : list string) :
  Forall (fun s => JS.truthy s = true) esIds ->
  Forall (fun s => JS.truthy s = true) cmrIds ->
  Collections.reconciliationReportForCollections recReportParams cmrIds esIds
  = Some (fold_left (Folds.collectionEvent (Collections.isOneWayReport recReportParams))
            (MergeJoin.mergeJoin (fun s => s) (fun s => s) esIds cmrIds)
            {| Collections.okCollections := []; Collections.onlyInCumulus := [];
               Collections.onlyInCmr := [] |}).
Proof.
  intros Hes Hcmr. unfold Collections.reconciliationReportForCollections.
  set (st0 := {| Collections.esCollectionIds := esIds; Collections.cmrCollectionIds := cmrIds;
                 Collections.report := _ |}).
  destruct (collections_mainLoop_spec (Collections.isOneWayReport recReportParams)
              (length esIds + length cmrIds) st0 Hes Hcmr)
    as (st' & Hrun & Hend & Hfold); [reflexivity|].
  subst st0. cbn [Collections.esCollectionIds Collections.cmrCollectionIds Collections.report] in *.
  rewrite Hrun. cbn [mbind option_bind]. f_equal. rewrite Hfold.
  destruct Hend as [Hend | Hend]; rewrite Hend.
  - rewrite mergeJoin_nil_l, fold_collection_RestB, app_nil_r. reflexivity.
  - rewrite mergeJoin_nil_r, fold_collection_RestA.
    destruct (Collections.isOneWayReport recReportParams); rewrite ?app_nil_r; reflexivity.
Qed.

(** Close a goal about concrete inputs by evaluating it. *)
Ltac evaluated := vm_compute; repeat constructor.

(** ** C1: what the merge-joins report *)

(** Claim C1.  For strictly sorted listings of a bucket, in
    any pages, [createReconciliationReportForBucket] returns a report
    whose [okCount] is the number of keys that both listings have, whose
    [onlyInS3] is the S3 listing without the keys of the files table, in
    its order, and whose [onlyInDynamoDb] is the files table without the
    keys of the S3 listing, in its order; each listing is as long as
    [okCount] plus the length of its list.  For strictly sorted arrays of
    collection ids, none of them empty, the same holds of
    [reconciliationReportForCollections] when the report is two-way
    (neither [startTimestamp] nor [endTimestamp] is set); the one-way
    report is the exception that claim C2 is about. *)
Theorem merge_join_reports
    (buildS3Uri : string -> string -> string) (Bucket : string)
    (s3Listing : list (list Bucket.S3Object))
    (dynamoDbScan : list (list Bucket.DynamoDbItem))
    (recReportParams : Value.object) (cmrIds esIds : list string) :
  let uriA := Folds.s3Uri buildS3Uri Bucket in
  let uriB := Folds.dynamoDbUri buildS3Uri Bucket in
  let A := concat s3Listing in
  let B := concat dynamoDbScan in
  Sorted JS.lt (map uriA A) ->
  Sorted JS.lt (map uriB B) ->
  Sorted JS.lt esIds ->
  Sorted JS.lt cmrIds ->
  Forall (fun s => JS.truthy s = true) esIds ->
  Forall (fun s => JS.truthy s = true) cmrIds ->
  Collections.isOneWayReport recReportParams = false ->
  (exists r,
     Bucket.createReconciliationReportForBucket buildS3Uri Bucket s3Listing dynamoDbScan
     = Some r
     /\ Bucket.okCount r = length (filter (fun a => uriA a ∈ map uriB B) A)
     /\ Bucket.onlyInS3 r = map uriA (filter (fun a => uriA a ∉ map uriB B) A)
     /\ Bucket.onlyInDynamoDb r
        = map (Bucket.entryOf buildS3Uri Bucket) (filter (fun b => uriB b ∉ map uriA A) B)
     /\ length A = Bucket.okCount r + length (Bucket.onlyInS3 r)
     /\ length B = Bucket.okCount r + length (Bucket.onlyInDynamoDb r))
  /\ (exists c,
        Collections.reconciliationReportForCollections recReportParams cmrIds esIds = Some c
        /\ Collections.okCollections c = filter (fun a => a ∈ cmrIds) esIds
        /\ Collections.onlyInCumulus c = filter (fun a => a ∉ cmrIds) esIds
        /\ Collections.onlyInCmr c = filter (fun b => b ∉ esIds) cmrIds
        /\ length esIds
           = length (Collections.okCollections c) + length (Collections.onlyInCumulus c)
        /\ length cmrIds
           = length (Collections.okCollections c) + length (Collections.onlyInCmr c)).
Proof.
  intros uriA uriB A B HA HB Hes Hcmr Tes Tcmr Htwo. split.
  - eexists. split; [apply bucket_report|].
    unfold Folds.bucketReportOf.
    destruct (bucket_fold_fields buildS3Uri Bucket
                (MergeJoin.mergeJoin uriA uriB A B) (Folds.emptyBucketReport))
      as (H1 & H2 & H3).
    destruct (mergeJoin_sorted uriA uriB A B HA HB) as (S1 & S2 & S3).
    destruct (mergeJoin_lengths uriA uriB A B) as (L1 & L2).
    cbn zeta in H1, H2, H3. fold uriA uriB A B.
    rewrite H1, H2, H3. cbn [Folds.emptyBucketReport Bucket.okCount Bucket.onlyInS3
                             Bucket.onlyInDynamoDb app Nat.add].
    rewrite !length_map, L1, L2 at 1. rewrite S1, S2, S3. repeat split.
  - eexists. split; [apply collections_report; assumption|].
    rewrite Htwo.
    destruct (collection_fold_fields false
                (MergeJoin.mergeJoin (fun s => s) (fun s => s) esIds cmrIds)
                {| Collections.okCollections := []; Collections.onlyInCumulus := [];
                   Collections.onlyInCmr := [] |}) as (H1 & H2 & H3).
    assert (Hes' : Sorted JS.lt (map (fun s : string => s) esIds)) by (rewrite map_id; exact Hes).
    assert (Hcmr' : Sorted JS.lt (map (fun s : string => s) cmrIds)) by (rewrite map_id; exact Hcmr).
    destruct (mergeJoin_sorted (fun s => s) (fun s => s) esIds cmrIds Hes' Hcmr') as (S1 & S2 & S3).
    destruct (mergeJoin_lengths (fun s : string => s) (fun s : string => s) esIds cmrIds) as (L1 & L2).
    rewrite !map_id in S1, S2, S3.
    cbn zeta in H1, H2, H3. rewrite H1, H2, H3.
    cbn [Collections.okCollections Collections.onlyInCumulus Collections.onlyInCmr app].
    rewrite L1, L2 at 1. rewrite S1, S2, S3. repeat split.
Qed.

Lemma merge_join_reports_witness :
  (exists r,
     Bucket.createReconciliationReportForBucket Samples.buildS3Uri "data"
       Samples.s3Listing Samples.dynamoDbScan = Some r
     /\ Bucket.okCount r = 2
     /\ Bucket.onlyInS3 r = ["s3://data/b"]
     /\ Bucket.onlyInDynamoDb r
        = [{| Bucket.Entry.uri := "s3://data/c"; Bucket.Entry.granuleId := "g1" |}])
  /\ (exists c,
        Collections.reconciliationReportForCollections Samples.twoWayParams
          Samples.cmrIds Samples.esIds = Some c
        /\ Collections.okCollections c = ["X___1"]
        /\ Collections.onlyInCumulus c = ["Z___1"]
        /\ Collections.onlyInCmr c = ["Y___1"]).
Proof.
  destruct (merge_join_reports Samples.buildS3Uri "data" Samples.s3Listing
              Samples.dynamoDbScan Samples.twoWayParams Samples.cmrIds Samples.esIds
              ltac:(evaluated) ltac:(evaluated) ltac:(evaluated) ltac:(evaluated)
              ltac:(evaluated) ltac:(evaluated) ltac:(evaluated))
    as [(r & Hr & H1 & H2 & H3 & _) (c & Hc & C1 & C2 & C3 & _)].
  split.
  - exists r. rewrite H1, H2, H3. split; [exact Hr|]. repeat split.
  - exists c. rewrite C1, C2, C3. split; [exact Hc|]. repeat split.
Defined.

(** ** C3: the pages of a listing do not matter *)

(** Claim C3.  [createReconciliationReportForBucket] reads its two
    listings through [peek] and [shift] only, and the cursor hands out
    the items of the pages in order; so the report over a listing split
    into pages in any way is the report over the same listing exposed as
    one single page, and the function does return it. *)
Theorem cursor_pages_do_not_matter
    (buildS3Uri : string -> string -> string) (Bucket : string)
    (s3Listing : list (list Bucket.S3Object))
    (dynamoDbScan : list (list Bucket.DynamoDbItem)) :
  exists r,
    Bucket.createReconciliationReportForBucket buildS3Uri Bucket s3Listing dynamoDbScan
    = Some r
    /\ Bucket.createReconciliationReportForBucket buildS3Uri Bucket
         [concat s3Listing] [concat dynamoDbScan] = Some r.
Proof.
  eexists. split; [apply bucket_report|].
  rewrite bucket_report. cbn [concat]. rewrite !app_nil_r. reflexivity.
Qed.

(** ** The loops over the granules of a collection end *)

Section GranulesFacts.
Variable constructOnlineAccessUrl : GranuleFiles.UrlRequest -> option string.
Variable buildS3Uri : string -> string -> string.
Variable DISTRIBUTION_ENDPOINT : option string.
Variable bucketsConfig : BucketsConfig.t.
Variable distributionBucketMap : gmap string string.
Variable collectionId : string.
Variable oneWay : bool.

Abbreviation granulesStep :=
  (Granules.step constructOnlineAccessUrl buildS3Uri DISTRIBUTION_ENDPOINT
     bucketsConfig distributionBucketMap collectionId oneWay).
Abbreviation granulesMainLoop :=
  (Granules.mainLoop constructOnlineAccessUrl buildS3Uri DISTRIBUTION_ENDPOINT
     bucketsConfig distributionBucketMap collectionId oneWay).

Lemma granules_step_spec (d : Granules.DbItem) (c : Granules.CmrItem) (st : Granules.State)
    (xs : list Granules.DbItem) (ys : list Granules.CmrItem) :
  Cursor.contents (Granules.esGranulesIterator st) = d :: xs ->
  Cursor.contents (Granules.cmrGranulesIterator st) = c :: ys ->
  exists st1,
    granulesStep d c st
    = (head (Cursor.contents (Granules.esGranulesIterator st1)),
       head (Cursor.contents (Granules.cmrGranulesIterator st1)), st1)
    /\ length (Cursor.contents (Granules.esGranulesIterator st1)) <= length (d :: xs)
    /\ length (Cursor.contents (Granules.esGranulesIterator st1))
       + length (Cursor.contents (Granules.cmrGranulesIterator st1))
       < length (d :: xs) + length (c :: ys)
    /\ (oneWay = true ->
        Granules.onlyInCmr (Granules.granulesReport (Granules.result st1))
        = Granules.onlyInCmr (Granules.granulesReport (Granules.result st))).
Proof.
  intros Hxs Hys. unfold Granules.step.
  destruct (String.ltb (Granules.granuleId d) (Granules.GranuleUR c));
    [|destruct (String.ltb (Granules.GranuleUR c) (Granules.granuleId d))];
    cbn [Granules.esGranulesIterator Granules.cmrGranulesIterator Granules.result].
  - look_at (Cursor.shift (Granules.esGranulesIterator st)) o q Hq. cbn [snd].
    look_at (Cursor.peek q) o1 q1 Hq1.
    look_at (Cursor.peek (Granules.cmrGranulesIterator st)) o2 q2 Hq2.
    rewrite Hxs in Hq. cbn [tail] in Hq. rewrite Hq in Hq1. rewrite Hys in Hq2.
    eexists {| Granules.esGranulesIterator := q1; Granules.cmrGranulesIterator := q2 |}.
    cbn [Granules.esGranulesIterator Granules.cmrGranulesIterator Granules.result
         Granules.granulesReport Granules.onlyInCmr].
    rewrite ?Hq, ?Hys, ?Hq1, ?Hq2. cbn [length]. repeat split; lia.
  - look_at (Cursor.shift (Granules.cmrGranulesIterator st)) o q Hq. cbn [snd].
    look_at (Cursor.peek (Granules.esGranulesIterator st)) o1 q1 Hq1.
    look_at (Cursor.peek q) o2 q2 Hq2.
    rewrite Hys in Hq. cbn [tail] in Hq. rewrite Hq in Hq2. rewrite Hxs in Hq1.
    eexists {| Granules.esGranulesIterator := q1; Granules.cmrGranulesIterator := q2 |}.
    cbn [Granules.esGranulesIterator Granules.cmrGranulesIterator Granules.result
         Granules.granulesReport Granules.onlyInCmr].
    rewrite ?Hq, ?Hxs, ?Hq1, ?Hq2. cbn [length]. repeat split; try lia.
    intros ->. reflexivity.
  - look_at (Cursor.shift (Granules.esGranulesIterator st)) o q Hq.
    look_at (Cursor.shift (Granules.cmrGranulesIterator st)) o' q' Hq'. cbn [snd].
    look_at (Cursor.peek q) o1 q1 Hq1.
    look_at (Cursor.peek q') o2 q2 Hq2.
    rewrite Hxs in Hq. rewrite Hys in Hq'. cbn [tail] in Hq, Hq'.
    rewrite Hq in Hq1. rewrite Hq' in Hq2.
    eexists {| Granules.esGranulesIterator := q1; Granules.cmrGranulesIterator := q2 |}.
    cbn [Granules.esGranulesIterator Granules.cmrGranulesIterator Granules.result
         Granules.granulesReport Granules.onlyInCmr].
    rewrite ?Hq, ?Hq', ?Hq1, ?Hq2. cbn [length]. repeat split; lia.
Qed.

Lemma granules_mainLoop_unfold (fuel : nat) (d : Granules.DbItem) (c : Granules.CmrItem)
    (st : Granules.State) :
  granulesMainLoop fuel (Some d) (Some c) st =
  match fuel with
  | 0 => None
  | S fuel' => let '(n1, n2, st') := granulesStep d c st in granulesMainLoop fuel' n1 n2 st'
  end.
Proof. destruct fuel; reflexivity. Qed.

Lemma granules_mainLoop_done (fuel : nat) (d : option Granules.DbItem)
    (c : option Granules.CmrItem) (st : Granules.State) :
  d = None \/ c = None -> granulesMainLoop fuel d c st = Some (c, st).
Proof. intros [H | H]; subst; destruct fuel; try destruct d; reflexivity. Qed.

(** With fuel for every granule still to come the first loop ends; in a
    one-way report it adds nothing to [onlyInCmr]. *)
Lemma granules_mainLoop_total (fuel : nat) (st : Granules.State) :
  length (Cursor.contents (Granules.esGranulesIterator st))
  + length (Cursor.contents (Granules.cmrGranulesIterator st)) <= fuel ->
  exists last st',
    granulesMainLoop fuel
      (head (Cursor.contents (Granules.esGranulesIterator st)))
      (head (Cursor.contents (Granules.cmrGranulesIterator st))) st = Some (last, st')
    /\ length (Cursor.contents (Granules.esGranulesIterator st'))
       <= length (Cursor.contents (Granules.esGranulesIterator st))
    /\ (oneWay = true ->
        Granules.onlyInCmr (Granules.granulesReport (Granules.result st'))
        = Granules.onlyInCmr (Granules.granulesReport (Granules.result st))).
Proof.
  revert st. induction fuel as [|fuel IH]; intros st Hfuel.
  - eexists _, st. rewrite granules_mainLoop_done; [repeat split; lia|].
    destruct (Cursor.contents (Granules.esGranulesIterator st)); [left; reflexivity|].
    simpl in Hfuel. lia.
  - destruct (Cursor.contents (Granules.esGranulesIterator st)) as [|d xs] eqn:Hxs.
    { eexists _, st. rewrite granules_mainLoop_done by (left; reflexivity).
      rewrite Hxs. repeat split; lia. }
    destruct (Cursor.contents (Granules.cmrGranulesIterator st)) as [|c ys] eqn:Hys.
    { eexists _, st. rewrite granules_mainLoop_done by (right; reflexivity).
      rewrite Hxs. repeat split; lia. }
    destruct (granules_step_spec d c st xs ys Hxs Hys) as (st1 & Hstep & Hl & Hlt & Hone).
    cbn [head]. rewrite granules_mainLoop_unfold, Hstep.
    destruct (IH st1) as (last & st' & Hrun & Hl' & Hone').
    { cbn [length] in Hfuel, Hlt. lia. }
    exists last, st'. rewrite Hrun. repeat split; [lia|].
    intros Hway. rewrite (Hone' Hway). exact (Hone Hway).
Qed.

Lemma drainDb_unfold (fuel : nat) (q : Cursor.Queue Granules.DbItem)
    (acc : list Granules.CumulusEntry.t) :
  Granules.drainDb collectionId fuel q acc =
  match Cursor.peek q with
  | (None, _) => Some acc
  | (Some _, q1) =>
      match fuel with
      | 0 => None
      | S fuel' =>
          let '(shifted, q2) := Cursor.shift q1 in
          dbItem ← shifted;
          Granules.drainDb collectionId fuel' q2
            (acc ++ [Granules.cumulusEntryOf collectionId (Granules.granuleId dbItem)])
      end
  end.
Proof. destruct fuel; reflexivity. Qed.

Lemma drainDb_spec (fuel : nat) (q : Cursor.Queue Granules.DbItem)
    (acc : list Granules.CumulusEntry.t) :
  Cursor.remaining q <= fuel ->
  Granules.drainDb collectionId fuel q acc
  = Some (acc ++ map (fun d => Granules.cumulusEntryOf collectionId (Granules.granuleId d))
                     (Cursor.contents q)).
Proof.
  revert q acc. induction fuel as [|fuel IH]; intros q acc Hfuel;
    rewrite drainDb_unfold; unfold Cursor.remaining in Hfuel;
    look_at (Cursor.peek q) o q1 Hc;
    destruct (Cursor.contents q) as [|x rest] eqn:Hq; cbn [head length] in *;
    try (rewrite app_nil_r; reflexivity); try lia.
  look_at (Cursor.shift q1) o q2 Hc2. rewrite Hc. cbn [head tail mbind option_bind].
  rewrite Hc in Hc2. cbn [tail] in Hc2.
  rewrite IH by (unfold Cursor.remaining; rewrite Hc2; lia).
  rewrite Hc2. cbn [map]. rewrite <- app_assoc. reflexivity.
Qed.

End GranulesFacts.

(** ** C2: a one-way report lists nothing as only in CMR *)

(** Claim C2.  When [isOneWayReport] holds of the parameters of the
    report, [reconciliationReportForCollections] and
    [reconciliationReportForGranules] both return, and the [onlyInCmr]
    of the collections and the [onlyInCmr] of the granules are empty,
    whatever the catalog and the index hold. *)
Theorem one_way_report_has_no_onlyInCmr
    (constructOnlineAccessUrl : GranuleFiles.UrlRequest -> option string)
    (buildS3Uri : string -> string -> string)
    (DISTRIBUTION_ENDPOINT : option string)
    (bucketsConfig : BucketsConfig.t) (distributionBucketMap : gmap string string)
    (collectionId : string) (recReportParams : Value.object)
    (cmrIds esIds : list string)
    (cmrGranules : list (list Granules.CmrItem))
    (esGranules : list (list Granules.DbItem)) :
  Collections.isOneWayReport recReportParams = true ->
  (exists c,
     Collections.reconciliationReportForCollections recReportParams cmrIds esIds = Some c
     /\ Collections.onlyInCmr c = [])
  /\ (exists r,
        Granules.reconciliationReportForGranules constructOnlineAccessUrl buildS3Uri
          DISTRIBUTION_ENDPOINT bucketsConfig distributionBucketMap collectionId
          (Collections.isOneWayReport recReportParams) cmrGranules esGranules = Some r
        /\ Granules.onlyInCmr (Granules.granulesReport r) = []).
Proof.
  intros Hway. split.
  - unfold Collections.reconciliationReportForCollections.
    set (st0 := {| Collections.esCollectionIds := esIds;
                   Collections.cmrCollectionIds := cmrIds; Collections.report := _ |}).
    destruct (collections_mainLoop_total (Collections.isOneWayReport recReportParams)
                (length esIds + length cmrIds) st0) as (st' & Hrun & Hone); [reflexivity|].
    subst st0. cbn [Collections.esCollectionIds Collections.cmrCollectionIds
                    Collections.report] in *.
    rewrite Hrun. cbn [mbind option_bind]. eexists. split; [reflexivity|].
    rewrite Hway. cbn [Collections.onlyInCmr]. exact (Hone Hway).
  - unfold Granules.reconciliationReportForGranules.
    look_at (Cursor.peek (Cursor.open esGranules)) o1 q1 Hq1.
    look_at (Cursor.peek (Cursor.open cmrGranules)) o2 q2 Hq2.
    rewrite contents_open in Hq1. rewrite contents_open in Hq2.
    unfold Cursor.remaining. rewrite !contents_open.
    set (st0 := {| Granules.esGranulesIterator := q1; Granules.cmrGranulesIterator := q2;
                   Granules.result := _ |}).
    destruct (granules_mainLoop_total constructOnlineAccessUrl buildS3Uri
                DISTRIBUTION_ENDPOINT bucketsConfig distributionBucketMap collectionId
                (Collections.isOneWayReport recReportParams)
                (length (concat esGranules) + length (concat cmrGranules)) st0)
      as (last & st' & Hrun & Hl & Hone).
    { subst st0. cbn [Granules.esGranulesIterator Granules.cmrGranulesIterator].
      rewrite Hq1, Hq2. lia. }
    subst st0. cbn [Granules.esGranulesIterator Granules.cmrGranulesIterator
                    Granules.result Granules.granulesReport Granules.onlyInCmr] in *.
    rewrite Hq1, Hq2 in *. rewrite Hrun. cbn [mbind option_bind].
    rewrite drainDb_spec by (unfold Cursor.remaining; lia). cbn [mbind option_bind].
    rewrite Hway. cbn [mbind option_bind]. eexists. split; [reflexivity|].
    cbn [Granules.granulesReport Granules.onlyInCmr]. exact (Hone Hway).
Qed.

Lemma one_way_report_has_no_onlyInCmr_witness :
  (exists c,
     Collections.reconciliationReportForCollections Samples.oneWayParams
       Samples.cmrIds Samples.esIds = Some c
     /\ Collections.onlyInCmr c = [])
  /\ (exists r,
        Granules.reconciliationReportForGranules Samples.constructOnlineAccessUrl
          Samples.buildS3Uri Samples.DISTRIBUTION_ENDPOINT Samples.bucketsConfig ∅ "X___1"
          (Collections.isOneWayReport Samples.oneWayParams)
          Samples.cmrGranules Samples.esGranules = Some r
        /\ Granules.onlyInCmr (Granules.granulesReport r) = []).
Proof.
  apply (one_way_report_has_no_onlyInCmr Samples.constructOnlineAccessUrl
           Samples.buildS3Uri Samples.DISTRIBUTION_ENDPOINT Samples.bucketsConfig ∅ "X___1"
           Samples.oneWayParams Samples.cmrIds Samples.esIds
           Samples.cmrGranules Samples.esGranules).
  vm_compute. reflexivity.
Defined.

(** ** Objects keyed by name *)

Lemma filter_split_Permutation {A : Type} (f : A -> bool) (l : list A) :
  Permutation (List.filter f l ++ List.filter (fun x => negb (f x)) l) l.
Proof.
  induction l as [|x l IH]; simpl; [constructor|].
  destruct (f x); simpl.
  - constructor. exact IH.
  - symmetry. apply Permutation_cons_app. symmetry. exact IH.
Qed.

Lemma filter_Permutation_bool {A : Type} (f : A -> bool) (l l' : list A) :
  Permutation l l' -> Permutation (List.filter f l) (List.filter f l').
Proof.
  induction 1 as [|x l l' _ IH|x y l|l l' l'' _ IH1 _ IH2]; simpl.
  - constructor.
  - destruct (f x); [constructor|]; exact IH.
  - destruct (f x), (f y); try reflexivity. constructor.
  - etransitivity; eassumption.
Qed.

Lemma filter_filter_bool {A : Type} (f g : A -> bool) (l : list A) :
  List.filter f (List.filter g l) = List.filter (fun x => g x && f x) l.
Proof.
  induction l as [|x l IH]; simpl; [reflexivity|].
  destruct (g x); simpl; [|exact IH]. destruct (f x); congruence.
Qed.

Section ObjectFacts.
Context {V : Type}.
Implicit Types (o : JSObject.t V) (k : string) (v : V).

Lemma entries_Permutation o : Permutation (JSObject.entries o) o.
Proof.
  unfold JSObject.entries. rewrite merge_sort_Permutation.
  apply filter_split_Permutation.
Qed.

Lemma get_In o k v : JSObject.get o k = Some v -> In (k, v) o.
Proof.
  unfold JSObject.get. destruct (List.find _ o) as [[k' v']|] eqn:Hfind; [|discriminate].
  simpl. intros [= <-]. apply find_some in Hfind as [Hin Heq].
  simpl in Heq. apply String.eqb_eq in Heq. subst k'. exact Hin.
Qed.

Lemma get_NoDup o k v :
  NoDup (map fst o) -> In (k, v) o -> JSObject.get o k = Some v.
Proof.
  unfold JSObject.get. induction o as [|[k' v'] o IH]; simpl; [tauto|].
  intros Hnd [Heq | Hin].
  - injection Heq as -> ->. rewrite String.eqb_refl. reflexivity.
  - apply NoDup_cons in Hnd as [Hnot Hnd].
    destruct (String.eqb k k') eqn:E.
    + apply String.eqb_eq in E. subst k'. exfalso. apply Hnot.
      apply list_elem_of_In. apply (in_map fst) in Hin. exact Hin.
    + apply IH; assumption.
Qed.

Lemma get_None o k : JSObject.get o k = None -> ~ In k (map fst o).
Proof.
  unfold JSObject.get. induction o as [|[k' v'] o IH]; simpl; [tauto|].
  destruct (String.eqb k k') eqn:E; [discriminate|].
  intros H [Heq | Hin]; [|exact (IH H Hin)].
  subst k'. rewrite String.eqb_refl in E. discriminate.
Qed.

Lemma set_keys k v o :
  forall k', In k' (map fst (JSObject.set k v o)) <-> k' = k \/ In k' (map fst o).
Proof.
  induction o as [|[k1 v1] o IH]; simpl; intros k'.
  - intuition congruence.
  - destruct (String.eqb k k1) eqn:E; simpl.
    + apply String.eqb_eq in E. subst k1. intuition congruence.
    + rewrite IH. intuition congruence.
Qed.

Lemma set_NoDup k v o : NoDup (map fst o) -> NoDup (map fst (JSObject.set k v o)).
Proof.
  induction o as [|[k1 v1] o IH]; simpl; intros Hnd.
  - apply NoDup_cons. split; [apply not_elem_of_nil|constructor].
  - apply NoDup_cons in Hnd as [Hnot Hnd].
    destruct (String.eqb k k1) eqn:E; simpl.
    + apply String.eqb_eq in E. subst k1. apply NoDup_cons. split; assumption.
    + apply NoDup_cons. split; [|apply IH; exact Hnd].
      rewrite list_elem_of_In, set_keys. intros [Heq | Hin].
      * subst k1. rewrite String.eqb_refl in E. discriminate.
      * apply Hnot. apply list_elem_of_In. exact Hin.
Qed.

Lemma set_In k v o k' v' :
  In (k', v') (JSObject.set k v o) -> (k' = k /\ v' = v) \/ In (k', v') o.
Proof.
  induction o as [|[k1 v1] o IH]; simpl.
  - intros [[= <- <-] | []]. left. split; reflexivity.
  - destruct (String.eqb k k1) eqn:E; simpl.
    + intros [[= <- <-] | Hin]; [left; split; reflexivity | right; right; exact Hin].
    + intros [Heq | Hin]; [right; left; exact Heq|].
      destruct (IH Hin) as [H | H]; [left; exact H | right; right; exact H].
Qed.

Lemma get_set k v o k' :
  JSObject.get (JSObject.set k v o) k'
  = if String.eqb k' k then Some v else JSObject.get o k'.
Proof.
  unfold JSObject.get. induction o as [|[k1 v1] o IH]; simpl.
  - destruct (String.eqb k' k); reflexivity.
  - destruct (String.eqb k k1) eqn:E; simpl.
    + apply String.eqb_eq in E. subst k1. destruct (String.eqb k' k); reflexivity.
    + destruct (String.eqb k' k1) eqn:E1; simpl.
      * apply String.eqb_eq in E1. subst k1.
        rewrite String.eqb_sym, E. reflexivity.
      * exact IH.
Qed.

Lemma delete_all (names : list string) o :
  fold_left (fun acc name => JSObject.delete name acc) names o
  = List.filter (fun kv => negb (GranuleFiles.includes names (fst kv))) o.
Proof.
  revert o. induction names as [|n names IH]; intros o; simpl.
  - symmetry. apply forallb_filter_id. apply forallb_forall. reflexivity.
  - rewrite IH. unfold JSObject.delete. rewrite filter_filter_bool.
    apply filter_ext. intros [k v]. simpl. unfold GranuleFiles.includes. simpl.
    rewrite (String.eqb_sym k n). destruct (String.eqb n k); reflexivity.
Qed.

End ObjectFacts.

Section KeyByFacts.
Context {V : Type}.
Variable f : V -> string.

Lemma keyBy_fold (xs : list V) (o : JSObject.t V) :
  NoDup (map fst o) ->
  (forall k v, In (k, v) o -> k = f v) ->
  let o' := fold_left (fun o x => JSObject.set (f x) x o) xs o in
  NoDup (map fst o') /\ (forall k v, In (k, v) o' -> k = f v).
Proof.
  revert o. induction xs as [|x xs IH]; intros o Hnd Hkey; simpl; [split; assumption|].
  apply IH.
  - apply set_NoDup. exact Hnd.
  - intros k v Hin. apply set_In in Hin as [[-> ->] | Hin]; [reflexivity|].
    apply Hkey. exact Hin.
Qed.

(** The object of [keyBy] has every key once, and every value under its
    own key. *)
Lemma keyBy_NoDup (xs : list V) : NoDup (map fst (JSObject.keyBy f xs)).
Proof. apply (keyBy_fold xs []); [constructor|intros k v []]. Qed.

Lemma keyBy_key (xs : list V) (k : string) (v : V) :
  In (k, v) (JSObject.keyBy f xs) -> k = f v.
Proof. apply (keyBy_fold xs []); [constructor|intros k' v' []]. Qed.

Lemma get_keyBy_fold (xs : list V) (o : JSObject.t V) (x : V) :
  NoDup (map f xs) -> In x xs ->
  JSObject.get (fold_left (fun o x => JSObject.set (f x) x o) xs o) (f x) = Some x.
Proof.
  revert o. induction xs as [|y xs IH]; intros o Hnd Hin; [destruct Hin|].
  simpl in Hnd. apply NoDup_cons in Hnd as [Hnot Hnd]. simpl.
  destruct Hin as [-> | Hin]; [|apply IH; assumption].
  clear IH. revert o. induction xs as [|z xs IH]; intros o; simpl.
  - rewrite get_set, String.eqb_refl. reflexivity.
  - simpl in Hnot, Hnd. apply not_elem_of_cons in Hnot as [Hne Hnot].
    apply NoDup_cons in Hnd as [_ Hnd].
    assert (Hswap : forall o', JSObject.get o' (f x) = Some x ->
              JSObject.get (fold_left (fun o x => JSObject.set (f x) x o) xs o') (f x) = Some x).
    { clear IH. revert Hnot. clear. induction xs as [|w xs IHw]; intros Hnot o' Hget; simpl.
      - exact Hget.
      - apply not_elem_of_cons in Hnot as [Hne Hnot]. apply IHw; [exact Hnot|].
        rewrite get_set. destruct (String.eqb (f x) (f w)) eqn:E; [|exact Hget].
        apply String.eqb_eq in E. congruence. }
    apply Hswap. rewrite get_set.
    destruct (String.eqb (f x) (f z)) eqn:E.
    + apply String.eqb_eq in E. congruence.
    + rewrite get_set, String.eqb_refl. reflexivity.
Qed.

(** When the names are distinct, [keyBy] keeps every element under its
    name. *)
Lemma get_keyBy (xs : list V) (x : V) :
  NoDup (map f xs) -> In x xs -> JSObject.get (JSObject.keyBy f xs) (f x) = Some x.
Proof. apply get_keyBy_fold. Qed.

End KeyByFacts.

(** ** The report on the files of a granule, part by part *)

Lemma filter_keys_NoDup {V : Type} (p : string * V -> bool) (o : JSObject.t V) :
  NoDup (map fst o) -> NoDup (map fst (List.filter p o)).
Proof.
  induction o as [|kv o IH]; simpl; [constructor|].
  intros Hnd. apply NoDup_cons in Hnd as [Hnot Hnd].
  destruct (p kv); simpl; [|apply IH; exact Hnd].
  apply NoDup_cons. split; [|apply IH; exact Hnd].
  intros Hin. apply Hnot. apply list_elem_of_In in Hin. apply list_elem_of_In.
  apply in_map_iff in Hin as (kv' & Heq & Hin'). apply filter_In in Hin' as [Hin' _].
  rewrite <- Heq. apply in_map. exact Hin'.
Qed.

Section GranuleFilesFacts.
Variable constructOnlineAccessUrl : GranuleFiles.UrlRequest -> option string.
Variable buildS3Uri : string -> string -> string.
Variable DISTRIBUTION_ENDPOINT : option string.
Variable bucketsConfig : BucketsConfig.t.
Variable distributionBucketMap : gmap string string.

Abbreviation report :=
  (GranuleFiles.reconciliationReportForGranuleFiles constructOnlineAccessUrl buildS3Uri
     DISTRIBUTION_ENDPOINT bucketsConfig distributionBucketMap).
Abbreviation waitingOf :=
  (GranuleFiles.waitingOf constructOnlineAccessUrl DISTRIBUTION_ENDPOINT bucketsConfig
     distributionBucketMap).
Abbreviation start :=
  (GranuleFiles.start constructOnlineAccessUrl DISTRIBUTION_ENDPOINT bucketsConfig
     distributionBucketMap).
Abbreviation waitingUrls :=
  (GranuleFiles.waitingUrls constructOnlineAccessUrl DISTRIBUTION_ENDPOINT bucketsConfig
     distributionBucketMap).
Abbreviation okUrls :=
  (GranuleFiles.okUrls constructOnlineAccessUrl DISTRIBUTION_ENDPOINT bucketsConfig
     distributionBucketMap).
Abbreviation claimedNames :=
  (GranuleFiles.claimedNames constructOnlineAccessUrl DISTRIBUTION_ENDPOINT bucketsConfig
     distributionBucketMap).
Abbreviation leftoverFiles :=
  (GranuleFiles.leftoverFiles constructOnlineAccessUrl DISTRIBUTION_ENDPOINT bucketsConfig
     distributionBucketMap).
Abbreviation privateLeft :=
  (GranuleFiles.privateLeft constructOnlineAccessUrl DISTRIBUTION_ENDPOINT bucketsConfig
     distributionBucketMap).
Abbreviation strandedUrls :=
  (GranuleFiles.strandedUrls constructOnlineAccessUrl DISTRIBUTION_ENDPOINT bucketsConfig
     distributionBucketMap).
Abbreviation mismatchedUrls :=
  (GranuleFiles.mismatchedUrls constructOnlineAccessUrl DISTRIBUTION_ENDPOINT bucketsConfig
     distributionBucketMap).
Abbreviation cumulusEntryOf := (GranuleFiles.cumulusEntryOf buildS3Uri).

(** A callback up to its first [await]: it waits, or it is done. *)
Lemma start_step (c : GranuleFiles.GranuleInCmr) (files0 : JSObject.t GranuleFiles.File)
    (acc : list GranuleFiles.CmrEntry.t) (ws : list GranuleFiles.Waiting)
    (e : GranuleFiles.RelatedUrl) :
  start c files0 (acc, ws) e
  = match waitingOf files0 e with
    | Some w => (acc, ws ++ [w])
    | None =>
        if GranuleFiles.includes GranuleFiles.cmrGetDataTypes (GranuleFiles.Type' e)
        then (acc ++ [GranuleFiles.cmrEntryOf c e], ws)
        else (acc, ws)
    end.
Proof.
  unfold GranuleFiles.start, GranuleFiles.waitingOf.
  destruct (GranuleFiles.includes GranuleFiles.cmrGetDataTypes (GranuleFiles.Type' e));
    destruct (GranuleFiles.includes GranuleFiles.cmrRelatedDataTypes (GranuleFiles.Type' e));
    cbn [orb]; try reflexivity;
    destruct (JSObject.get files0 (JS.split_pop (GranuleFiles.URL e))) as [f|];
    try reflexivity;
    destruct (GranuleFiles.knownBucket bucketsConfig f); reflexivity.
Qed.

(** The callbacks up to their first [await]. *)
Lemma start_fold (c : GranuleFiles.GranuleInCmr) (files0 : JSObject.t GranuleFiles.File)
    (urls : list GranuleFiles.RelatedUrl)
    (acc : list GranuleFiles.CmrEntry.t) (ws : list GranuleFiles.Waiting) :
  fold_left (start c files0) urls (acc, ws)
  = (acc ++ map (GranuleFiles.cmrEntryOf c)
              (List.filter
                 (fun e => GranuleFiles.includes GranuleFiles.cmrGetDataTypes (GranuleFiles.Type' e)
                           && match waitingOf files0 e with Some _ => false | None => true end)
                 urls),
     ws ++ omap (waitingOf files0) urls).
Proof.
  revert acc ws. induction urls as [|e urls IH]; intros acc ws.
  - simpl. rewrite !app_nil_r. reflexivity.
  - cbn [fold_left List.filter omap list_omap]. rewrite start_step.
    destruct (waitingOf files0 e) as [w|].
    + rewrite IH, andb_false_r, <- app_assoc. reflexivity.
    + rewrite andb_true_r.
      destruct (GranuleFiles.includes GranuleFiles.cmrGetDataTypes (GranuleFiles.Type' e));
        rewrite IH; cbn [map]; rewrite <- ?app_assoc; reflexivity.
Qed.

(** The callbacks after their last [await]. *)
Lemma settle_fold (c : GranuleFiles.GranuleInCmr) (ws : list GranuleFiles.Waiting)
    (t : GranuleFiles.Tally) :
  fold_left (GranuleFiles.settle c) ws t
  = {| GranuleFiles.tallyOk :=
         GranuleFiles.tallyOk t + length (List.filter GranuleFiles.matches ws);
       GranuleFiles.tallyOnlyInCmr :=
         GranuleFiles.tallyOnlyInCmr t
         ++ map (fun w => GranuleFiles.cmrEntryOf c (GranuleFiles.relatedUrl w))
              (List.filter
                 (fun w => negb (GranuleFiles.matches w)
                           && GranuleFiles.includes GranuleFiles.cmrGetDataTypes
                                (GranuleFiles.Type' (GranuleFiles.relatedUrl w)))
                 ws);
       GranuleFiles.granuleFiles :=
         List.filter
           (fun kv => negb (GranuleFiles.includes (map GranuleFiles.urlFileName ws) (fst kv)))
           (GranuleFiles.granuleFiles t) |}.
Proof.
  rewrite <- (delete_all (map GranuleFiles.urlFileName ws)).
  revert t. induction ws as [|w ws IH]; intros t.
  - destruct t. simpl. rewrite Nat.add_0_r, app_nil_r. reflexivity.
  - cbn [fold_left map List.filter]. rewrite IH. unfold GranuleFiles.settle, GranuleFiles.matches.
    destruct (GranuleFiles.sameUrl (GranuleFiles.distributionAccessUrl w)
                (GranuleFiles.URL (GranuleFiles.relatedUrl w)));
      [|destruct (GranuleFiles.sameUrl (GranuleFiles.s3AccessUrl w)
                    (GranuleFiles.URL (GranuleFiles.relatedUrl w)));
        [|destruct (GranuleFiles.includes GranuleFiles.cmrGetDataTypes
                      (GranuleFiles.Type' (GranuleFiles.relatedUrl w)))]];
      cbn [orb negb andb GranuleFiles.tallyOk GranuleFiles.tallyOnlyInCmr
           GranuleFiles.granuleFiles length map app];
      rewrite <- ?app_assoc; f_equal; lia.
Qed.

(** The loop over the files that are left, entry by entry. *)
Lemma leftover_fold (g : GranuleFiles.GranuleInDb) (o : JSObject.t GranuleFiles.File)
    (l : list (string * GranuleFiles.File)) (ok : nat) (acc : list GranuleFiles.CumulusEntry.t) :
  (forall kv, In kv l -> JSObject.get o (fst kv) = Some (snd kv)) ->
  fold_left (GranuleFiles.leftover buildS3Uri bucketsConfig g o) (map fst l) (ok, acc)
  = (ok + length (List.filter (fun kv => GranuleFiles.inPrivateBucket bucketsConfig (snd kv)) l),
     acc ++ map (cumulusEntryOf g)
              (List.filter (fun kv => negb (GranuleFiles.inPrivateBucket bucketsConfig (snd kv))) l)).
Proof.
  revert ok acc. induction l as [|kv l IH]; intros ok acc Hget.
  - simpl. rewrite Nat.add_0_r, app_nil_r. reflexivity.
  - cbn [map fold_left List.filter]. unfold GranuleFiles.leftover at 2.
    rewrite (Hget kv (or_introl eq_refl)).
    destruct (GranuleFiles.inPrivateBucket bucketsConfig (snd kv)); cbn [negb fst snd];
      rewrite IH by (intros kv' Hin; apply Hget; right; exact Hin);
      cbn [length map app]; rewrite <- ?app_assoc; f_equal; lia.
Qed.

(** The report, part by part: the entries of the catalog that match, the
    private files that are left, the other files that are left, the
    download entries that found no file and those that match no
    candidate URL. *)
Lemma granule_files_report (g : GranuleFiles.GranuleInDb) (c : GranuleFiles.GranuleInCmr) :
  let left := JSObject.entries (leftoverFiles g c) in
  report g c
  = {| GranuleFiles.okCount :=
         length (okUrls g c)
         + length (List.filter (fun kv => GranuleFiles.inPrivateBucket bucketsConfig (snd kv)) left);
       GranuleFiles.onlyInCumulus :=
         map (cumulusEntryOf g)
           (List.filter (fun kv => negb (GranuleFiles.inPrivateBucket bucketsConfig (snd kv))) left);
       GranuleFiles.onlyInCmr :=
         map (GranuleFiles.cmrEntryOf c) (strandedUrls g c)
         ++ map (fun w => GranuleFiles.cmrEntryOf c (GranuleFiles.relatedUrl w))
              (mismatchedUrls g c) |}.
Proof.
  intros left. unfold GranuleFiles.reconciliationReportForGranuleFiles.
  rewrite start_fold. cbn [app]. rewrite settle_fold.
  cbn [GranuleFiles.tallyOk GranuleFiles.tallyOnlyInCmr GranuleFiles.granuleFiles Nat.add].
  fold (GranuleFiles.granuleFilesOf g). fold (waitingUrls g c). fold (claimedNames g c).
  fold (leftoverFiles g c). unfold JSObject.keys. fold left.
  rewrite leftover_fold; [reflexivity|].
  intros [k v] Hin. cbn [fst snd]. apply get_NoDup.
  - apply filter_keys_NoDup. apply keyBy_NoDup.
  - eapply Permutation_in; [apply entries_Permutation|exact Hin].
Qed.

End GranuleFilesFacts.

Section GranuleFilesAccounts.
Variable constructOnlineAccessUrl : GranuleFiles.UrlRequest -> option string.
Variable buildS3Uri : string -> string -> string.
Variable DISTRIBUTION_ENDPOINT : option string.
Variable bucketsConfig : BucketsConfig.t.
Variable distributionBucketMap : gmap string string.

Abbreviation report :=
  (GranuleFiles.reconciliationReportForGranuleFiles constructOnlineAccessUrl buildS3Uri
     DISTRIBUTION_ENDPOINT bucketsConfig distributionBucketMap).
Abbreviation waitingOf :=
  (GranuleFiles.waitingOf constructOnlineAccessUrl DISTRIBUTION_ENDPOINT bucketsConfig
     distributionBucketMap).
Abbreviation waitingUrls :=
  (GranuleFiles.waitingUrls constructOnlineAccessUrl DISTRIBUTION_ENDPOINT bucketsConfig
     distributionBucketMap).
Abbreviation okUrls :=
  (GranuleFiles.okUrls constructOnlineAccessUrl DISTRIBUTION_ENDPOINT bucketsConfig
     distributionBucketMap).
Abbreviation claimedNames :=
  (GranuleFiles.claimedNames constructOnlineAccessUrl DISTRIBUTION_ENDPOINT bucketsConfig
     distributionBucketMap).
Abbreviation leftoverFiles :=
  (GranuleFiles.leftoverFiles constructOnlineAccessUrl DISTRIBUTION_ENDPOINT bucketsConfig
     distributionBucketMap).
Abbreviation privateLeft :=
  (GranuleFiles.privateLeft constructOnlineAccessUrl DISTRIBUTION_ENDPOINT bucketsConfig
     distributionBucketMap).
Abbreviation strandedUrls :=
  (GranuleFiles.strandedUrls constructOnlineAccessUrl DISTRIBUTION_ENDPOINT bucketsConfig
     distributionBucketMap).
Abbreviation mismatchedUrls :=
  (GranuleFiles.mismatchedUrls constructOnlineAccessUrl DISTRIBUTION_ENDPOINT bucketsConfig
     distributionBucketMap).
Abbreviation candidateMatch :=
  (GranuleFiles.candidateMatch constructOnlineAccessUrl DISTRIBUTION_ENDPOINT bucketsConfig
     distributionBucketMap).
Abbreviation cumulusEntryOf := (GranuleFiles.cumulusEntryOf buildS3Uri).
Abbreviation isPrivate :=
  (fun kv : string * GranuleFiles.File => GranuleFiles.inPrivateBucket bucketsConfig (snd kv)).
Abbreviation isDownload :=
  (fun e : GranuleFiles.RelatedUrl =>
     GranuleFiles.includes GranuleFiles.cmrGetDataTypes (GranuleFiles.Type' e)).

Lemma includes_In (names : list string) (k : string) :
  GranuleFiles.includes names k = true <-> In k names.
Proof.
  unfold GranuleFiles.includes. rewrite existsb_exists. split.
  - intros (x & Hin & Heq). apply String.eqb_eq in Heq. subst x. exact Hin.
  - intros Hin. exists k. split; [exact Hin|apply String.eqb_refl].
Qed.

Lemma waitingOf_Some (files0 : JSObject.t GranuleFiles.File) (e : GranuleFiles.RelatedUrl)
    (w : GranuleFiles.Waiting) :
  waitingOf files0 e = Some w ->
  GranuleFiles.relatedUrl w = e
  /\ GranuleFiles.urlFileName w = JS.split_pop (GranuleFiles.URL e)
  /\ exists f, JSObject.get files0 (JS.split_pop (GranuleFiles.URL e)) = Some f
               /\ GranuleFiles.knownBucket bucketsConfig f = true
               /\ GranuleFiles.matches w = candidateMatch e f.
Proof.
  unfold GranuleFiles.waitingOf.
  destruct (_ || _); [|discriminate].
  destruct (JSObject.get files0 _) as [f|]; [|discriminate].
  destruct (GranuleFiles.knownBucket bucketsConfig f) eqn:Hk; [|discriminate].
  intros [= <-]. repeat split. exists f. repeat split. exact Hk.
Qed.


Lemma In_omap {A B : Type} (f : A -> option B) (l : list A) (y : B) :
  In y (omap f l) <-> exists x, In x l /\ f x = Some y.
Proof.
  rewrite <- list_elem_of_In, list_elem_of_omap.
  split; intros (x & H1 & H2); exists x; split; try assumption;
    apply list_elem_of_In; assumption.
Qed.


Lemma leftover_NoDup (g : GranuleFiles.GranuleInDb) (c : GranuleFiles.GranuleInCmr) :
  NoDup (map fst (leftoverFiles g c)).
Proof. apply filter_keys_NoDup. apply keyBy_NoDup. Qed.


(** The private files that are left are counted once each. *)
Lemma okCount_parts (g : GranuleFiles.GranuleInDb) (c : GranuleFiles.GranuleInCmr) :
  GranuleFiles.okCount (report g c) = length (okUrls g c) + length (privateLeft g c).
Proof.
  rewrite granule_files_report. cbn [GranuleFiles.okCount]. f_equal.
  apply Permutation_length. apply filter_Permutation_bool. apply entries_Permutation.
Qed.

(** The other files that are left are in [onlyInCumulus], once each. *)
Lemma onlyInCumulus_parts (g : GranuleFiles.GranuleInDb) (c : GranuleFiles.GranuleInCmr) :
  Permutation (GranuleFiles.onlyInCumulus (report g c))
    (map (cumulusEntryOf g) (List.filter (fun kv => negb (isPrivate kv)) (leftoverFiles g c))).
Proof.
  rewrite granule_files_report. cbn [GranuleFiles.onlyInCumulus].
  apply Permutation_map. apply filter_Permutation_bool. apply entries_Permutation.
Qed.

Lemma onlyInCumulus_name (g : GranuleFiles.GranuleInDb) (c : GranuleFiles.GranuleInCmr)
    (name : string) :
  In name (map GranuleFiles.CumulusEntry.fileName (GranuleFiles.onlyInCumulus (report g c))) ->
  exists f, In (name, f) (leftoverFiles g c)
            /\ GranuleFiles.inPrivateBucket bucketsConfig f = false.
Proof.
  intros Hin. apply in_map_iff in Hin as (entry & Hname & Hin).
  eapply Permutation_in in Hin; [|apply onlyInCumulus_parts].
  apply in_map_iff in Hin as ([k f] & Hentry & Hin). apply filter_In in Hin as [Hin Hp].
  subst entry name. exists f. cbn [GranuleFiles.cumulusEntryOf GranuleFiles.CumulusEntry.fileName fst].
  split; [exact Hin|]. cbn [snd] in Hp. destruct (GranuleFiles.inPrivateBucket bucketsConfig f);
    [discriminate|reflexivity].
Qed.

(** A file that an entry of the catalog claims is not left. *)
Lemma claimed_not_left (g : GranuleFiles.GranuleInDb) (c : GranuleFiles.GranuleInCmr)
    (name : string) (f : GranuleFiles.File) :
  In name (claimedNames g c) -> ~ In (name, f) (leftoverFiles g c).
Proof.
  intros Hc Hin. apply filter_In in Hin as [_ Hp]. cbn [fst] in Hp.
  apply includes_In in Hc. rewrite Hc in Hp. discriminate.
Qed.

End GranuleFilesAccounts.

(** ** C5: a file that the catalog does not reference *)



(** ** C6: an entry of the catalog that names a local file *)



(** ** C4: where the files and the download entries of a granule go *)

Section DownloadCount.
Variable constructOnlineAccessUrl : GranuleFiles.UrlRequest -> option string.
Variable DISTRIBUTION_ENDPOINT : option string.
Variable bucketsConfig : BucketsConfig.t.
Variable distributionBucketMap : gmap string string.

Abbreviation waitingOf :=
  (GranuleFiles.waitingOf constructOnlineAccessUrl DISTRIBUTION_ENDPOINT bucketsConfig
     distributionBucketMap).
Abbreviation isDownload :=
  (fun e : GranuleFiles.RelatedUrl =>
     GranuleFiles.includes GranuleFiles.cmrGetDataTypes (GranuleFiles.Type' e)).

(** A download entry waits and matches, waits and does not match, or
    does not wait. *)
Lemma download_entries_split (files0 : JSObject.t GranuleFiles.File)
    (urls : list GranuleFiles.RelatedUrl) :
  length (List.filter isDownload urls)
  = length (List.filter (fun w => isDownload (GranuleFiles.relatedUrl w))
              (List.filter GranuleFiles.matches (omap (waitingOf files0) urls)))
    + (length (List.filter
                 (fun e => isDownload e
                           && match waitingOf files0 e with Some _ => false | None => true end)
                 urls)
       + length (List.filter
                   (fun w => negb (GranuleFiles.matches w)
                             && isDownload (GranuleFiles.relatedUrl w))
                   (omap (waitingOf files0) urls))).
Proof.
  induction urls as [|e urls IH]; [reflexivity|].
  cbn [List.filter omap list_omap].
  destruct (waitingOf files0 e) as [w|] eqn:Hw.
  - apply waitingOf_Some in Hw as (Hwe & _). rewrite andb_false_r.
    cbn [List.filter]. rewrite Hwe.
    destruct (GranuleFiles.matches w); cbn [List.filter negb andb]; rewrite ?Hwe;
      destruct (isDownload e); cbn [length]; lia.
  - rewrite andb_true_r. destruct (isDownload e); cbn [length]; lia.
Qed.

End DownloadCount.

(** Claim C4, as amended.  Let the files of the granule have distinct
    names.  A file whose name no entry of the catalog claims is left
    over, and the files left over are accounted for once each: the
    private ones in [okCount], the others in [onlyInCumulus].  A file
    whose name an entry claims is not left over: it is in neither.
    Every download entry of the catalog is accounted for once: among the
    entries that [okCount] counts, or in [onlyInCmr]. *)
Theorem granule_files_accounting
    (constructOnlineAccessUrl : GranuleFiles.UrlRequest -> option string)
    (buildS3Uri : string -> string -> string)
    (DISTRIBUTION_ENDPOINT : option string)
    (bucketsConfig : BucketsConfig.t) (distributionBucketMap : gmap string string)
    (granuleInDb : GranuleFiles.GranuleInDb) (granuleInCmr : GranuleFiles.GranuleInCmr) :
  let r := GranuleFiles.reconciliationReportForGranuleFiles constructOnlineAccessUrl
             buildS3Uri DISTRIBUTION_ENDPOINT bucketsConfig distributionBucketMap
             granuleInDb granuleInCmr in
  let okUrls := GranuleFiles.okUrls constructOnlineAccessUrl DISTRIBUTION_ENDPOINT
                  bucketsConfig distributionBucketMap granuleInDb granuleInCmr in
  let claimedNames := GranuleFiles.claimedNames constructOnlineAccessUrl DISTRIBUTION_ENDPOINT
                        bucketsConfig distributionBucketMap granuleInDb granuleInCmr in
  let leftoverFiles := GranuleFiles.leftoverFiles constructOnlineAccessUrl DISTRIBUTION_ENDPOINT
                         bucketsConfig distributionBucketMap granuleInDb granuleInCmr in
  let privateLeft := GranuleFiles.privateLeft constructOnlineAccessUrl DISTRIBUTION_ENDPOINT
                       bucketsConfig distributionBucketMap granuleInDb granuleInCmr in
  let isDownload := fun e => GranuleFiles.includes GranuleFiles.cmrGetDataTypes
                               (GranuleFiles.Type' e) in
  NoDup (map GranuleFiles.fileName (GranuleFiles.files granuleInDb)) ->
  (forall f, In f (GranuleFiles.files granuleInDb) ->
     (~ In (GranuleFiles.fileName f) claimedNames ->
      In (GranuleFiles.fileName f, f) leftoverFiles)
     /\ (In (GranuleFiles.fileName f) claimedNames ->
         ~ In (GranuleFiles.fileName f) (map fst leftoverFiles)
         /\ ~ In (GranuleFiles.fileName f)
                 (map GranuleFiles.CumulusEntry.fileName (GranuleFiles.onlyInCumulus r))))
  /\ NoDup (map fst leftoverFiles)
  /\ length leftoverFiles = length privateLeft + length (GranuleFiles.onlyInCumulus r)
  /\ GranuleFiles.okCount r = length okUrls + length privateLeft
  /\ Permutation (GranuleFiles.onlyInCumulus r)
       (map (GranuleFiles.cumulusEntryOf buildS3Uri granuleInDb)
          (List.filter (fun kv => negb (GranuleFiles.inPrivateBucket bucketsConfig (snd kv)))
             leftoverFiles))
  /\ length (List.filter isDownload (GranuleFiles.RelatedUrls granuleInCmr))
     = length (List.filter (fun w => isDownload (GranuleFiles.relatedUrl w)) okUrls)
       + length (GranuleFiles.onlyInCmr r).
Proof.
  intros r okUrls claimedNames leftoverFiles privateLeft isDownload Hnames.
  subst r okUrls claimedNames leftoverFiles privateLeft isDownload.
  split; [|split; [|split; [|split; [|split]]]].
  - intros f Hf. split.
    + intros Hnot. apply filter_In. split.
      * apply get_In. apply get_keyBy; assumption.
      * cbn [fst]. destruct (GranuleFiles.includes _ _) eqn:E; [|reflexivity].
        apply includes_In in E. contradiction.
    + intros Hc. split.
      * intros Hin. apply in_map_iff in Hin as ([k f'] & Hk & Hin). cbn [fst] in Hk. subst k.
        exact (claimed_not_left _ _ _ _ _ _ _ f' Hc Hin).
      * intros Hin. apply onlyInCumulus_name in Hin as (f' & Hin & _).
        exact (claimed_not_left _ _ _ _ _ _ _ f' Hc Hin).
  - apply leftover_NoDup.
  - rewrite (Permutation_length (onlyInCumulus_parts _ buildS3Uri _ _ _ _ _)), length_map.
    unfold GranuleFiles.privateLeft. symmetry. apply filter_length.
  - apply okCount_parts.
  - apply onlyInCumulus_parts.
  - rewrite granule_files_report. cbn [GranuleFiles.onlyInCmr].
    rewrite length_app, !length_map.
    apply download_entries_split.
Qed.

Lemma granule_files_accounting_witness :
  length (GranuleFiles.leftoverFiles Samples.constructOnlineAccessUrl
            Samples.DISTRIBUTION_ENDPOINT Samples.bucketsConfig ∅ Samples.granuleInDb
            (Samples.granuleInCmr [Samples.strangerUrl]))
  = length (GranuleFiles.privateLeft Samples.constructOnlineAccessUrl
              Samples.DISTRIBUTION_ENDPOINT Samples.bucketsConfig ∅ Samples.granuleInDb
              (Samples.granuleInCmr [Samples.strangerUrl]))
    + length (GranuleFiles.onlyInCumulus
                (GranuleFiles.reconciliationReportForGranuleFiles
                   Samples.constructOnlineAccessUrl Samples.buildS3Uri
                   Samples.DISTRIBUTION_ENDPOINT Samples.bucketsConfig ∅ Samples.granuleInDb
                   (Samples.granuleInCmr [Samples.strangerUrl]))).
Proof.
  assert (Hnames : NoDup (map GranuleFiles.fileName (GranuleFiles.files Samples.granuleInDb))).
  { apply (bool_decide_unpack _). vm_compute. exact I. }
  destruct (granule_files_accounting Samples.constructOnlineAccessUrl Samples.buildS3Uri
              Samples.DISTRIBUTION_ENDPOINT Samples.bucketsConfig ∅ Samples.granuleInDb
              (Samples.granuleInCmr [Samples.strangerUrl]) Hnames) as (_ & _ & Hlen & _).
  exact Hlen.
Defined.

(** Claim C4 as stated fails when a download entry names a local file at
    another address than its own: the entry goes to [onlyInCmr] and the
    file is deleted from [granuleFiles], so the one file of the granule
    is counted nowhere, neither in [okCount] nor in [onlyInCumulus]. *)
Lemma dropped_file_counterexample :
  GranuleFiles.files Samples.loneGranule = [Samples.f1]
  /\ GranuleFiles.reconciliationReportForGranuleFiles Samples.constructOnlineAccessUrl
       Samples.buildS3Uri Samples.DISTRIBUTION_ENDPOINT Samples.bucketsConfig ∅
       Samples.loneGranule (Samples.granuleInCmr [Samples.movedUrl])
     = {| GranuleFiles.okCount := 0;
          GranuleFiles.onlyInCumulus := [];
          GranuleFiles.onlyInCmr :=
            [{| GranuleFiles.CmrEntry.URL := "https://elsewhere/f1.hdf";
                GranuleFiles.CmrEntry.Type' := "GET DATA";
                GranuleFiles.CmrEntry.GranuleUR := "G1" |}] |}.
Proof. split; vm_compute; reflexivity. Qed.

(** ** C7: the life of a report record *)

Section OrchestratorFacts.
Variable buildS3Uri : string -> string -> string.
Variable camelCase : string -> string.
Variable errorify : Effects.Error -> string.
Variable startStamp : string.
Variable startTime : string.
Variable endTime : string.
Variable bucketsConfigJson : Effects.result (list (string * BucketsConfig.Config)).
Variable distributionBucketMapJson : Effects.result (gmap string string).
Variable bucketReports : list string -> Effects.result (list Bucket.Report).
Variable reconciliationReportForCumulusCMR :
  BucketsConfig.t -> gmap string string -> Value.object ->
  Effects.result Effects.CumulusCmrReport.
Variable createInternalReconciliationReport : Value.object -> Effects.result unit.

Abbreviation createReport :=
  (Orchestrator.createReport endTime bucketsConfigJson distributionBucketMapJson
     bucketReports reconciliationReportForCumulusCMR createInternalReconciliationReport).
Abbreviation outcome :=
  (Orchestrator.outcome bucketsConfigJson distributionBucketMapJson
     bucketReports reconciliationReportForCumulusCMR createInternalReconciliationReport).
Abbreviation processRequest :=
  (Orchestrator.processRequest buildS3Uri camelCase errorify startStamp startTime endTime
     bucketsConfigJson distributionBucketMapJson bucketReports
     reconciliationReportForCumulusCMR createInternalReconciliationReport).

(** Unfold the plumbing of the monad. *)
Ltac run_effects :=
  unfold Orchestrator.putObject, Effects.settle, Effects.emit, Effects.setObjects,
    Effects.setReports, mbind, Effects.M_bind, Effects.result_bind, Effects.bind;
  cbn [Effects.reports Effects.objects Effects.log fst snd].

(** A report function leaves the records alone, adds its calls to the
    log, and comes to the outcome that the answers of the world decide. *)
Lemma createReport_effects (recReportParams : Value.object) (w : Effects.World) :
  Effects.reports (fst (createReport recReportParams w)) = Effects.reports w
  /\ snd (createReport recReportParams w) = outcome recReportParams
  /\ exists evs,
       Effects.log (fst (createReport recReportParams w)) = Effects.log w ++ evs
       /\ Forall Effects.ofReportFunction evs.
Proof.
  unfold Orchestrator.createReport, Orchestrator.outcome.
  destruct (Value.isStr (Value.get recReportParams "reportType") "Internal").
  - run_effects. destruct (createInternalReconciliationReport recReportParams);
      cbn [fst snd Effects.reports Effects.log]; repeat split;
      eexists; (split; [reflexivity|]); repeat constructor.
  - unfold Orchestrator.createReconciliationReport. run_effects.
    destruct bucketsConfigJson as [json|e1]; cbn [fst snd Effects.reports Effects.log];
      [|repeat split; eexists; (split; [reflexivity|]); repeat constructor].
    destruct distributionBucketMapJson as [dmap|e2]; cbn [fst snd Effects.reports Effects.log];
      [|repeat split; eexists; (split; [rewrite <- !app_assoc; reflexivity|]);
        repeat constructor].
    destruct (bucketReports (Orchestrator.dataBucketsOf json)) as [reports|e3];
      cbn [fst snd Effects.reports Effects.log];
      [|repeat split; eexists; (split; [rewrite <- !app_assoc; reflexivity|]);
        repeat constructor].
    destruct (reconciliationReportForCumulusCMR _ dmap recReportParams) as [cmr|e4];
      cbn [fst snd Effects.reports Effects.log];
      repeat split; eexists; (split; [rewrite <- !app_assoc; reflexivity|]);
      repeat constructor.
Qed.

(** Claim C7.  A run of [processRequest] first creates the record of
    the report, with its name, its type, its location and the status
    Pending; the calls of the report function, the comparisons among
    them, all come after that.  The run ends with one update of that
    record: to Generated when the report function returns, to Failed
    with the message and the cause of the error when a sub-reconciler
    threw one.  The record that the run returns, and that the table then
    holds, has that status, and never Pending. *)
Theorem report_record_lifecycle (params : Value.object) (w : Effects.World) :
  let record := Orchestrator.reportRecordOf buildS3Uri camelCase startStamp params in
  let name := Effects.recordName record in
  let run := processRequest params w in
  exists evs final finalRecord,
    Effects.status record = "Pending"
    /\ Effects.type record = Value.get params "reportType"
    /\ Effects.location record
       = buildS3Uri (Value.toString (Value.get params "systemBucket"))
           (Orchestrator.reportKeyOf camelCase startStamp params)
    /\ Effects.log (fst run)
       = Effects.log w ++ Effects.Create record :: evs ++ [final; Effects.Get name]
    /\ Forall Effects.ofReportFunction evs
    /\ snd run = Effects.Returned finalRecord
    /\ Effects.reports (fst run) !! name = Some finalRecord
    /\ match outcome (Orchestrator.recReportParamsOf camelCase startStamp startTime params) with
       | Effects.Returned _ =>
           final = Effects.UpdateStatus name "Generated"
           /\ finalRecord = ReconciliationReport.withStatus "Generated" None record
       | Effects.Threw e =>
           let failure := {| Effects.Error' := Effects.message e;
                             Effects.Cause := errorify e |} in
           final = Effects.Update name "Failed" failure
           /\ finalRecord = ReconciliationReport.withStatus "Failed" (Some failure) record
       end
    /\ Effects.status finalRecord <> "Pending".
Proof.
  intros record name run. subst run name. unfold Orchestrator.processRequest.
  fold record.
  unfold ReconciliationReport.create, ReconciliationReport.updateStatus,
    ReconciliationReport.update, ReconciliationReport.get, ReconciliationReport.read,
    Effects.try_catch.
  run_effects.
  match goal with
  | |- context [Orchestrator.createReport _ _ _ _ _ _ ?p ?w1] =>
      destruct (createReport_effects p w1) as (Hreports & Hout & evs & Hlog & Hevs);
      destruct (createReport p w1) as [w2 out]
  end.
  cbn [fst snd Effects.reports Effects.log] in Hreports, Hout, Hlog. subst out.
  destruct (outcome _) as [[]|e];
    cbn [fst snd Effects.reports Effects.objects Effects.log];
    rewrite Hreports, lookup_alter_eq, lookup_insert_eq;
    cbn [fmap option_fmap option_map fst snd Effects.reports Effects.objects Effects.log];
    eexists evs, _, _; rewrite Hlog, <- !app_assoc; cbn [app];
    repeat split; try exact Hevs;
    try (rewrite lookup_alter_eq, lookup_insert_eq; reflexivity);
    cbn; discriminate.
Qed.

End OrchestratorFacts.

(** ** C8: the statuses of the report document *)

(** Claim C8, as amended.  [createReconciliationReport] writes the
    report document at most twice: first with the status of the initial
    header, Pending, and last, when every sub-reconciler has returned,
    with the status SUCCESS.  It writes nothing when the configuration
    of the buckets cannot be read, and the first document only when a
    sub-reconciler throws. *)
Theorem report_document_statuses
    (endTime : string)
    (bucketsConfigJson : Effects.result (list (string * BucketsConfig.Config)))
    (distributionBucketMapJson : Effects.result (gmap string string))
    (bucketReports : list string -> Effects.result (list Bucket.Report))
    (reconciliationReportForCumulusCMR :
       BucketsConfig.t -> gmap string string -> Value.object ->
       Effects.result Effects.CumulusCmrReport)
    (recReportParams : Value.object) (w : Effects.World) :
  let run := Orchestrator.createReconciliationReport endTime bucketsConfigJson
               distributionBucketMapJson bucketReports reconciliationReportForCumulusCMR
               recReportParams w in
  exists evs,
    Effects.log (fst run) = Effects.log w ++ evs
    /\ Effects.writtenStatuses evs
       = match bucketsConfigJson, distributionBucketMapJson with
         | Effects.Returned json, Effects.Returned distributionBucketMap =>
             match bucketReports (Orchestrator.dataBucketsOf json),
                   reconciliationReportForCumulusCMR {| BucketsConfig.buckets := json |}
                     distributionBucketMap recReportParams with
             | Effects.Returned _, Effects.Returned _ => ["Pending"; "SUCCESS"]
             | _, _ => ["Pending"]
             end
         | _, _ => []
         end.
Proof.
  intros run. subst run. unfold Orchestrator.createReconciliationReport.
  unfold Orchestrator.putObject, Effects.settle, Effects.emit, Effects.setObjects,
    Effects.setReports, mbind, Effects.M_bind, Effects.result_bind, Effects.bind.
  cbn [Effects.reports Effects.objects Effects.log fst snd].
  destruct bucketsConfigJson as [json|e1]; cbn [fst snd Effects.log];
    [|eexists; split; reflexivity].
  destruct distributionBucketMapJson as [dmap|e2]; cbn [fst snd Effects.log];
    [|eexists; split; [rewrite <- !app_assoc; reflexivity|reflexivity]].
  destruct (bucketReports (Orchestrator.dataBucketsOf json)) as [reports|e3];
    cbn [fst snd Effects.log];
    [|eexists; split; [rewrite <- !app_assoc; reflexivity|];
      destruct (reconciliationReportForCumulusCMR
                  {| BucketsConfig.buckets := json |} dmap recReportParams); reflexivity].
  destruct (reconciliationReportForCumulusCMR _ dmap recReportParams) as [cmr|e4];
    cbn [fst snd Effects.log];
    eexists; (split; [rewrite <- !app_assoc; reflexivity|reflexivity]).
Qed.

(** Claim C8 as stated fails on every run that succeeds: the document
    that the last [putObject] writes has the status SUCCESS, which is
    none of Pending, Generated and Failed. *)
Lemma success_status_counterexample :
  Effects.writtenStatuses (Effects.log (fst Samples.successfulRun)) = ["Pending"; "SUCCESS"]
  /\ ~ In "SUCCESS" ["Pending"; "Generated"; "Failed"].
Proof.
  split; [vm_compute; reflexivity|].
  intros [H | [H | [H | []]]]; discriminate H.
Qed.

(** ** C9 and C10: requests that are turned down *)

Section NormalizeFacts.
Variable env : gmap string string.
Variable dateValue : Value.value -> option Z.
Variable toISOString : Z -> string.
Variable JSON_stringify : Value.value -> string.
Variable removeNilProperties : Value.object -> Value.object.

Abbreviation isoTimestamp := (Normalize.isoTimestamp dateValue toISOString).
Abbreviation normalizeEvent :=
  (Normalize.normalizeEvent env dateValue toISOString JSON_stringify removeNilProperties).

Lemma isoTimestamp_Threw (dateable : Value.value) (e : Effects.Error) :
  isoTimestamp dateable = Effects.Threw e -> Effects.name e = "TypeError".
Proof.
  unfold Normalize.isoTimestamp. destruct (Value.truthy dateable); [|discriminate].
  destruct (dateValue dateable); [discriminate|]. intros [= <-]. reflexivity.
Qed.

Lemma isoTimestamp_Returned (dateable v : Value.value) :
  isoTimestamp dateable = Effects.Returned v ->
  Value.truthy dateable = false \/ dateValue dateable <> None.
Proof.
  unfold Normalize.isoTimestamp. destruct (Value.truthy dateable); [|left; reflexivity].
  destruct (dateValue dateable); [right; discriminate|discriminate].
Qed.

Lemma toLowerCase_Threw (v : Value.value) (e : Effects.Error) :
  Normalize.toLowerCase v = Effects.Threw e -> Effects.name e = "TypeError".
Proof. destruct v; simpl; try discriminate; intros [= <-]; reflexivity. Qed.

(** Whatever [normalizeEvent] throws is a [TypeError]. *)
Lemma normalizeEvent_Threw (event : Value.object) (e : Effects.Error) :
  normalizeEvent event = Effects.Threw e -> Effects.name e = "TypeError".
Proof.
  unfold Normalize.normalizeEvent, mbind, Effects.result_bind.
  destruct (isoTimestamp (Value.get event "startTimestamp")) as [s|e1] eqn:H1;
    [|intros [= <-]; exact (isoTimestamp_Threw _ _ H1)].
  destruct (isoTimestamp (Value.get event "endTimestamp")) as [t|e2] eqn:H2;
    [|intros [= <-]; exact (isoTimestamp_Threw _ _ H2)].
  destruct (Normalize.toLowerCase _) as [l|e3] eqn:H3;
    [|intros [= <-]; exact (toLowerCase_Threw _ _ H3)].
  destruct (Value.truthy (Value.get event "collectionIds")); [intros [= <-]; reflexivity|].
  destruct (Value.truthy (Value.get event "collectionId")); [|discriminate].
  destruct (Value.isStr _ "Internal"); [|discriminate].
  destruct (negb _); [intros [= <-]; reflexivity|discriminate].
Qed.

(** When [normalizeEvent] returns, both timestamps went through
    [isoTimestamp] and the plural [collectionIds] was falsy. *)
Lemma normalizeEvent_Returned (event reportParams : Value.object) :
  normalizeEvent event = Effects.Returned reportParams ->
  (exists s, isoTimestamp (Value.get event "startTimestamp") = Effects.Returned s)
  /\ (exists t, isoTimestamp (Value.get event "endTimestamp") = Effects.Returned t)
  /\ Value.truthy (Value.get event "collectionIds") = false.
Proof.
  unfold Normalize.normalizeEvent, mbind, Effects.result_bind.
  destruct (isoTimestamp (Value.get event "startTimestamp")) as [s|e1]; [|discriminate].
  destruct (isoTimestamp (Value.get event "endTimestamp")) as [t|e2]; [|discriminate].
  destruct (Normalize.toLowerCase _) as [l|e3]; [|discriminate].
  destruct (Value.truthy (Value.get event "collectionIds")); [discriminate|].
  intros _. repeat split; eexists; reflexivity.
Qed.

(** Claim C10, as amended.  When the value of the plural [collectionIds]
    of the event is truthy (an array, be it empty, or a string that is
    not empty, among others), [normalizeEvent] throws a [TypeError],
    whether or not a [collectionId] comes with it. *)
Theorem plural_collectionIds_rejected (event : Value.object) :
  Value.truthy (Value.get event "collectionIds") = true ->
  exists e, normalizeEvent event = Effects.Threw e /\ Effects.name e = "TypeError".
Proof.
  intros Hplural. destruct (normalizeEvent event) as [p|e] eqn:Hrun.
  - apply normalizeEvent_Returned in Hrun as (_ & _ & Hfalsy). congruence.
  - exists e. split; [reflexivity|]. exact (normalizeEvent_Threw _ _ Hrun).
Qed.

Section HandlerFacts.
Variable buildS3Uri : string -> string -> string.
Variable camelCase : string -> string.
Variable errorify : Effects.Error -> string.
Variable startStamp : string.
Variable startTime : string.
Variable endTime : string.
Variable bucketsConfigJson : Effects.result (list (string * BucketsConfig.Config)).
Variable distributionBucketMapJson : Effects.result (gmap string string).
Variable bucketReports : list string -> Effects.result (list Bucket.Report).
Variable reconciliationReportForCumulusCMR :
  BucketsConfig.t -> gmap string string -> Value.object ->
  Effects.result Effects.CumulusCmrReport.
Variable createInternalReconciliationReport : Value.object -> Effects.result unit.

(** Claim C9, as amended.  When [startTimestamp] or [endTimestamp] is
    truthy and [new Date] makes no date of it, or when a truthy plural
    [collectionIds] comes with a [collectionId], [normalizeEvent] throws
    a [TypeError], and [handler] throws it and leaves the world as it
    was: no record is created and no document is written. *)
Theorem malformed_request_rejected (event : Value.object) :
  (Value.truthy (Value.get event "startTimestamp") = true
   /\ dateValue (Value.get event "startTimestamp") = None)
  \/ (Value.truthy (Value.get event "endTimestamp") = true
      /\ dateValue (Value.get event "endTimestamp") = None)
  \/ (Value.truthy (Value.get event "collectionIds") = true
      /\ Value.get event "collectionId" <> Value.Undefined) ->
  exists e,
    normalizeEvent event = Effects.Threw e
    /\ Effects.name e = "TypeError"
    /\ forall w,
         Orchestrator.handler buildS3Uri camelCase errorify startStamp startTime endTime
           bucketsConfigJson distributionBucketMapJson bucketReports
           reconciliationReportForCumulusCMR createInternalReconciliationReport
           env dateValue toISOString JSON_stringify removeNilProperties event w
         = (w, Effects.Threw e).
Proof.
  intros Hbad. destruct (normalizeEvent event) as [p|e] eqn:Hrun.
  - exfalso. apply normalizeEvent_Returned in Hrun as ((s & Hs) & (t & Ht) & Hfalsy).
    destruct Hbad as [[H1 H2] | [[H1 H2] | [H1 _]]].
    + apply isoTimestamp_Returned in Hs as [Hs | Hs]; congruence.
    + apply isoTimestamp_Returned in Ht as [Ht | Ht]; congruence.
    + congruence.
  - exists e. split; [reflexivity|]. split; [exact (normalizeEvent_Threw _ _ Hrun)|].
    intros w. unfold Orchestrator.handler. rewrite Hrun. reflexivity.
Qed.

End HandlerFacts.

End NormalizeFacts.

Lemma plural_collectionIds_rejected_witness :
  exists e,
    Normalize.normalizeEvent Samples.env Samples.dateValue Samples.toISOString
      Value.toString Samples.removeNilProperties Samples.pluralEvent = Effects.Threw e
    /\ Effects.name e = "TypeError".
Proof.
  apply (plural_collectionIds_rejected Samples.env Samples.dateValue Samples.toISOString
           Value.toString Samples.removeNilProperties Samples.pluralEvent).
  vm_compute. reflexivity.
Defined.

Lemma malformed_request_rejected_witness :
  exists e,
    Normalize.normalizeEvent Samples.env Samples.dateValue Samples.toISOString
      Value.toString Samples.removeNilProperties Samples.badDateEvent = Effects.Threw e
    /\ Effects.name e = "TypeError"
    /\ forall w,
         Orchestrator.handler Samples.buildS3Uri (fun s => s) Effects.message
           "20200901T000000000" "2020-09-01T00:00:00.000Z" "2020-09-01T00:00:05.000Z"
           (Effects.Returned (BucketsConfig.buckets Samples.bucketsConfig))
           (Effects.Returned ∅) (fun _ => Effects.Returned [])
           (fun _ _ _ => Effects.Returned Samples.noCumulusCmrReport)
           (fun _ => Effects.Returned tt)
           Samples.env Samples.dateValue Samples.toISOString Value.toString
           Samples.removeNilProperties Samples.badDateEvent w
         = (w, Effects.Threw e).
Proof.
  apply (malformed_request_rejected Samples.env Samples.dateValue Samples.toISOString
           Value.toString Samples.removeNilProperties).
  left. split; vm_compute; reflexivity.
Defined.

(** Claim C9 as stated fails on a falsy value: the empty string is no
    date, yet [isoTimestamp] passes it by and [normalizeEvent] returns;
    and an empty string for the plural [collectionIds] next to a
    [collectionId] is let through as well. *)
Lemma blank_values_counterexample :
  (Samples.dateValue (Value.get Samples.blankStartEvent "startTimestamp") = None
   /\ Effects.returned
        (Normalize.normalizeEvent Samples.env Samples.dateValue Samples.toISOString
           Value.toString Samples.removeNilProperties Samples.blankStartEvent) = true)
  /\ (Samples.blankPluralEvent !! "collectionIds" = Some (Value.Str "")
      /\ Samples.blankPluralEvent !! "collectionId" = Some (Value.Str "X___1")
      /\ Effects.returned
           (Normalize.normalizeEvent Samples.env Samples.dateValue Samples.toISOString
              Value.toString Samples.removeNilProperties Samples.blankPluralEvent) = true).
Proof. repeat split; vm_compute; reflexivity. Qed.

(** Claim C10 as stated fails when the key is there with a falsy value:
    [collectionIds] is defined, as the empty string, no [collectionId]
    is supplied, and [normalizeEvent] returns. *)
Lemma blank_plural_counterexample :
  Samples.blankPluralOnlyEvent !! "collectionIds" = Some (Value.Str "")
  /\ Samples.blankPluralOnlyEvent !! "collectionId" = None
  /\ Effects.returned
       (Normalize.normalizeEvent Samples.env Samples.dateValue Samples.toISOString
          Value.toString Samples.removeNilProperties Samples.blankPluralOnlyEvent) = true.
Proof. repeat split; vm_compute; reflexivity. Qed.

(** ** The loops over the granules compute the fold over the merge-join *)

Section MergeJoinMembers.
Context {A B : Type}.
Variable keyA : A -> string.
Variable keyB : B -> string.

(** What the walk reports comes from the listings, sorted or not. *)
Lemma mergeJoin_members (xs : list A) (ys : list B) :
  (forall a, In a (MergeJoin.onlyA (MergeJoin.mergeJoin keyA keyB xs ys)) -> In a xs)
  /\ (forall b, In b (MergeJoin.onlyB (MergeJoin.mergeJoin keyA keyB xs ys)) -> In b ys)
  /\ (forall a, In a (MergeJoin.both (MergeJoin.mergeJoin keyA keyB xs ys)) ->
        In a xs /\ In (keyA a) (map keyB ys)).
Proof.
  revert ys. induction xs as [|a xs IHxs]; intros ys.
  { rewrite mergeJoin_nil_l, onlyA_RestB, onlyB_RestB, both_RestB.
    repeat split; try contradiction; auto. }
  induction ys as [|b ys IHys].
  { rewrite mergeJoin_nil_r, onlyA_RestA, onlyB_RestA, both_RestA.
    repeat split; try contradiction; auto. }
  rewrite mergeJoin_cons.
  destruct (String.ltb (keyA a) (keyB b)) eqn:Hlt;
    [|destruct (String.ltb (keyB b) (keyA a)) eqn:Hgt];
    rewrite onlyA_cons, onlyB_cons, both_cons; cbn [app].
  - destruct (IHxs (b :: ys)) as (H1 & H2 & H3). repeat split.
    + intros x [<- | Hx]; [left; reflexivity|right; auto].
    + auto.
    + right. apply (H3 _ H).
    + apply (H3 _ H).
  - destruct IHys as (H1 & H2 & H3). repeat split.
    + auto.
    + intros x [<- | Hx]; [left; reflexivity|right; auto].
    + apply (H3 _ H).
    + right. apply (H3 _ H).
  - destruct (IHxs ys) as (H1 & H2 & H3). repeat split.
    + intros x Hx. right. auto.
    + intros x Hx. right. auto.
    + destruct H as [<- | Hx]; [left; reflexivity|right; apply (H3 _ Hx)].
    + destruct H as [<- | Hx].
      * left. symmetry. apply ltb_total; assumption.
      * right. apply (H3 _ Hx).
Qed.

(** The pairs that the walk matches have the same key and come from the
    two listings, sorted or not. *)
Lemma matched_members (xs : list A) (ys : list B) (a : A) (b : B) :
  In (a, b) (MergeJoinPairs.matched (MergeJoin.mergeJoin keyA keyB xs ys)) ->
  In a xs /\ In b ys /\ keyA a = keyB b.
Proof.
  assert (HA : forall l : list A, MergeJoinPairs.matched (map (@MergeJoin.RestA A B) l) = []).
  { induction l as [|z l IH]; [reflexivity|exact IH]. }
  assert (HB : forall l : list B, MergeJoinPairs.matched (map (@MergeJoin.RestB A B) l) = []).
  { induction l as [|z l IH]; [reflexivity|exact IH]. }
  revert ys. induction xs as [|x xs IHxs]; intros ys.
  { rewrite mergeJoin_nil_l, HB. intros []. }
  induction ys as [|y ys IHys].
  { rewrite mergeJoin_nil_r, HA. intros []. }
  rewrite mergeJoin_cons.
  destruct (String.ltb (keyA x) (keyB y)) eqn:Hlt;
    [|destruct (String.ltb (keyB y) (keyA x)) eqn:Hgt];
    cbn [MergeJoinPairs.matched flat_map app].
  - intros H. destruct (IHxs _ H) as (H1 & H2 & H3). repeat split; [right|..]; assumption.
  - intros H. destruct (IHys H) as (H1 & H2 & H3). repeat split; [|right|]; assumption.
  - intros [[= <- <-] | H].
    + repeat split; [left; reflexivity|left; reflexivity|]. apply ltb_total; assumption.
    + destruct (IHxs _ H) as (H1 & H2 & H3). repeat split; [right|right|]; assumption.
Qed.

End MergeJoinMembers.

Section GranuleFoldFacts.
Variable constructOnlineAccessUrl : GranuleFiles.UrlRequest -> option string.
Variable buildS3Uri : string -> string -> string.
Variable DISTRIBUTION_ENDPOINT : option string.
Variable bucketsConfig : BucketsConfig.t.
Variable distributionBucketMap : gmap string string.
Variable collectionId : string.
Variable oneWay : bool.

Abbreviation granulesStep :=
  (Granules.step constructOnlineAccessUrl buildS3Uri DISTRIBUTION_ENDPOINT
     bucketsConfig distributionBucketMap collectionId oneWay).
Abbreviation granulesMainLoop :=
  (Granules.mainLoop constructOnlineAccessUrl buildS3Uri DISTRIBUTION_ENDPOINT
     bucketsConfig distributionBucketMap collectionId oneWay).
Abbreviation granuleEvent :=
  (GranuleFolds.granuleEvent constructOnlineAccessUrl buildS3Uri DISTRIBUTION_ENDPOINT
     bucketsConfig distributionBucketMap collectionId oneWay).
Abbreviation fileReportOf :=
  (GranuleFolds.fileReportOf constructOnlineAccessUrl buildS3Uri DISTRIBUTION_ENDPOINT
     bucketsConfig distributionBucketMap collectionId).
Abbreviation granuleJoin := GranuleFolds.granuleJoin.
Abbreviation firstRestB := GranuleFolds.firstRestB.
Abbreviation cumulusEntry :=
  (fun d : Granules.DbItem => Granules.cumulusEntryOf collectionId (Granules.granuleId d)).

Lemma granuleJoin_cons (a : Granules.DbItem) (xs : list Granules.DbItem)
    (b : Granules.CmrItem) (ys : list Granules.CmrItem) :
  granuleJoin (a :: xs) (b :: ys) =
  if String.ltb (Granules.granuleId a) (Granules.GranuleUR b)
  then MergeJoin.Less a b :: granuleJoin xs (b :: ys)
  else if String.ltb (Granules.GranuleUR b) (Granules.granuleId a)
       then MergeJoin.Greater a b :: granuleJoin (a :: xs) ys
       else MergeJoin.Equal a b :: granuleJoin xs ys.
Proof. reflexivity. Qed.

(** A pass of the first loop is an event of the walk that leaves both
    cursors with something, folded into the reports. *)
Lemma granules_step_event (d : Granules.DbItem) (c : Granules.CmrItem) (st : Granules.State)
    (xs : list Granules.DbItem) (ys : list Granules.CmrItem) :
  Cursor.contents (Granules.esGranulesIterator st) = d :: xs ->
  Cursor.contents (Granules.cmrGranulesIterator st) = c :: ys ->
  exists st1 e,
    granulesStep d c st
    = (head (Cursor.contents (Granules.esGranulesIterator st1)),
       head (Cursor.contents (Granules.cmrGranulesIterator st1)), st1)
    /\ granuleJoin (d :: xs) (c :: ys)
       = e :: granuleJoin (Cursor.contents (Granules.esGranulesIterator st1))
                          (Cursor.contents (Granules.cmrGranulesIterator st1))
    /\ (forall first, Granules.result st1 = granuleEvent first (Granules.result st) e)
    /\ (forall rest, firstRestB (e :: rest) = firstRestB rest)
    /\ length (Cursor.contents (Granules.esGranulesIterator st1))
       + length (Cursor.contents (Granules.cmrGranulesIterator st1))
       < length (d :: xs) + length (c :: ys).
Proof.
  intros Hxs Hys. unfold Granules.step. rewrite granuleJoin_cons.
  destruct (String.ltb (Granules.granuleId d) (Granules.GranuleUR c));
    [|destruct (String.ltb (Granules.GranuleUR c) (Granules.granuleId d))];
    cbn [Granules.esGranulesIterator Granules.cmrGranulesIterator Granules.result].
  - look_at (Cursor.shift (Granules.esGranulesIterator st)) o q Hq. cbn [snd].
    look_at (Cursor.peek q) o1 q1 Hq1.
    look_at (Cursor.peek (Granules.cmrGranulesIterator st)) o2 q2 Hq2.
    rewrite Hxs in Hq. cbn [tail] in Hq. rewrite Hq in Hq1. rewrite Hys in Hq2.
    exists {| Granules.esGranulesIterator := q1; Granules.cmrGranulesIterator := q2;
              Granules.result := granuleEvent None (Granules.result st) (MergeJoin.Less d c) |},
           (MergeJoin.Less d c).
    cbn [Granules.esGranulesIterator Granules.cmrGranulesIterator Granules.result].
    rewrite ?Hq, ?Hys, ?Hq1, ?Hq2. cbn [length]. repeat split; try reflexivity; lia.
  - look_at (Cursor.shift (Granules.cmrGranulesIterator st)) o q Hq. cbn [snd].
    look_at (Cursor.peek (Granules.esGranulesIterator st)) o1 q1 Hq1.
    look_at (Cursor.peek q) o2 q2 Hq2.
    rewrite Hys in Hq. cbn [tail] in Hq. rewrite Hq in Hq2. rewrite Hxs in Hq1.
    exists {| Granules.esGranulesIterator := q1; Granules.cmrGranulesIterator := q2;
              Granules.result := granuleEvent None (Granules.result st) (MergeJoin.Greater d c) |},
           (MergeJoin.Greater d c).
    cbn [Granules.esGranulesIterator Granules.cmrGranulesIterator Granules.result].
    rewrite ?Hq, ?Hxs, ?Hq1, ?Hq2. cbn [length]. repeat split; try reflexivity; lia.
  - look_at (Cursor.shift (Granules.esGranulesIterator st)) o q Hq.
    look_at (Cursor.shift (Granules.cmrGranulesIterator st)) o' q' Hq'. cbn [snd].
    look_at (Cursor.peek q) o1 q1 Hq1.
    look_at (Cursor.peek q') o2 q2 Hq2.
    rewrite Hxs in Hq. rewrite Hys in Hq'. cbn [tail] in Hq, Hq'.
    rewrite Hq in Hq1. rewrite Hq' in Hq2.
    exists {| Granules.esGranulesIterator := q1; Granules.cmrGranulesIterator := q2;
              Granules.result := granuleEvent None (Granules.result st) (MergeJoin.Equal d c) |},
           (MergeJoin.Equal d c).
    cbn [Granules.esGranulesIterator Granules.cmrGranulesIterator Granules.result].
    rewrite ?Hq, ?Hq', ?Hq1, ?Hq2. cbn [length]. repeat split; try reflexivity; lia.
Qed.

(** With fuel for every granule still to come the first loop ends, at
    the end of one of the cursors, with the events of its passes folded
    into the reports, and hands the head of the CMR cursor on. *)
Lemma granules_mainLoop_fold (first : option Granules.CmrItem) (fuel : nat)
    (st : Granules.State) :
  length (Cursor.contents (Granules.esGranulesIterator st))
  + length (Cursor.contents (Granules.cmrGranulesIterator st)) <= fuel ->
  exists st',
    granulesMainLoop fuel
      (head (Cursor.contents (Granules.esGranulesIterator st)))
      (head (Cursor.contents (Granules.cmrGranulesIterator st))) st
    = Some (head (Cursor.contents (Granules.cmrGranulesIterator st')), st')
    /\ (Cursor.contents (Granules.esGranulesIterator st') = []
        \/ Cursor.contents (Granules.cmrGranulesIterator st') = [])
    /\ fold_left (granuleEvent first)
         (granuleJoin (Cursor.contents (Granules.esGranulesIterator st))
                      (Cursor.contents (Granules.cmrGranulesIterator st)))
         (Granules.result st)
       = fold_left (granuleEvent first)
           (granuleJoin (Cursor.contents (Granules.esGranulesIterator st'))
                        (Cursor.contents (Granules.cmrGranulesIterator st')))
           (Granules.result st')
    /\ firstRestB (granuleJoin (Cursor.contents (Granules.esGranulesIterator st))
                               (Cursor.contents (Granules.cmrGranulesIterator st)))
       = firstRestB (granuleJoin (Cursor.contents (Granules.esGranulesIterator st'))
                                 (Cursor.contents (Granules.cmrGranulesIterator st')))
    /\ length (Cursor.contents (Granules.esGranulesIterator st'))
       + length (Cursor.contents (Granules.cmrGranulesIterator st'))
       <= length (Cursor.contents (Granules.esGranulesIterator st))
          + length (Cursor.contents (Granules.cmrGranulesIterator st)).
Proof.
  revert st. induction fuel as [|fuel IH]; intros st Hfuel.
  - exists st. rewrite granules_mainLoop_done.
    + repeat split; try lia.
      destruct (Cursor.contents (Granules.esGranulesIterator st)); [left; reflexivity|].
      simpl in Hfuel. lia.
    + destruct (Cursor.contents (Granules.esGranulesIterator st)); [left; reflexivity|].
      simpl in Hfuel. lia.
  - destruct (Cursor.contents (Granules.esGranulesIterator st)) as [|d xs] eqn:Hxs.
    { exists st. rewrite granules_mainLoop_done by (left; reflexivity).
      rewrite Hxs. repeat split; try lia. left; reflexivity. }
    destruct (Cursor.contents (Granules.cmrGranulesIterator st)) as [|c ys] eqn:Hys.
    { exists st. rewrite granules_mainLoop_done by (right; reflexivity).
      rewrite Hxs, Hys. repeat split; try lia. right; reflexivity. }
    destruct (granules_step_event d c st xs ys Hxs Hys)
      as (st1 & e & Hstep & Hjoin & Hrep & Hfirst & Hlt).
    cbn [head]. rewrite granules_mainLoop_unfold, Hstep.
    destruct (IH st1) as (st' & Hrun & Hend & Hfold & Hrest & Hl).
    { cbn [length] in Hfuel, Hlt. lia. }
    exists st'. rewrite Hrun. repeat split; try assumption; try lia.
    + rewrite Hjoin. cbn [fold_left]. rewrite <- (Hrep first). exact Hfold.
    + rewrite Hjoin, Hfirst. exact Hrest.
Qed.

Lemma drainCmr_unfold (fuel : nat) (last : option Granules.CmrItem)
    (q : Cursor.Queue Granules.CmrItem) (acc : list Granules.CmrEntry.t) :
  Granules.drainCmr fuel last q acc =
  match Cursor.peek q with
  | (None, _) => Some acc
  | (Some _, q1) =>
      match fuel with
      | 0 => None
      | S fuel' =>
          let '(shifted, q2) := Cursor.shift q1 in
          cmrItem ← shifted;
          fields ← last;
          Granules.drainCmr fuel' last q2
            (acc ++ [{| Granules.CmrEntry.GranuleUR := Granules.GranuleUR cmrItem;
                        Granules.CmrEntry.ShortName := Granules.ShortName fields;
                        Granules.CmrEntry.Version := Granules.Version fields |}])
      end
  end.
Proof. destruct fuel; reflexivity. Qed.

(** The last loop, entered with [nextCmrItem] at the head of the cursor:
    every entry it adds has the [ShortName] and the [Version] of
    [nextCmrItem]. *)
Lemma drainCmr_spec (fuel : nat) (q : Cursor.Queue Granules.CmrItem)
    (last : option Granules.CmrItem) (acc : list Granules.CmrEntry.t) :
  Cursor.remaining q <= fuel ->
  (Cursor.contents q <> [] -> last <> None) ->
  Granules.drainCmr fuel last q acc
  = Some (acc ++ match last with
                 | Some fields => map (GranuleFolds.cmrEntryOf fields) (Cursor.contents q)
                 | None => []
                 end).
Proof.
  revert q acc. induction fuel as [|fuel IH]; intros q acc Hfuel Hlast;
    rewrite drainCmr_unfold; unfold Cursor.remaining in Hfuel;
    look_at (Cursor.peek q) o q1 Hc;
    destruct (Cursor.contents q) as [|x rest] eqn:Hq; cbn [head length] in *;
    try lia.
  - destruct last; cbn [map]; rewrite app_nil_r; reflexivity.
  - destruct last; cbn [map]; rewrite app_nil_r; reflexivity.
  - look_at (Cursor.shift q1) o q2 Hc2. rewrite Hc. cbn [head tail mbind option_bind].
    rewrite Hc in Hc2. cbn [tail] in Hc2.
    destruct last as [fields|]; [|exfalso; apply Hlast; [discriminate|reflexivity]].
    cbn [mbind option_bind].
    rewrite IH; [|unfold Cursor.remaining; rewrite Hc2; lia|discriminate].
    rewrite Hc2. cbn [map]. rewrite <- app_assoc. reflexivity.
Qed.

Lemma fold_granule_RestA (first : option Granules.CmrItem) (xs : list Granules.DbItem)
    (r : Granules.Result) :
  fold_left (granuleEvent first) (map MergeJoin.RestA xs) r =
  {| Granules.granulesReport :=
       {| Granules.okCount := Granules.okCount (Granules.granulesReport r);
          Granules.onlyInCumulus :=
            Granules.onlyInCumulus (Granules.granulesReport r) ++ map cumulusEntry xs;
          Granules.onlyInCmr := Granules.onlyInCmr (Granules.granulesReport r) |};
     Granules.filesReport := Granules.filesReport r |}.
Proof.
  revert r. induction xs as [|x xs IH]; intros [[ok a b] f].
  - simpl. rewrite app_nil_r. reflexivity.
  - cbn [map fold_left]. rewrite IH. simpl. rewrite <- app_assoc. reflexivity.
Qed.

Lemma fold_granule_RestB (first : option Granules.CmrItem) (ys : list Granules.CmrItem)
    (r : Granules.Result) :
  fold_left (granuleEvent first) (map MergeJoin.RestB ys) r =
  {| Granules.granulesReport :=
       {| Granules.okCount := Granules.okCount (Granules.granulesReport r);
          Granules.onlyInCumulus := Granules.onlyInCumulus (Granules.granulesReport r);
          Granules.onlyInCmr :=
            if oneWay then Granules.onlyInCmr (Granules.granulesReport r)
            else Granules.onlyInCmr (Granules.granulesReport r)
                 ++ map (fun b => GranuleFolds.cmrEntryOf (default b first) b) ys |};
     Granules.filesReport := Granules.filesReport r |}.
Proof.
  revert r. induction ys as [|y ys IH]; intros [[ok a b] f].
  - simpl. rewrite app_nil_r. destruct oneWay; reflexivity.
  - cbn [map fold_left]. rewrite IH. simpl.
    destruct oneWay; [reflexivity|]. rewrite <- app_assoc. reflexivity.
Qed.

Lemma firstRestB_RestA (xs : list Granules.DbItem) :
  firstRestB (map MergeJoin.RestA xs) = None.
Proof.
  unfold GranuleFolds.firstRestB.
  replace (flat_map _ (map MergeJoin.RestA xs)) with (@nil Granules.CmrItem); [reflexivity|].
  induction xs as [|x xs IH]; [reflexivity|exact IH].
Qed.

Lemma firstRestB_RestB (ys : list Granules.CmrItem) :
  firstRestB (map MergeJoin.RestB ys) = head ys.
Proof. destruct ys; reflexivity. Qed.

(** The function returns the fold over the merge-join of everything the
    two listings hold, whatever the pages they come in. *)
Lemma granules_report (cmrGranules : list (list Granules.CmrItem))
    (esGranules : list (list Granules.DbItem)) :
  Granules.reconciliationReportForGranules constructOnlineAccessUrl buildS3Uri
    DISTRIBUTION_ENDPOINT bucketsConfig distributionBucketMap collectionId oneWay
    cmrGranules esGranules
  = Some (GranuleFolds.granulesReportOf constructOnlineAccessUrl buildS3Uri
            DISTRIBUTION_ENDPOINT bucketsConfig distributionBucketMap collectionId oneWay
            (concat esGranules) (concat cmrGranules)).
Proof.
  unfold Granules.reconciliationReportForGranules, GranuleFolds.granulesReportOf.
  look_at (Cursor.peek (Cursor.open esGranules)) o1 q1 Hq1.
  look_at (Cursor.peek (Cursor.open cmrGranules)) o2 q2 Hq2.
  rewrite contents_open in Hq1. rewrite contents_open in Hq2.
  unfold Cursor.remaining. rewrite !contents_open.
  set (first := firstRestB (granuleJoin (concat esGranules) (concat cmrGranules))).
  set (st0 := {| Granules.esGranulesIterator := q1; Granules.cmrGranulesIterator := q2;
                 Granules.result := _ |}).
  destruct (granules_mainLoop_fold first
              (length (concat esGranules) + length (concat cmrGranules)) st0)
    as (st' & Hrun & Hend & Hfold & Hrest & Hl).
  { subst st0. cbn [Granules.esGranulesIterator Granules.cmrGranulesIterator].
    rewrite Hq1, Hq2. lia. }
  subst st0. cbn [Granules.esGranulesIterator Granules.cmrGranulesIterator
                  Granules.result] in *.
  rewrite Hq1, Hq2 in *. rewrite Hrun. cbn [mbind option_bind].
  rewrite drainDb_spec by (unfold Cursor.remaining; lia). cbn [mbind option_bind].
  cbn zeta. fold first. unfold GranuleFolds.emptyResult. rewrite Hfold.
  fold first in Hrest.
  destruct Hend as [Hend | Hend]; rewrite Hend in *.
  - unfold GranuleFolds.granuleJoin in *. rewrite mergeJoin_nil_l in *.
    rewrite firstRestB_RestB in Hrest. rewrite fold_granule_RestB. cbn [map].
    rewrite app_nil_r. destruct oneWay; cbn [mbind option_bind].
    + destruct (Granules.result st') as [[ok a b] f]; reflexivity.
    + rewrite drainCmr_spec.
      * cbn [mbind option_bind]. rewrite Hrest.
        destruct (Cursor.contents (Granules.cmrGranulesIterator st')) as [|y ys];
          cbn [head map default]; [rewrite app_nil_r|];
          destruct (Granules.result st') as [[ok a b] f]; reflexivity.
      * unfold Cursor.remaining. lia.
      * destruct (Cursor.contents (Granules.cmrGranulesIterator st')); [congruence|discriminate].
  - unfold GranuleFolds.granuleJoin in *. rewrite mergeJoin_nil_r in *.
    rewrite fold_granule_RestA. destruct oneWay; cbn [mbind option_bind head].
    + destruct (Granules.result st') as [[ok a b] f]; reflexivity.
    + rewrite drainCmr_spec; [|unfold Cursor.remaining; rewrite Hend; simpl; lia|congruence].
      cbn [mbind option_bind]. rewrite app_nil_r. reflexivity.
Qed.

(** What the fold puts into the two reports. *)
Lemma granule_fold_fields (first : option Granules.CmrItem)
    (evs : list (@MergeJoin.event Granules.DbItem Granules.CmrItem)) (r : Granules.Result) :
  let r' := fold_left (granuleEvent first) evs r in
  let g := Granules.granulesReport r in
  let g' := Granules.granulesReport r' in
  Granules.okCount g' = Granules.okCount g + length (MergeJoin.both evs)
  /\ Granules.onlyInCumulus g'
     = Granules.onlyInCumulus g ++ map cumulusEntry (MergeJoin.onlyA evs)
  /\ map Granules.CmrEntry.GranuleUR (Granules.onlyInCmr g')
     = map Granules.CmrEntry.GranuleUR (Granules.onlyInCmr g)
       ++ (if oneWay then [] else map Granules.GranuleUR (MergeJoin.onlyB evs))
  /\ ((forall b, In b (MergeJoin.onlyB evs) ->
         GranuleFolds.cmrEntryOf (default b first) b = GranuleFolds.cmrEntryOf b b) ->
      Granules.onlyInCmr g'
      = Granules.onlyInCmr g
        ++ (if oneWay then []
            else map (fun b => GranuleFolds.cmrEntryOf b b) (MergeJoin.onlyB evs)))
  /\ Granules.filesReport r'
     = fold_left GranuleFolds.addFileReport
         (map (fun p => fileReportOf (fst p) (snd p)) (MergeJoinPairs.matched evs))
         (Granules.filesReport r).
Proof.
  revert r. induction evs as [|e evs IH]; intros r.
  - simpl. destruct oneWay; rewrite !app_nil_r; repeat split; lia.
  - cbn [fold_left]. destruct (IH (granuleEvent first r e)) as (H1 & H2 & H3 & H4 & H5).
    cbn zeta. rewrite H1, H2, H3, H5, onlyA_cons, onlyB_cons, both_cons.
    repeat split.
    + destruct e; cbn [GranuleFolds.granuleEvent Granules.granulesReport Granules.okCount
                       app length]; lia.
    + destruct e; cbn [GranuleFolds.granuleEvent Granules.granulesReport
                       Granules.onlyInCumulus app map];
        rewrite <- ?app_assoc; reflexivity.
    + destruct e; cbn [GranuleFolds.granuleEvent Granules.granulesReport
                       Granules.onlyInCmr app map]; try reflexivity;
        destruct oneWay; try reflexivity;
        rewrite map_app, <- app_assoc; reflexivity.
    + intros Hsame. rewrite H4.
      2:{ intros b Hb. apply Hsame. apply in_or_app. right. exact Hb. }
      destruct e; cbn [GranuleFolds.granuleEvent Granules.granulesReport
                       Granules.onlyInCmr app map]; try reflexivity;
        destruct oneWay; try reflexivity; rewrite <- app_assoc; cbn [app]; try reflexivity.
      rewrite Hsame; [reflexivity|]. left. reflexivity.
    + destruct e; reflexivity.
Qed.

Lemma firstRestB_onlyB (evs : list (@MergeJoin.event Granules.DbItem Granules.CmrItem))
    (f : Granules.CmrItem) :
  firstRestB evs = Some f -> In f (MergeJoin.onlyB evs).
Proof.
  unfold GranuleFolds.firstRestB, MergeJoin.onlyB.
  induction evs as [|e evs IH]; [discriminate|].
  destruct e; cbn [flat_map app head]; auto.
  - intros H. right. auto.
  - intros [= ->]. left. reflexivity.
Qed.

End GranuleFoldFacts.

(** ** The reports on the granules of a collection *)

(** Whatever [keyBy] holds under a key is an element of the list. *)
Lemma keyBy_In {V : Type} (f : V -> string) (xs : list V) (k : string) (v : V) :
  In (k, v) (JSObject.keyBy f xs) -> In v xs.
Proof.
  unfold JSObject.keyBy.
  assert (H : forall o, In (k, v) (fold_left (fun o x => JSObject.set (f x) x o) xs o) ->
                        In (k, v) o \/ In v xs).
  { induction xs as [|x xs IH]; intros o Ho; cbn [fold_left] in Ho; [left; exact Ho|].
    destruct (IH _ Ho) as [Hset | Hin]; [|right; right; exact Hin].
    apply set_In in Hset as [[_ ->] | Hset]; [right; left; reflexivity|left; exact Hset]. }
  intros Hin. destruct (H [] Hin) as [[] | Hv]. exact Hv.
Qed.

Section FileReportFacts.
Variable constructOnlineAccessUrl : GranuleFiles.UrlRequest -> option string.
Variable buildS3Uri : string -> string -> string.
Variable DISTRIBUTION_ENDPOINT : option string.
Variable bucketsConfig : BucketsConfig.t.
Variable distributionBucketMap : gmap string string.

(** Where the entries of a report on files come from: an entry of
    [onlyInCumulus] bears the id of the granule and the name of one of
    its files; an entry of [onlyInCmr] is a download entry of the
    [RelatedUrls], with the [GranuleUR] of the granule. *)
Lemma granule_files_entries (g : GranuleFiles.GranuleInDb) (c : GranuleFiles.GranuleInCmr) :
  let r := GranuleFiles.reconciliationReportForGranuleFiles constructOnlineAccessUrl
             buildS3Uri DISTRIBUTION_ENDPOINT bucketsConfig distributionBucketMap g c in
  (forall e, In e (GranuleFiles.onlyInCumulus r) ->
     GranuleFiles.CumulusEntry.granuleId e = GranuleFiles.granuleId g
     /\ exists f, In f (GranuleFiles.files g)
                  /\ GranuleFiles.CumulusEntry.fileName e = GranuleFiles.fileName f
                  /\ GranuleFiles.CumulusEntry.uri e = GranuleFiles.uriOf buildS3Uri f)
  /\ (forall e, In e (GranuleFiles.onlyInCmr r) ->
        GranuleFiles.CmrEntry.GranuleUR e = GranuleFiles.GranuleUR c
        /\ exists u, In u (GranuleFiles.RelatedUrls c)
                     /\ e = GranuleFiles.cmrEntryOf c u
                     /\ GranuleFiles.includes GranuleFiles.cmrGetDataTypes
                          (GranuleFiles.Type' u) = true).
Proof.
  intros r. subst r. rewrite granule_files_report.
  cbn [GranuleFiles.onlyInCumulus GranuleFiles.onlyInCmr]. split.
  - intros e He. apply in_map_iff in He as ([k f] & <- & Hkf).
    apply filter_In in Hkf as [Hkf _].
    apply (Permutation_in _ (entries_Permutation _)) in Hkf.
    unfold GranuleFiles.leftoverFiles in Hkf. apply filter_In in Hkf as [Hkf _].
    pose proof (keyBy_key _ _ _ _ Hkf) as Hk. cbn [fst snd] in *.
    split; [reflexivity|]. exists f. repeat split; [|exact Hk].
    exact (keyBy_In _ _ _ _ Hkf).
  - intros e He. apply in_app_or in He as [He | He].
    + apply in_map_iff in He as (u & <- & Hu). apply filter_In in Hu as [Hu Hd].
      apply andb_true_iff in Hd as [Hd _].
      split; [reflexivity|]. exists u. repeat split; assumption.
    + apply in_map_iff in He as (w & <- & Hw). apply filter_In in Hw as [Hw Hd].
      apply andb_true_iff in Hd as [_ Hd].
      unfold GranuleFiles.waitingUrls in Hw. apply In_omap in Hw as (u & Hu & Hwu).
      apply waitingOf_Some in Hwu as (Hrel & _). rewrite Hrel in *.
      split; [reflexivity|]. exists u. repeat split; assumption.
Qed.

End FileReportFacts.

Lemma fold_addFileReport (rs : list GranuleFiles.Report) (f : GranuleFiles.Report) :
  let f' := fold_left GranuleFolds.addFileReport rs f in
  GranuleFiles.okCount f' = GranuleFiles.okCount f + list_sum (map GranuleFiles.okCount rs)
  /\ GranuleFiles.onlyInCumulus f'
     = GranuleFiles.onlyInCumulus f ++ concat (map GranuleFiles.onlyInCumulus rs)
  /\ GranuleFiles.onlyInCmr f'
     = GranuleFiles.onlyInCmr f ++ concat (map GranuleFiles.onlyInCmr rs).
Proof.
  unfold list_sum. revert f. induction rs as [|r rs IH]; intros f.
  - simpl. rewrite !app_nil_r. repeat split. lia.
  - cbn [fold_left]. destruct (IH (GranuleFolds.addFileReport f r)) as (H1 & H2 & H3).
    cbn zeta. rewrite H1, H2, H3.
    cbn [GranuleFolds.addFileReport GranuleFiles.okCount GranuleFiles.onlyInCumulus
         GranuleFiles.onlyInCmr map concat list_sum fold_right].
    rewrite <- !app_assoc. repeat split. lia.
Qed.

(** Property X1 ([reconciliationReportForGranules]).  For the granules
    of a collection listed in ascending order of their ids on both sides,
    with no id twice, and in whatever pages, a two-way comparison
    returns; [okCount] is the number of granules that both sides have,
    [onlyInCumulus] lists those that only the index has and [onlyInCmr]
    the [GranuleUR]s of those that only the catalog has, both in the
    order of the listings, and every granule is counted once.  When the
    granules of the catalog all bear the same [ShortName] and [Version],
    as those of one collection do, the entries of [onlyInCmr] are those
    of the granules themselves. *)
Theorem granules_merge_join
    (constructOnlineAccessUrl : GranuleFiles.UrlRequest -> option string)
    (buildS3Uri : string -> string -> string)
    (DISTRIBUTION_ENDPOINT : option string)
    (bucketsConfig : BucketsConfig.t) (distributionBucketMap : gmap string string)
    (collectionId : string)
    (cmrGranules : list (list Granules.CmrItem))
    (esGranules : list (list Granules.DbItem)) :
  let A := concat esGranules in
  let B := concat cmrGranules in
  Sorted JS.lt (map Granules.granuleId A) ->
  Sorted JS.lt (map Granules.GranuleUR B) ->
  exists r,
    Granules.reconciliationReportForGranules constructOnlineAccessUrl buildS3Uri
      DISTRIBUTION_ENDPOINT bucketsConfig distributionBucketMap collectionId false
      cmrGranules esGranules = Some r
    /\ Granules.okCount (Granules.granulesReport r)
       = length (filter (fun a => Granules.granuleId a ∈ map Granules.GranuleUR B) A)
    /\ Granules.onlyInCumulus (Granules.granulesReport r)
       = map (fun a => Granules.cumulusEntryOf collectionId (Granules.granuleId a))
           (filter (fun a => Granules.granuleId a ∉ map Granules.GranuleUR B) A)
    /\ map Granules.CmrEntry.GranuleUR (Granules.onlyInCmr (Granules.granulesReport r))
       = map Granules.GranuleUR
           (filter (fun b => Granules.GranuleUR b ∉ map Granules.granuleId A) B)
    /\ length A = Granules.okCount (Granules.granulesReport r)
                  + length (Granules.onlyInCumulus (Granules.granulesReport r))
    /\ length B = Granules.okCount (Granules.granulesReport r)
                  + length (Granules.onlyInCmr (Granules.granulesReport r))
    /\ ((forall b b', In b B -> In b' B ->
           Granules.ShortName b = Granules.ShortName b'
           /\ Granules.Version b = Granules.Version b') ->
        Granules.onlyInCmr (Granules.granulesReport r)
        = map (fun b => {| Granules.CmrEntry.GranuleUR := Granules.GranuleUR b;
                           Granules.CmrEntry.ShortName := Granules.ShortName b;
                           Granules.CmrEntry.Version := Granules.Version b |})
            (filter (fun b => Granules.GranuleUR b ∉ map Granules.granuleId A) B)).
Proof.
  intros A B HA HB. eexists. split; [apply granules_report|].
  unfold GranuleFolds.granulesReportOf. fold A B.
  set (evs := GranuleFolds.granuleJoin A B).
  destruct (granule_fold_fields constructOnlineAccessUrl buildS3Uri DISTRIBUTION_ENDPOINT
              bucketsConfig distributionBucketMap collectionId false
              (GranuleFolds.firstRestB evs) evs GranuleFolds.emptyResult)
    as (H1 & H2 & H3 & H4 & _).
  destruct (mergeJoin_sorted Granules.granuleId Granules.GranuleUR A B HA HB) as (S1 & S2 & S3).
  destruct (mergeJoin_lengths Granules.granuleId Granules.GranuleUR A B) as (L1 & L2).
  destruct (mergeJoin_members Granules.granuleId Granules.GranuleUR A B) as (_ & M2 & _).
  fold (GranuleFolds.granuleJoin A B) in S1, S2, S3, L1, L2, M2. fold evs in S1, S2, S3, L1, L2, M2.
  cbn zeta in H1, H2, H3, H4.
  cbn [GranuleFolds.emptyResult Granules.granulesReport Granules.okCount
       Granules.onlyInCumulus Granules.onlyInCmr app map Nat.add] in H1, H2, H3, H4.
  assert (Hlen : length (Granules.onlyInCmr
                   (Granules.granulesReport
                      (fold_left (GranuleFolds.granuleEvent constructOnlineAccessUrl buildS3Uri
                                    DISTRIBUTION_ENDPOINT bucketsConfig distributionBucketMap
                                    collectionId false (GranuleFolds.firstRestB evs))
                                 evs GranuleFolds.emptyResult)))
                 = length (MergeJoin.onlyB evs)).
  { rewrite <- (length_map Granules.CmrEntry.GranuleUR), H3, length_map. reflexivity. }
  rewrite H1, H2, H3, Hlen, length_map, <- S1, <- S2, <- S3.
  repeat split; try assumption.
  intros Hsame. apply H4. intros b Hb.
  destruct (GranuleFolds.firstRestB evs) as [f|] eqn:Hfirst; [|reflexivity].
  apply firstRestB_onlyB in Hfirst. unfold GranuleFolds.cmrEntryOf. simpl.
  destruct (Hsame f b (M2 _ Hfirst) (M2 _ Hb)) as [-> ->]. reflexivity.
Qed.

Lemma granules_merge_join_witness :
  exists r,
    Granules.reconciliationReportForGranules Samples.constructOnlineAccessUrl
      Samples.buildS3Uri Samples.DISTRIBUTION_ENDPOINT Samples.bucketsConfig ∅ "X___1" false
      Samples.cmrGranules Samples.esGranules = Some r
    /\ Granules.okCount (Granules.granulesReport r) = 1
    /\ Granules.onlyInCumulus (Granules.granulesReport r)
       = [{| Granules.CumulusEntry.granuleId := "G3";
             Granules.CumulusEntry.collectionId := "X___1" |}]
    /\ map Granules.CmrEntry.GranuleUR (Granules.onlyInCmr (Granules.granulesReport r))
       = ["G2"; "G4"].
Proof.
  destruct (granules_merge_join Samples.constructOnlineAccessUrl Samples.buildS3Uri
              Samples.DISTRIBUTION_ENDPOINT Samples.bucketsConfig ∅ "X___1"
              Samples.cmrGranules Samples.esGranules
              ltac:(simpl; repeat constructor) ltac:(simpl; repeat constructor))
    as (r & Hr & H1 & H2 & H3 & _).
  exists r. rewrite H1, H2, H3. split; [exact Hr|]. repeat split.
Defined.

(** Property X2 ([reconciliationReportForGranules]).  Whatever the two
    listings hold, sorted or not, and in whatever pages, the function
    returns: no pass reads a field of an item that is not there.  Every
    granule of the index is counted once, in [okCount] or in
    [onlyInCumulus]; in a two-way report every granule of the catalog is
    counted once, in [okCount] or in [onlyInCmr]. *)
Theorem granules_counted_once
    (constructOnlineAccessUrl : GranuleFiles.UrlRequest -> option string)
    (buildS3Uri : string -> string -> string)
    (DISTRIBUTION_ENDPOINT : option string)
    (bucketsConfig : BucketsConfig.t) (distributionBucketMap : gmap string string)
    (collectionId : string) (oneWay : bool)
    (cmrGranules : list (list Granules.CmrItem))
    (esGranules : list (list Granules.DbItem)) :
  exists r,
    Granules.reconciliationReportForGranules constructOnlineAccessUrl buildS3Uri
      DISTRIBUTION_ENDPOINT bucketsConfig distributionBucketMap collectionId oneWay
      cmrGranules esGranules = Some r
    /\ length (concat esGranules)
       = Granules.okCount (Granules.granulesReport r)
         + length (Granules.onlyInCumulus (Granules.granulesReport r))
    /\ (if oneWay then Granules.onlyInCmr (Granules.granulesReport r) = []
        else length (concat cmrGranules)
             = Granules.okCount (Granules.granulesReport r)
               + length (Granules.onlyInCmr (Granules.granulesReport r))).
Proof.
  eexists. split; [apply granules_report|].
  unfold GranuleFolds.granulesReportOf.
  set (evs := GranuleFolds.granuleJoin (concat esGranules) (concat cmrGranules)).
  destruct (granule_fold_fields constructOnlineAccessUrl buildS3Uri DISTRIBUTION_ENDPOINT
              bucketsConfig distributionBucketMap collectionId oneWay
              (GranuleFolds.firstRestB evs) evs GranuleFolds.emptyResult)
    as (H1 & H2 & H3 & _).
  destruct (mergeJoin_lengths Granules.granuleId Granules.GranuleUR
              (concat esGranules) (concat cmrGranules)) as (L1 & L2).
  fold (GranuleFolds.granuleJoin (concat esGranules) (concat cmrGranules)) in L1, L2.
  fold evs in L1, L2. cbn zeta in H1, H2, H3.
  cbn [GranuleFolds.emptyResult Granules.granulesReport Granules.okCount
       Granules.onlyInCumulus Granules.onlyInCmr app map Nat.add] in H1, H2, H3.
  rewrite H1, H2, length_map. repeat split; try lia.
  destruct oneWay.
  - apply (map_eq_nil Granules.CmrEntry.GranuleUR). exact H3.
  - apply (f_equal (@length _)) in H3. rewrite !length_map in H3. rewrite H3. lia.
Qed.

(** Property X3 ([reconciliationReportForGranules]).  When the index
    has no granule of the collection, nothing is compared: a two-way
    report lists every granule of the catalog in [onlyInCmr], each with
    its own [GranuleUR] and with the [ShortName] and the [Version] of the
    first granule of the catalog, the item that [nextCmrItem] holds when
    the last loop runs; a one-way report lists nothing.  When the catalog
    has no granule, every granule of the index is in [onlyInCumulus]. *)
Theorem granules_of_an_empty_side
    (constructOnlineAccessUrl : GranuleFiles.UrlRequest -> option string)
    (buildS3Uri : string -> string -> string)
    (DISTRIBUTION_ENDPOINT : option string)
    (bucketsConfig : BucketsConfig.t) (distributionBucketMap : gmap string string)
    (collectionId : string) (oneWay : bool)
    (cmrGranules : list (list Granules.CmrItem))
    (esGranules : list (list Granules.DbItem)) :
  let run := Granules.reconciliationReportForGranules constructOnlineAccessUrl buildS3Uri
               DISTRIBUTION_ENDPOINT bucketsConfig distributionBucketMap collectionId oneWay
               cmrGranules esGranules in
  let noFiles := {| GranuleFiles.okCount := 0; GranuleFiles.onlyInCumulus := [];
                    GranuleFiles.onlyInCmr := [] |} in
  (concat esGranules = [] ->
   run = Some {| Granules.granulesReport :=
                   {| Granules.okCount := 0;
                      Granules.onlyInCumulus := [];
                      Granules.onlyInCmr :=
                        if oneWay then []
                        else match concat cmrGranules with
                             | [] => []
                             | first :: _ =>
                                 map (fun c =>
                                        {| Granules.CmrEntry.GranuleUR := Granules.GranuleUR c;
                                           Granules.CmrEntry.ShortName := Granules.ShortName first;
                                           Granules.CmrEntry.Version := Granules.Version first |})
                                     (concat cmrGranules)
                             end |};
                 Granules.filesReport := noFiles |})
  /\ (concat cmrGranules = [] ->
      run = Some {| Granules.granulesReport :=
                      {| Granules.okCount := 0;
                         Granules.onlyInCumulus :=
                           map (fun d => {| Granules.CumulusEntry.granuleId := Granules.granuleId d;
                                            Granules.CumulusEntry.collectionId := collectionId |})
                               (concat esGranules);
                         Granules.onlyInCmr := [] |};
                    Granules.filesReport := noFiles |}).
Proof.
  intros run noFiles. subst run. rewrite granules_report.
  unfold GranuleFolds.granulesReportOf, GranuleFolds.granuleJoin. split; intros ->.
  - rewrite mergeJoin_nil_l, fold_granule_RestB, firstRestB_RestB.
    cbn [GranuleFolds.emptyResult Granules.granulesReport Granules.okCount
         Granules.onlyInCumulus Granules.onlyInCmr Granules.filesReport app].
    destruct oneWay; [reflexivity|].
    destruct (concat cmrGranules) as [|first rest]; reflexivity.
  - rewrite mergeJoin_nil_r, fold_granule_RestA.
    cbn [GranuleFolds.emptyResult Granules.granulesReport Granules.okCount
         Granules.onlyInCumulus Granules.onlyInCmr Granules.filesReport app].
    reflexivity.
Qed.

(** Property X4 ([reconciliationReportForGranules]).  Files are only
    compared for a granule that both sides have: whatever the listings
    hold, every entry of the [onlyInCumulus] of the report on files names
    a file of a granule of the index whose id is the [GranuleUR] of a
    granule of the catalog, and every entry of its [onlyInCmr] is a
    download entry of the [RelatedUrls] of such a granule of the
    catalog. *)
Theorem files_compared_for_matched_granules
    (constructOnlineAccessUrl : GranuleFiles.UrlRequest -> option string)
    (buildS3Uri : string -> string -> string)
    (DISTRIBUTION_ENDPOINT : option string)
    (bucketsConfig : BucketsConfig.t) (distributionBucketMap : gmap string string)
    (collectionId : string) (oneWay : bool)
    (cmrGranules : list (list Granules.CmrItem))
    (esGranules : list (list Granules.DbItem)) :
  exists r,
    Granules.reconciliationReportForGranules constructOnlineAccessUrl buildS3Uri
      DISTRIBUTION_ENDPOINT bucketsConfig distributionBucketMap collectionId oneWay
      cmrGranules esGranules = Some r
    /\ (forall e, In e (GranuleFiles.onlyInCumulus (Granules.filesReport r)) ->
          exists d c f,
            In d (concat esGranules) /\ In c (concat cmrGranules)
            /\ Granules.granuleId d = Granules.GranuleUR c
            /\ In f (Granules.files d)
            /\ GranuleFiles.CumulusEntry.granuleId e = Granules.granuleId d
            /\ GranuleFiles.CumulusEntry.fileName e = GranuleFiles.fileName f)
    /\ (forall e, In e (GranuleFiles.onlyInCmr (Granules.filesReport r)) ->
          exists d c u,
            In d (concat esGranules) /\ In c (concat cmrGranules)
            /\ Granules.granuleId d = Granules.GranuleUR c
            /\ In u (Granules.RelatedUrls c)
            /\ GranuleFiles.includes GranuleFiles.cmrGetDataTypes (GranuleFiles.Type' u) = true
            /\ e = {| GranuleFiles.CmrEntry.URL := GranuleFiles.URL u;
                      GranuleFiles.CmrEntry.Type' := GranuleFiles.Type' u;
                      GranuleFiles.CmrEntry.GranuleUR := Granules.GranuleUR c |}).
Proof.
  eexists. split; [apply granules_report|].
  unfold GranuleFolds.granulesReportOf.
  set (evs := GranuleFolds.granuleJoin (concat esGranules) (concat cmrGranules)).
  destruct (granule_fold_fields constructOnlineAccessUrl buildS3Uri DISTRIBUTION_ENDPOINT
              bucketsConfig distributionBucketMap collectionId oneWay
              (GranuleFolds.firstRestB evs) evs GranuleFolds.emptyResult)
    as (_ & _ & _ & _ & H5).
  cbn zeta in H5. rewrite H5.
  destruct (fold_addFileReport
              (map (fun p => GranuleFolds.fileReportOf constructOnlineAccessUrl buildS3Uri
                               DISTRIBUTION_ENDPOINT bucketsConfig distributionBucketMap
                               collectionId (fst p) (snd p))
                   (MergeJoinPairs.matched evs))
              (Granules.filesReport GranuleFolds.emptyResult)) as (_ & F2 & F3).
  cbn zeta in F2, F3. rewrite F2, F3.
  cbn [GranuleFolds.emptyResult Granules.filesReport GranuleFiles.onlyInCumulus
       GranuleFiles.onlyInCmr app].
  split; intros e He; apply in_concat in He as (l & Hl & He);
    apply in_map_iff in Hl as (r & <- & Hr); apply in_map_iff in Hr as ([d c] & <- & Hdc);
    apply (matched_members Granules.granuleId Granules.GranuleUR) in Hdc as (Hd & Hc & Hid);
    cbn [fst snd] in He;
    unfold GranuleFolds.fileReportOf in He.
  - apply granule_files_entries in He as (Hg & f & Hf & Hname & _).
    exists d, c, f. repeat split; assumption.
  - apply granule_files_entries in He as (Hg & u & Hu & -> & Hdown).
    exists d, c, u. repeat split; assumption.
Qed.

(** ** The counts by granule *)

Lemma total_insert (m : OkCounts.t) (k : string) (c : OkCounts.count) :
  Counts.total (<[k := c]> m) + Counts.countOf m k = Counts.total m + Counts.valueOf c.
Proof.
  unfold Counts.total, Counts.countOf.
  assert (Hcomm : forall (m' : OkCounts.t) (j1 j2 : string) (z1 z2 : OkCounts.count) (y : nat),
            j1 <> j2 -> m' !! j1 = Some z1 -> m' !! j2 = Some z2 ->
            Counts.valueOf z1 + (Counts.valueOf z2 + y)
            = Counts.valueOf z2 + (Counts.valueOf z1 + y)) by (intros; lia).
  destruct (m !! k) as [x|] eqn:Hk.
  - rewrite <- (insert_delete_eq m).
    rewrite map_fold_insert_L; [|apply Hcomm|apply lookup_delete_eq].
    rewrite (map_fold_delete_L _ _ k x m); [|apply Hcomm|exact Hk]. lia.
  - rewrite map_fold_insert_L; [|apply Hcomm|exact Hk]. lia.
Qed.

Lemma countOf_insert (m : OkCounts.t) (k g : string) (c : OkCounts.count) :
  Counts.countOf (<[k := c]> m) g
  = if decide (g = k) then Counts.valueOf c else Counts.countOf m g.
Proof.
  unfold Counts.countOf. destruct (decide (g = k)) as [->|Hne].
  - rewrite lookup_insert_eq. reflexivity.
  - rewrite lookup_insert_ne by congruence. reflexivity.
Qed.

(** A key that [Object.prototype] does not have is not [__proto__], so
    a write under it makes a property. *)
Lemma set_insert (k : string) (c : OkCounts.count) (m : OkCounts.t) :
  OkCounts.inherited k = None -> OkCounts.set k c m = <[k := c]> m.
Proof.
  unfold OkCounts.inherited, OkCounts.set.
  destruct (String.eqb k "__proto__"); [discriminate|reflexivity].
Qed.

(** Under such a key, an object of numbers reads as the number it holds
    or as [undefined]. *)
Lemma get_plain (m : OkCounts.t) (k : string) :
  OkCounts.inherited k = None -> Counts.plain m ->
  (exists n, m !! k = Some (OkCounts.Num n) /\ OkCounts.get m k = OkCounts.Own (OkCounts.Num n))
  \/ (m !! k = None /\ OkCounts.get m k = OkCounts.Undefined).
Proof.
  intros Hk Hm. unfold OkCounts.get. destruct (m !! k) as [c|] eqn:Hc.
  - destruct (Hm k c Hc) as (_ & n & ->). left. exists n. split; reflexivity.
  - rewrite Hk. right. split; reflexivity.
Qed.

Lemma plain_insert (m : OkCounts.t) (k : string) (n : nat) :
  OkCounts.inherited k = None -> Counts.plain m -> Counts.plain (<[k := OkCounts.Num n]> m).
Proof.
  intros Hk Hm. apply map_Forall_insert_2; [|exact Hm]. split; [exact Hk|]. exists n. reflexivity.
Qed.

(** [if (!okCountByGranule[id]) okCountByGranule[id] = 0] changes no
    count, and leaves a number under [id]. *)
Lemma initCount_counts (id : string) (m : OkCounts.t) :
  OkCounts.inherited id = None -> Counts.plain m ->
  Counts.plain (Bucket.initCount id m)
  /\ Counts.total (Bucket.initCount id m) = Counts.total m
  /\ (forall g, Counts.countOf (Bucket.initCount id m) g = Counts.countOf m g)
  /\ exists n, Bucket.initCount id m !! id = Some (OkCounts.Num n).
Proof.
  intros Hid Hm.
  assert (Hzero : Counts.countOf m id = 0 ->
            Counts.plain (<[id := OkCounts.Num 0]> m)
            /\ Counts.total (<[id := OkCounts.Num 0]> m) = Counts.total m
            /\ (forall g, Counts.countOf (<[id := OkCounts.Num 0]> m) g = Counts.countOf m g)
            /\ exists n, <[id := OkCounts.Num 0]> m !! id = Some (OkCounts.Num n)).
  { intros Hcount. split; [apply plain_insert; assumption|]. split; [|split].
    - pose proof (total_insert m id (OkCounts.Num 0)) as H. simpl in H. lia.
    - intros g. rewrite countOf_insert. destruct (decide (g = id)) as [->|]; [|reflexivity].
      rewrite Hcount. reflexivity.
    - exists 0. apply lookup_insert_eq. }
  unfold Bucket.initCount.
  destruct (get_plain m id Hid Hm) as [(n & Hown & ->)|[Hnone ->]]; cbn [OkCounts.truthy negb].
  - destruct n as [|n]; cbn [Nat.eqb negb].
    + rewrite set_insert by exact Hid. apply Hzero.
      unfold Counts.countOf. rewrite Hown. reflexivity.
    + split; [exact Hm|]. split; [reflexivity|]. split; [reflexivity|].
      exists (S n). exact Hown.
  - rewrite set_insert by exact Hid. apply Hzero.
    unfold Counts.countOf. rewrite Hnone. reflexivity.
Qed.

(** [okCountByGranule[id] += 1] adds one to the number under [id]. *)
Lemma increment_counts (id : string) (m : OkCounts.t) (n : nat) :
  OkCounts.inherited id = None -> Counts.plain m -> m !! id = Some (OkCounts.Num n) ->
  Counts.plain (Bucket.increment id m)
  /\ Counts.total (Bucket.increment id m) = Counts.total m + 1
  /\ forall g, Counts.countOf (Bucket.increment id m) g
               = Counts.countOf m g + if decide (g = id) then 1 else 0.
Proof.
  intros Hid Hm Hown. unfold Bucket.increment, OkCounts.get. rewrite Hown.
  cbn [OkCounts.plus OkCounts.add]. rewrite set_insert by exact Hid.
  split; [apply plain_insert; assumption|]. split.
  - pose proof (total_insert m id (OkCounts.Num (n + 1))) as H.
    unfold Counts.countOf in H. rewrite Hown in H. simpl in H. lia.
  - intros g. rewrite countOf_insert. destruct (decide (g = id)) as [->|]; [|lia].
    unfold Counts.countOf. rewrite Hown. simpl. lia.
Qed.

Section ComparedMembers.
Context {A B : Type}.
Variable keyA : A -> string.
Variable keyB : B -> string.

Lemma compared_cons (e : @MergeJoin.event A B) (evs : list (@MergeJoin.event A B)) :
  MergeJoinSeconds.compared (e :: evs)
  = match e with
    | MergeJoin.Less _ b | MergeJoin.Greater _ b | MergeJoin.Equal _ b => [b]
    | _ => []
    end ++ MergeJoinSeconds.compared evs.
Proof. reflexivity. Qed.

(** The elements that the walk compares come from the second listing. *)
Lemma compared_members (xs : list A) (ys : list B) (b : B) :
  In b (MergeJoinSeconds.compared (MergeJoin.mergeJoin keyA keyB xs ys)) -> In b ys.
Proof.
  assert (HA : forall l : list A, MergeJoinSeconds.compared (map (@MergeJoin.RestA A B) l) = []).
  { induction l as [|z l IH]; [reflexivity|exact IH]. }
  assert (HB : forall l : list B, MergeJoinSeconds.compared (map (@MergeJoin.RestB A B) l) = []).
  { induction l as [|z l IH]; [reflexivity|exact IH]. }
  revert ys. induction xs as [|x xs IHxs]; intros ys.
  { rewrite mergeJoin_nil_l, HB. intros []. }
  induction ys as [|y ys IHys].
  { rewrite mergeJoin_nil_r, HA. intros []. }
  rewrite mergeJoin_cons.
  destruct (String.ltb (keyA x) (keyB y)) eqn:Hlt;
    [|destruct (String.ltb (keyB y) (keyA x)) eqn:Hgt];
    rewrite compared_cons; cbn [app]; intros [<- | H]; try (left; reflexivity).
  - apply (IHxs _ H).
  - right. apply (IHys H).
  - right. apply (IHxs _ H).
Qed.

End ComparedMembers.

Section MatchedSorted.
Context {A B : Type}.
Variable keyA : A -> string.
Variable keyB : B -> string.

Lemma matched_cons (e : @MergeJoin.event A B) (evs : list (@MergeJoin.event A B)) :
  MergeJoinPairs.matched (e :: evs) =
  match e with MergeJoin.Equal a b => [(a, b)] | _ => [] end ++ MergeJoinPairs.matched evs.
Proof. reflexivity. Qed.

Lemma matched_RestA (xs : list A) :
  MergeJoinPairs.matched (map (@MergeJoin.RestA A B) xs) = [].
Proof. induction xs as [|x xs IH]; [reflexivity|exact IH]. Qed.

Lemma matched_RestB (ys : list B) :
  MergeJoinPairs.matched (map (@MergeJoin.RestB A B) ys) = [].
Proof. induction ys as [|y ys IH]; [reflexivity|exact IH]. Qed.

(** In two strictly sorted listings the walk matches the elements of
    the second side whose key the first side has, in their order. *)
Lemma matched_sorted (xs : list A) (ys : list B) :
  Sorted JS.lt (map keyA xs) -> Sorted JS.lt (map keyB ys) ->
  map snd (MergeJoinPairs.matched (MergeJoin.mergeJoin keyA keyB xs ys))
  = filter (fun b => keyB b ∈ map keyA xs) ys.
Proof.
  revert ys. induction xs as [|a xs IHxs]; intros ys Hxs Hys.
  { rewrite mergeJoin_nil_l, matched_RestB. simpl. symmetry. apply filter_none.
    apply Forall_forall. intros x _ H. exact (not_elem_of_nil _ H). }
  induction ys as [|b ys IHys].
  { rewrite mergeJoin_nil_r, matched_RestA. reflexivity. }
  simpl map in Hxs, Hys.
  pose proof (sorted_head_lt _ _ Hxs) as Ha. pose proof (sorted_tail _ _ Hxs) as Hxs'.
  pose proof (sorted_head_lt _ _ Hys) as Hb. pose proof (sorted_tail _ _ Hys) as Hys'.
  rewrite mergeJoin_cons.
  destruct (String.ltb (keyA a) (keyB b)) eqn:Hab;
    [|destruct (String.ltb (keyB b) (keyA a)) eqn:Hba];
    rewrite matched_cons; cbn [app map snd].
  - rewrite (IHxs (b :: ys) Hxs' Hys).
    assert (Hnot : keyA a ∉ map keyB (b :: ys)).
    { apply lt_all_not_in. simpl. constructor; [exact Hab|].
      eapply Forall_impl; [exact Hb|]. intros k Hk. exact (ltb_trans _ _ _ Hab Hk). }
    apply filter_agree. apply Forall_forall. intros y Hy. simpl. rewrite elem_of_cons.
    split; [tauto|intros [E|H]; [|exact H]].
    exfalso. apply Hnot. rewrite <- E.
    apply list_elem_of_In, in_map, list_elem_of_In, Hy.
  - rewrite (IHys Hys').
    assert (Hnot : keyB b ∉ map keyA (a :: xs)).
    { apply lt_all_not_in. simpl. constructor; [exact Hba|].
      eapply Forall_impl; [exact Ha|]. intros k Hk. exact (ltb_trans _ _ _ Hba Hk). }
    rewrite (filter_cons_False _ b ys) by exact Hnot. reflexivity.
  - pose proof (ltb_total _ _ Hab Hba) as Heq.
    assert (HnotB : keyB b ∉ map keyB ys) by (apply lt_all_not_in; exact Hb).
    rewrite (IHxs ys Hxs' Hys'). rewrite filter_cons_True.
    2:{ simpl. rewrite Heq. apply list_elem_of_here. }
    f_equal. apply filter_agree. apply Forall_forall. intros y Hy.
    simpl. rewrite elem_of_cons. split; [tauto|intros [E|H]; [|exact H]].
    exfalso. apply HnotB. rewrite <- Heq, <- E.
    apply list_elem_of_In, in_map, list_elem_of_In, Hy.
Qed.

End MatchedSorted.

Section BucketCounts.
Variable buildS3Uri : string -> string -> string.
Variable Bucket : string.

(** What the fold puts into [okCountByGranule] when no granule id that
    a pass looks at is the name of a property of [Object.prototype]:
    numbers, the files that the walk matches counted by their granule. *)
Lemma bucket_fold_counts
    (evs : list (@MergeJoin.event Bucket.S3Object Bucket.DynamoDbItem)) (r : Bucket.Report) :
  let r' := fold_left (Folds.bucketEvent buildS3Uri Bucket) evs r in
  Forall (fun d => OkCounts.inherited (Bucket.granuleId d) = None)
         (MergeJoinSeconds.compared evs) ->
  Counts.plain (Bucket.okCountByGranule r) ->
  Counts.plain (Bucket.okCountByGranule r')
  /\ Counts.total (Bucket.okCountByGranule r')
     = Counts.total (Bucket.okCountByGranule r) + length (MergeJoinPairs.matched evs)
  /\ forall g,
       Counts.countOf (Bucket.okCountByGranule r') g
       = Counts.countOf (Bucket.okCountByGranule r) g
         + length (filter (fun d => Bucket.granuleId d = g)
                          (map snd (MergeJoinPairs.matched evs))).
Proof.
  cbn zeta. revert r. induction evs as [|e evs IH]; intros r Hids Hr.
  - simpl. split; [exact Hr|]. split; [lia|intros g; lia].
  - cbn [fold_left]. rewrite compared_cons in Hids. rewrite matched_cons.
    assert (Hstep : Counts.plain (Bucket.okCountByGranule (Folds.bucketEvent buildS3Uri Bucket r e))
              /\ Counts.total (Bucket.okCountByGranule (Folds.bucketEvent buildS3Uri Bucket r e))
                 = Counts.total (Bucket.okCountByGranule r)
                   + length (match e with MergeJoin.Equal a b => [(a, b)] | _ => [] end)
              /\ forall g,
                   Counts.countOf
                     (Bucket.okCountByGranule (Folds.bucketEvent buildS3Uri Bucket r e)) g
                   = Counts.countOf (Bucket.okCountByGranule r) g
                     + length (filter (fun d => Bucket.granuleId d = g)
                                 (map snd (match e with
                                           | MergeJoin.Equal a b => [(a, b)]
                                           | _ => []
                                           end)))).
    { destruct e as [a b|a b|a b|a|b]; cbn [Folds.bucketEvent Bucket.okCountByGranule length map];
        try (split; [exact Hr|]; split; [lia|intros g; simpl; lia]);
        apply Forall_app in Hids as [Hb _]; apply Forall_inv in Hb;
        destruct (initCount_counts (Bucket.granuleId b) (Bucket.okCountByGranule r) Hb Hr)
          as (P1 & T1 & C1 & n & Hn).
      - split; [exact P1|]. split; [lia|]. intros g. rewrite C1. simpl. lia.
      - split; [exact P1|]. split; [lia|]. intros g. rewrite C1. simpl. lia.
      - destruct (increment_counts (Bucket.granuleId b) _ n Hb P1 Hn) as (P2 & T2 & C2).
        split; [exact P2|]. split; [simpl; lia|]. intros g. rewrite C2, C1.
        cbn [snd]. rewrite filter_cons, filter_nil.
        destruct (decide (g = Bucket.granuleId b)) as [->|Hne].
        + rewrite decide_True by reflexivity. reflexivity.
        + rewrite decide_False by congruence. reflexivity. }
    destruct Hstep as (P & T & C).
    assert (Hrest : Forall (fun d => OkCounts.inherited (Bucket.granuleId d) = None)
                      (MergeJoinSeconds.compared evs)).
    { apply Forall_app in Hids as [_ H]. exact H. }
    destruct (IH _ Hrest P) as (P' & T' & C').
    split; [exact P'|]. split.
    + rewrite T', T, length_app. lia.
    + intros g. rewrite C', C, map_app, filter_app, length_app. lia.
Qed.

Lemma matched_both {A B : Type} (evs : list (@MergeJoin.event A B)) :
  map fst (MergeJoinPairs.matched evs) = MergeJoin.both evs.
Proof.
  induction evs as [|e evs IH]; [reflexivity|].
  rewrite matched_cons, both_cons, map_app, IH. destruct e; reflexivity.
Qed.

(** The granule ids that the passes over two listings look at are
    those of the files table. *)
Lemma compared_ids (A : list Bucket.S3Object) (B : list Bucket.DynamoDbItem) :
  Forall (fun d => OkCounts.inherited (Bucket.granuleId d) = None) B ->
  Forall (fun d => OkCounts.inherited (Bucket.granuleId d) = None)
         (MergeJoinSeconds.compared
            (MergeJoin.mergeJoin (Folds.s3Uri buildS3Uri Bucket)
               (Folds.dynamoDbUri buildS3Uri Bucket) A B)).
Proof.
  intros HB. apply List.Forall_forall. intros d Hd.
  apply compared_members in Hd. rewrite List.Forall_forall in HB. exact (HB d Hd).
Qed.

End BucketCounts.

(** Property X5 ([createReconciliationReportForBucket]).  When no
    granule id of the files table is the name of a property of
    [Object.prototype], then, whatever else the two listings hold,
    [okCountByGranule] holds numbers only and they add up to [okCount]:
    the function adds one to the count of a granule exactly when it adds
    one to [okCount]. *)
Theorem counts_by_granule_add_up
    (buildS3Uri : string -> string -> string) (Bucket : string)
    (s3Listing : list (list Bucket.S3Object))
    (dynamoDbScan : list (list Bucket.DynamoDbItem)) :
  Forall (fun d => OkCounts.inherited (Bucket.granuleId d) = None) (concat dynamoDbScan) ->
  exists r,
    Bucket.createReconciliationReportForBucket buildS3Uri Bucket s3Listing dynamoDbScan
    = Some r
    /\ Counts.plain (Bucket.okCountByGranule r)
    /\ Counts.total (Bucket.okCountByGranule r) = Bucket.okCount r.
Proof.
  intros Hids. eexists. split; [apply bucket_report|].
  unfold Folds.bucketReportOf.
  pose proof (compared_ids buildS3Uri Bucket (concat s3Listing) _ Hids) as Hevs.
  set (evs := MergeJoin.mergeJoin _ _ _ _) in *.
  destruct (bucket_fold_counts buildS3Uri Bucket evs (Folds.emptyBucketReport) Hevs
              (map_Forall_empty _)) as (P & H1 & _).
  destruct (bucket_fold_fields buildS3Uri Bucket evs (Folds.emptyBucketReport)) as [H2 _].
  cbn zeta in H2. split; [exact P|]. rewrite H1, H2, <- matched_both, length_map.
  reflexivity.
Qed.

Lemma counts_by_granule_add_up_witness :
  exists r,
    Bucket.createReconciliationReportForBucket Samples.buildS3Uri "data"
      Samples.s3Listing Samples.dynamoDbScan = Some r
    /\ Counts.total (Bucket.okCountByGranule r) = Bucket.okCount r.
Proof.
  destruct (counts_by_granule_add_up Samples.buildS3Uri "data" Samples.s3Listing
              Samples.dynamoDbScan ltac:(simpl; repeat constructor))
    as (r & Hr & _ & H).
  exists r. split; [exact Hr|exact H].
Defined.

(** Property X6 ([createReconciliationReportForBucket]).  For two
    listings in ascending order of their URIs, with no URI twice, and no
    granule id in the files table that is the name of a property of
    [Object.prototype], [okCountByGranule] holds numbers only, and the
    number it holds for a granule is the number of the files of that
    granule in the files table that the bucket has; a granule that has
    no entry has none. *)
Theorem counts_by_granule
    (buildS3Uri : string -> string -> string) (Bucket : string)
    (s3Listing : list (list Bucket.S3Object))
    (dynamoDbScan : list (list Bucket.DynamoDbItem)) :
  let uriA := Folds.s3Uri buildS3Uri Bucket in
  let uriB := Folds.dynamoDbUri buildS3Uri Bucket in
  let A := concat s3Listing in
  let B := concat dynamoDbScan in
  Sorted JS.lt (map uriA A) ->
  Sorted JS.lt (map uriB B) ->
  Forall (fun d => OkCounts.inherited (Bucket.granuleId d) = None) B ->
  exists r,
    Bucket.createReconciliationReportForBucket buildS3Uri Bucket s3Listing dynamoDbScan
    = Some r
    /\ Counts.plain (Bucket.okCountByGranule r)
    /\ forall granuleId,
         Counts.countOf (Bucket.okCountByGranule r) granuleId
         = length (filter (fun d => Bucket.granuleId d = granuleId)
                     (filter (fun d => uriB d ∈ map uriA A) B)).
Proof.
  intros uriA uriB A B HA HB Hids. eexists. split; [apply bucket_report|].
  unfold Folds.bucketReportOf.
  destruct (bucket_fold_counts buildS3Uri Bucket
              (MergeJoin.mergeJoin uriA uriB A B) (Folds.emptyBucketReport)
              (compared_ids buildS3Uri Bucket A B Hids) (map_Forall_empty _)) as (P & _ & H).
  fold uriA uriB A B. split; [exact P|]. intros g. rewrite H.
  rewrite (matched_sorted uriA uriB A B HA HB). reflexivity.
Qed.

Lemma counts_by_granule_witness :
  exists r,
    Bucket.createReconciliationReportForBucket Samples.buildS3Uri "data"
      Samples.s3Listing Samples.dynamoDbScan = Some r
    /\ Counts.countOf (Bucket.okCountByGranule r) "g1" = 1
    /\ Counts.countOf (Bucket.okCountByGranule r) "g2" = 1
    /\ Counts.countOf (Bucket.okCountByGranule r) "g3" = 0.
Proof.
  destruct (counts_by_granule Samples.buildS3Uri "data" Samples.s3Listing
              Samples.dynamoDbScan ltac:(simpl; repeat constructor)
              ltac:(simpl; repeat constructor) ltac:(simpl; repeat constructor))
    as (r & Hr & _ & H).
  exists r. rewrite !H. split; [exact Hr|]. repeat split.
Defined.

(** Where a granule id is the name of a property of [Object.prototype],
    the count is no number: the function finds the inherited function
    under the id, stores no 0, and [+= 1] makes a string of it, to which
    the next match adds another [1]. *)
Lemma count_of_an_inherited_name :
  exists r,
    Bucket.createReconciliationReportForBucket Samples.buildS3Uri "data"
      CountSamples.s3Listing CountSamples.dynamoDbScan = Some r
    /\ Bucket.okCount r = 2
    /\ Bucket.okCountByGranule r !! "constructor"
       = Some (OkCounts.Text "function Object() { [native code] }11").
Proof. eexists. split; [vm_compute; reflexivity|]. split; vm_compute; reflexivity. Qed.

(** ** The reports of the buckets, added up *)

(** The body of [Object.keys(bucketReport.okCountByGranule).forEach]
    adds the numbers of a bucket to the numbers so far, granule by
    granule; the order of the keys does not matter. *)
Lemma addBucketReport_counts (acc : Effects.FilesInCumulus) (bucketReport : Bucket.Report) :
  let acc' := Orchestrator.addBucketReport acc bucketReport in
  Counts.plain (Effects.okCountByGranule acc) ->
  Counts.plain (Bucket.okCountByGranule bucketReport) ->
  Counts.plain (Effects.okCountByGranule acc')
  /\ Counts.total (Effects.okCountByGranule acc')
     = Counts.total (Effects.okCountByGranule acc)
       + Counts.total (Bucket.okCountByGranule bucketReport)
  /\ forall g,
       Counts.countOf (Effects.okCountByGranule acc') g
       = Counts.countOf (Effects.okCountByGranule acc) g
         + Counts.countOf (Bucket.okCountByGranule bucketReport) g.
Proof.
  cbn zeta. intros Hacc. unfold Orchestrator.addBucketReport. cbn [Effects.okCountByGranule].
  apply (map_fold_weak_ind
           (fun counts m =>
              Counts.plain m ->
              Counts.plain counts
              /\ Counts.total counts
                 = Counts.total (Effects.okCountByGranule acc) + Counts.total m
              /\ forall g, Counts.countOf counts g
                           = Counts.countOf (Effects.okCountByGranule acc) g
                             + Counts.countOf m g)).
  - intros _. split; [exact Hacc|]. split.
    + unfold Counts.total at 3. rewrite map_fold_empty. lia.
    + intros g. unfold Counts.countOf at 3. rewrite lookup_empty. lia.
  - intros i x m r Hi IH Hm. apply map_Forall_insert in Hm as [(Hkey & n & ->) Hm]; [|exact Hi].
    destruct (IH Hm) as (P & IH1 & IH2).
    assert (Hset : OkCounts.set i
                     (OkCounts.plus (OkCounts.orZero (OkCounts.get r i)) (OkCounts.Num n)) r
                   = <[i := OkCounts.Num (Counts.countOf r i + n)]> r).
    { rewrite set_insert by exact Hkey. f_equal. unfold Counts.countOf.
      destruct (get_plain r i Hkey P) as [(k & -> & ->)|[-> ->]]; [|reflexivity].
      unfold OkCounts.orZero. cbn [OkCounts.truthy Counts.valueOf].
      destruct k as [|k]; reflexivity. }
    cbn zeta. rewrite Hset. split; [apply plain_insert; assumption|]. split.
    + pose proof (total_insert r i (OkCounts.Num (Counts.countOf r i + n))) as H1.
      pose proof (total_insert m i (OkCounts.Num n)) as H2.
      unfold Counts.countOf in H2. rewrite Hi in H2. simpl in H1, H2. lia.
    + intros g. rewrite !countOf_insert. destruct (decide (g = i)) as [->|]; [|apply IH2].
      specialize (IH2 i). unfold Counts.countOf at 3 in IH2. rewrite Hi in IH2.
      simpl. lia.
Qed.

Lemma addBucketReports (reports : list Bucket.Report) (acc : Effects.FilesInCumulus) :
  let files := fold_left Orchestrator.addBucketReport reports acc in
  Effects.okCount files = Effects.okCount acc + list_sum (map Bucket.okCount reports)
  /\ Effects.onlyInS3 files = Effects.onlyInS3 acc ++ concat (map Bucket.onlyInS3 reports)
  /\ Effects.onlyInDynamoDb files
     = Effects.onlyInDynamoDb acc ++ concat (map Bucket.onlyInDynamoDb reports).
Proof.
  unfold list_sum. revert acc. induction reports as [|b reports IH]; intros acc.
  - simpl. rewrite !app_nil_r. repeat split; lia.
  - cbn [fold_left]. destruct (IH (Orchestrator.addBucketReport acc b)) as (H1 & H2 & H3).
    cbn zeta in *. rewrite H1, H2, H3.
    cbn [Orchestrator.addBucketReport Effects.okCount Effects.onlyInS3 Effects.onlyInDynamoDb
         map concat fold_right].
    rewrite <- !app_assoc. repeat split; lia.
Qed.

(** When the reports of the buckets hold numbers under keys that
    [Object.prototype] does not have, so does their sum, and the number
    of a granule is the sum of its numbers in the buckets. *)
Lemma addBucketReports_counts (reports : list Bucket.Report) (acc : Effects.FilesInCumulus) :
  let files := fold_left Orchestrator.addBucketReport reports acc in
  Counts.plain (Effects.okCountByGranule acc) ->
  Forall (fun b => Counts.plain (Bucket.okCountByGranule b)) reports ->
  Counts.plain (Effects.okCountByGranule files)
  /\ forall g,
       Counts.countOf (Effects.okCountByGranule files) g
       = Counts.countOf (Effects.okCountByGranule acc) g
         + list_sum (map (fun b => Counts.countOf (Bucket.okCountByGranule b) g) reports).
Proof.
  cbn zeta. unfold list_sum. revert acc.
  induction reports as [|b reports IH]; intros acc Hacc Hreports.
  - simpl. split; [exact Hacc|]. intros g. lia.
  - cbn [fold_left]. apply Forall_cons in Hreports as [Hb Hreports].
    destruct (addBucketReport_counts acc b Hacc Hb) as (P & _ & C).
    destruct (IH (Orchestrator.addBucketReport acc b) P Hreports) as (P' & C').
    split; [exact P'|]. intros g. rewrite C', C. cbn [map fold_right]. lia.
Qed.

(** Property X7 ([createReconciliationReport]).  When every read and
    every comparison returns, the document that the run leaves under the
    key of the report has the status SUCCESS, and its [filesInCumulus]
    adds the reports of the buckets up: [okCount] is the sum of their
    [okCount]s, and [onlyInS3] and [onlyInDynamoDb] are their lists one
    after the other, in the order of the buckets.  When the
    [okCountByGranule] of every bucket holds numbers only, under keys
    that are no names of properties of [Object.prototype], so does that
    of the document, and the number of a granule is the sum of its
    numbers in the buckets.  The three reports of the comparison with
    CMR are in the document as that comparison returned them. *)
Theorem bucket_reports_added_up
    (endTime : string)
    (json : list (string * BucketsConfig.Config))
    (distributionBucketMap : gmap string string)
    (bucketReports : list string -> Effects.result (list Bucket.Report))
    (reconciliationReportForCumulusCMR :
       BucketsConfig.t -> gmap string string -> Value.object ->
       Effects.result Effects.CumulusCmrReport)
    (recReportParams : Value.object) (w : Effects.World)
    (reports : list Bucket.Report) (cumulusCmrReport : Effects.CumulusCmrReport) :
  let run := Orchestrator.createReconciliationReport endTime (Effects.Returned json)
               (Effects.Returned distributionBucketMap) bucketReports
               reconciliationReportForCumulusCMR recReportParams w in
  bucketReports (Orchestrator.dataBucketsOf json) = Effects.Returned reports ->
  reconciliationReportForCumulusCMR {| BucketsConfig.buckets := json |}
    distributionBucketMap recReportParams = Effects.Returned cumulusCmrReport ->
  exists doc,
    snd run = Effects.Returned tt
    /\ Effects.objects (fst run)
       !! (Value.toString (Value.get recReportParams "systemBucket"),
           Value.toString (Value.get recReportParams "reportKey")) = Some doc
    /\ Effects.reportStatus (Effects.header doc) = "SUCCESS"
    /\ Effects.createEndTime (Effects.header doc) = Some endTime
    /\ Effects.okCount (Effects.filesInCumulus doc) = list_sum (map Bucket.okCount reports)
    /\ Effects.onlyInS3 (Effects.filesInCumulus doc) = concat (map Bucket.onlyInS3 reports)
    /\ Effects.onlyInDynamoDb (Effects.filesInCumulus doc)
       = concat (map Bucket.onlyInDynamoDb reports)
    /\ (Forall (fun b => Counts.plain (Bucket.okCountByGranule b)) reports ->
        Counts.plain (Effects.okCountByGranule (Effects.filesInCumulus doc))
        /\ forall granuleId,
             Counts.countOf (Effects.okCountByGranule (Effects.filesInCumulus doc)) granuleId
             = list_sum (map (fun b => Counts.countOf (Bucket.okCountByGranule b) granuleId)
                             reports))
    /\ Effects.collectionsInCumulusCmr doc = Effects.collections cumulusCmrReport
    /\ Effects.granulesInCumulusCmr doc = Effects.granules cumulusCmrReport
    /\ Effects.filesInCumulusCmr doc = Effects.granuleFiles cumulusCmrReport.
Proof.
  intros run Hbuckets Hcmr. subst run. unfold Orchestrator.createReconciliationReport.
  unfold Orchestrator.putObject, Effects.settle, Effects.emit, Effects.setObjects,
    Effects.setReports, mbind, Effects.M_bind, Effects.result_bind, Effects.bind.
  cbn [Effects.reports Effects.objects Effects.log fst snd].
  rewrite Hbuckets. cbn [Effects.reports Effects.objects Effects.log fst snd].
  rewrite Hcmr. cbn [Effects.reports Effects.objects Effects.log fst snd].
  eexists. split; [reflexivity|]. split; [apply lookup_insert_eq|].
  cbn [Effects.header Effects.reportStatus Effects.createEndTime Effects.filesInCumulus
       Effects.collectionsInCumulusCmr Effects.granulesInCumulusCmr
       Effects.filesInCumulusCmr].
  match goal with
  | |- context [fold_left Orchestrator.addBucketReport reports ?acc] =>
      destruct (addBucketReports reports acc) as (H1 & H2 & H3);
      pose proof (addBucketReports_counts reports acc (map_Forall_empty _)) as H5
  end.
  cbn zeta in H1, H2, H3, H5. rewrite H1, H2, H3.
  split; [reflexivity|]. split; [reflexivity|]. split; [reflexivity|].
  split; [reflexivity|]. split; [reflexivity|]. split; [|repeat split].
  intros Hplain. destruct (H5 Hplain) as (P & C). split; [exact P|].
  intros g. rewrite C. unfold Counts.countOf at 1.
  cbn [Effects.okCountByGranule]. rewrite lookup_empty. reflexivity.
Qed.

Lemma bucket_reports_added_up_witness :
  exists doc,
    Effects.objects
      (fst (Orchestrator.createReconciliationReport "2020-09-01T00:00:05.000Z"
              (Effects.Returned (BucketsConfig.buckets Samples.bucketsConfig))
              (Effects.Returned ∅)
              (fun _ => Effects.Returned BucketSamples.bucketReports)
              (fun _ _ _ => Effects.Returned Samples.noCumulusCmrReport)
              BucketSamples.recReportParams Samples.emptyWorld))
    !! ("internal", "stack/reconciliation-reports/r.json") = Some doc
    /\ Effects.okCount (Effects.filesInCumulus doc) = 5
    /\ Effects.onlyInS3 (Effects.filesInCumulus doc) = ["s3://priv/b"]
    /\ Counts.countOf (Effects.okCountByGranule (Effects.filesInCumulus doc)) "g1" = 4.
Proof.
  destruct (bucket_reports_added_up "2020-09-01T00:00:05.000Z"
              (BucketsConfig.buckets Samples.bucketsConfig) ∅
              (fun _ => Effects.Returned BucketSamples.bucketReports)
              (fun _ _ _ => Effects.Returned Samples.noCumulusCmrReport)
              BucketSamples.recReportParams Samples.emptyWorld
              BucketSamples.bucketReports Samples.noCumulusCmrReport
              eq_refl eq_refl)
    as (doc & _ & Hdoc & _ & _ & H1 & H2 & _ & H4 & _).
  assert (Hplain : Forall (fun b => Counts.plain (Bucket.okCountByGranule b))
                     BucketSamples.bucketReports).
  { constructor; [|constructor; [|constructor]]; cbn [Bucket.okCountByGranule];
      (apply map_Forall_insert_2; [|apply map_Forall_singleton]);
      (split; [reflexivity|eexists; reflexivity]). }
  destruct (H4 Hplain) as (_ & H5).
  exists doc. rewrite H1, H2, H5. split; [exact Hdoc|]. repeat split.
Defined.

(** ** The comparison with CMR, collection by collection *)

Lemma fold_left_concat {A B : Type} (f : A -> list B) (l : list A) (acc : list B) :
  fold_left (fun accumulator currentValue => accumulator ++ f currentValue) l acc
  = acc ++ concat (map f l).
Proof.
  revert acc. induction l as [|x l IH]; intros acc; simpl.
  - rewrite app_nil_r. reflexivity.
  - rewrite IH, <- app_assoc. reflexivity.
Qed.

Lemma fold_left_sum {A : Type} (f : A -> nat) (l : list A) (n : nat) :
  fold_left (fun accumulator currentValue => accumulator + f currentValue) l n
  = n + list_sum (map f l).
Proof.
  unfold list_sum. revert n. induction l as [|x l IH]; intros n; simpl.
  - lia.
  - rewrite IH. lia.
Qed.

(** The comparison of the collections returns, whatever the two arrays
    hold; a one-way report has nothing in [onlyInCmr]. *)
Lemma collections_returns (recReportParams : Value.object) (cmrIds esIds : list string) :
  exists c,
    Collections.reconciliationReportForCollections recReportParams cmrIds esIds = Some c
    /\ (Collections.isOneWayReport recReportParams = true -> Collections.onlyInCmr c = []).
Proof.
  unfold Collections.reconciliationReportForCollections.
  set (st0 := {| Collections.esCollectionIds := esIds;
                 Collections.cmrCollectionIds := cmrIds; Collections.report := _ |}).
  destruct (collections_mainLoop_total (Collections.isOneWayReport recReportParams)
              (length esIds + length cmrIds) st0) as (st' & Hrun & Hone); [reflexivity|].
  subst st0. cbn [Collections.esCollectionIds Collections.cmrCollectionIds
                  Collections.report] in *.
  rewrite Hrun. cbn [mbind option_bind]. eexists. split; [reflexivity|].
  intros Hway. rewrite Hway. cbn [Collections.onlyInCmr]. exact (Hone Hway).
Qed.

(** The collections that the comparison finds on both sides are on
    both sides. *)
Lemma okCollections_members (recReportParams : Value.object) (cmrIds esIds : list string)
    (c : Collections.Report) :
  Forall (fun s => JS.truthy s = true) esIds ->
  Forall (fun s => JS.truthy s = true) cmrIds ->
  Collections.reconciliationReportForCollections recReportParams cmrIds esIds = Some c ->
  forall id, In id (Collections.okCollections c) -> In id esIds /\ In id cmrIds.
Proof.
  intros Hes Hcmr Hrun id Hid.
  rewrite (collections_report _ _ _ Hes Hcmr) in Hrun. injection Hrun as <-.
  destruct (collection_fold_fields (Collections.isOneWayReport recReportParams)
              (MergeJoin.mergeJoin (fun s => s) (fun s => s) esIds cmrIds)
              {| Collections.okCollections := []; Collections.onlyInCumulus := [];
                 Collections.onlyInCmr := [] |}) as (H1 & _).
  cbn zeta in H1. rewrite H1 in Hid. cbn [Collections.okCollections app] in Hid.
  destruct (mergeJoin_members (fun s : string => s) (fun s : string => s) esIds cmrIds)
    as (_ & _ & M).
  destruct (M _ Hid) as [Ha Hb]. rewrite map_id in Hb. split; assumption.
Qed.

Section CumulusCmrFacts.
Variable constructOnlineAccessUrl : GranuleFiles.UrlRequest -> option string.
Variable buildS3Uri : string -> string -> string.
Variable DISTRIBUTION_ENDPOINT : option string.
Variable cmrGranulesOf : string -> list (list Granules.CmrItem).
Variable esGranulesOf : string -> list (list Granules.DbItem).
Variable bucketsConfig : BucketsConfig.t.
Variable distributionBucketMap : gmap string string.
Variable recReportParams : Value.object.

Abbreviation granulesOf :=
  (fun collectionId =>
     GranuleFolds.granulesReportOf constructOnlineAccessUrl buildS3Uri DISTRIBUTION_ENDPOINT
       bucketsConfig distributionBucketMap collectionId
       (Collections.isOneWayReport recReportParams)
       (concat (esGranulesOf collectionId)) (concat (cmrGranulesOf collectionId))).

(** Every comparison of granules returns, so [Promise.all] does: with
    the report of each collection, in the order of the collections. *)
Lemma granuleAndFilesReports_returns (okCollections : list string) :
  CumulusCmr.granuleAndFilesReports constructOnlineAccessUrl buildS3Uri DISTRIBUTION_ENDPOINT
    cmrGranulesOf esGranulesOf bucketsConfig distributionBucketMap recReportParams
    okCollections
  = Some (map granulesOf okCollections).
Proof.
  unfold CumulusCmr.granuleAndFilesReports.
  induction okCollections as [|c cs IH]; [reflexivity|].
  cbn [mapM map]. rewrite granules_report, IH. reflexivity.
Qed.

(** A one-way comparison of the granules of a collection has nothing in
    [onlyInCmr]; the entries of its [onlyInCumulus] bear the id of the
    collection. *)
Lemma granulesOf_fields (collectionId : string) :
  (Collections.isOneWayReport recReportParams = true ->
   Granules.onlyInCmr (Granules.granulesReport (granulesOf collectionId)) = [])
  /\ forall e,
       In e (Granules.onlyInCumulus (Granules.granulesReport (granulesOf collectionId))) ->
       Granules.CumulusEntry.collectionId e = collectionId
       /\ In (Granules.CumulusEntry.granuleId e)
             (map Granules.granuleId (concat (esGranulesOf collectionId))).
Proof.
  unfold GranuleFolds.granulesReportOf.
  set (evs := GranuleFolds.granuleJoin _ _).
  destruct (granule_fold_fields constructOnlineAccessUrl buildS3Uri DISTRIBUTION_ENDPOINT
              bucketsConfig distributionBucketMap collectionId
              (Collections.isOneWayReport recReportParams)
              (GranuleFolds.firstRestB evs) evs GranuleFolds.emptyResult)
    as (_ & H2 & H3 & _).
  cbn zeta in H2, H3. split.
  - intros Hway. rewrite Hway in H3. apply (map_eq_nil Granules.CmrEntry.GranuleUR).
    rewrite Hway. exact H3.
  - intros e He. rewrite H2 in He.
    cbn [GranuleFolds.emptyResult Granules.granulesReport Granules.onlyInCumulus app] in He.
    apply in_map_iff in He as (d & <- & Hd). split; [reflexivity|].
    cbn [Granules.cumulusEntryOf Granules.CumulusEntry.granuleId].
    apply in_map.
    destruct (mergeJoin_members Granules.granuleId Granules.GranuleUR
                (concat (esGranulesOf collectionId)) (concat (cmrGranulesOf collectionId)))
      as (M & _). exact (M _ Hd).
Qed.

End CumulusCmrFacts.

(** Property X8 ([reconciliationReportForCumulusCMR]).  In a one-way
    report, whatever CMR and Elasticsearch hold, the comparison returns,
    and neither the report on collections nor the report on granules,
    which adds up those of the collections, lists anything as only in
    CMR. *)
Theorem one_way_comparison_with_cmr
    (constructOnlineAccessUrl : GranuleFiles.UrlRequest -> option string)
    (buildS3Uri : string -> string -> string)
    (DISTRIBUTION_ENDPOINT : option string)
    (cmrGranulesOf : string -> list (list Granules.CmrItem))
    (esGranulesOf : string -> list (list Granules.DbItem))
    (bucketsConfig : BucketsConfig.t) (distributionBucketMap : gmap string string)
    (recReportParams : Value.object) (cmrCollectionIds esCollectionIds : list string) :
  Collections.isOneWayReport recReportParams = true ->
  exists r,
    CumulusCmr.reconciliationReportForCumulusCMR constructOnlineAccessUrl buildS3Uri
      DISTRIBUTION_ENDPOINT cmrGranulesOf esGranulesOf bucketsConfig distributionBucketMap
      recReportParams cmrCollectionIds esCollectionIds = Some r
    /\ Effects.collectionsOnlyInCmr (Effects.collections r) = []
    /\ Granules.onlyInCmr (Effects.granules r) = [].
Proof.
  intros Hway. unfold CumulusCmr.reconciliationReportForCumulusCMR.
  destruct (collections_returns recReportParams cmrCollectionIds esCollectionIds)
    as (c & -> & Hone).
  cbn [mbind option_bind]. rewrite granuleAndFilesReports_returns. cbn [mbind option_bind].
  eexists. split; [reflexivity|].
  cbn [Effects.collections Effects.granules Effects.collectionsOnlyInCmr Granules.onlyInCmr].
  split; [exact (Hone Hway)|].
  rewrite (fold_left_concat (fun r => Granules.onlyInCmr (Granules.granulesReport r))).
  cbn [app]. induction (Collections.okCollections c) as [|id ids IH]; [reflexivity|].
  cbn [map concat]. rewrite IH.
  destruct (granulesOf_fields constructOnlineAccessUrl buildS3Uri DISTRIBUTION_ENDPOINT
              cmrGranulesOf esGranulesOf bucketsConfig distributionBucketMap
              recReportParams id) as [Hnil _].
  rewrite (Hnil Hway). reflexivity.
Qed.

Lemma one_way_comparison_with_cmr_witness :
  exists r,
    CumulusCmr.reconciliationReportForCumulusCMR Samples.constructOnlineAccessUrl
      Samples.buildS3Uri Samples.DISTRIBUTION_ENDPOINT CumulusCmrSamples.cmrGranulesOf
      CumulusCmrSamples.esGranulesOf Samples.bucketsConfig ∅ Samples.oneWayParams
      Samples.cmrIds Samples.esIds = Some r
    /\ Effects.collectionsOnlyInCmr (Effects.collections r) = []
    /\ Granules.onlyInCmr (Effects.granules r) = [].
Proof.
  apply (one_way_comparison_with_cmr Samples.constructOnlineAccessUrl
           Samples.buildS3Uri Samples.DISTRIBUTION_ENDPOINT CumulusCmrSamples.cmrGranulesOf
           CumulusCmrSamples.esGranulesOf Samples.bucketsConfig ∅ Samples.oneWayParams
           Samples.cmrIds Samples.esIds).
  vm_compute. reflexivity.
Defined.

(** Property X9 ([reconciliationReportForCumulusCMR]).  Granules are
    compared only for the collections that both sides have: when no
    collection id is empty, the comparison returns, and every entry of
    the [onlyInCumulus] of the report on granules is a granule of the
    index of a collection that is among the collections of Elasticsearch
    and among those of CMR. *)
Theorem granules_compared_for_matched_collections
    (constructOnlineAccessUrl : GranuleFiles.UrlRequest -> option string)
    (buildS3Uri : string -> string -> string)
    (DISTRIBUTION_ENDPOINT : option string)
    (cmrGranulesOf : string -> list (list Granules.CmrItem))
    (esGranulesOf : string -> list (list Granules.DbItem))
    (bucketsConfig : BucketsConfig.t) (distributionBucketMap : gmap string string)
    (recReportParams : Value.object) (cmrCollectionIds esCollectionIds : list string) :
  Forall (fun s => JS.truthy s = true) esCollectionIds ->
  Forall (fun s => JS.truthy s = true) cmrCollectionIds ->
  exists r,
    CumulusCmr.reconciliationReportForCumulusCMR constructOnlineAccessUrl buildS3Uri
      DISTRIBUTION_ENDPOINT cmrGranulesOf esGranulesOf bucketsConfig distributionBucketMap
      recReportParams cmrCollectionIds esCollectionIds = Some r
    /\ forall e, In e (Granules.onlyInCumulus (Effects.granules r)) ->
         In (Granules.CumulusEntry.collectionId e) esCollectionIds
         /\ In (Granules.CumulusEntry.collectionId e) cmrCollectionIds
         /\ In (Granules.CumulusEntry.granuleId e)
               (map Granules.granuleId
                    (concat (esGranulesOf (Granules.CumulusEntry.collectionId e)))).
Proof.
  intros Hes Hcmr. unfold CumulusCmr.reconciliationReportForCumulusCMR.
  destruct (collections_returns recReportParams cmrCollectionIds esCollectionIds)
    as (c & Hc & _).
  rewrite Hc. cbn [mbind option_bind]. rewrite granuleAndFilesReports_returns.
  cbn [mbind option_bind]. eexists. split; [reflexivity|].
  cbn [Effects.granules Granules.onlyInCumulus]. intros e He.
  rewrite (fold_left_concat (fun r => Granules.onlyInCumulus (Granules.granulesReport r)))
    in He.
  cbn [app] in He. apply in_concat in He as (l & Hl & He).
  apply in_map_iff in Hl as (r & <- & Hr). apply in_map_iff in Hr as (id & <- & Hid).
  destruct (granulesOf_fields constructOnlineAccessUrl buildS3Uri DISTRIBUTION_ENDPOINT
              cmrGranulesOf esGranulesOf bucketsConfig distributionBucketMap
              recReportParams id) as [_ Hentries].
  destruct (Hentries e He) as [-> Hgranule].
  destruct (okCollections_members _ _ _ _ Hes Hcmr Hc id Hid) as [H1 H2].
  repeat split; assumption.
Qed.

Lemma granules_compared_for_matched_collections_witness :
  exists r,
    CumulusCmr.reconciliationReportForCumulusCMR Samples.constructOnlineAccessUrl
      Samples.buildS3Uri Samples.DISTRIBUTION_ENDPOINT CumulusCmrSamples.cmrGranulesOf
      CumulusCmrSamples.esGranulesOf Samples.bucketsConfig ∅ Samples.twoWayParams
      Samples.cmrIds Samples.esIds = Some r
    /\ forall e, In e (Granules.onlyInCumulus (Effects.granules r)) ->
         In (Granules.CumulusEntry.collectionId e) Samples.esIds
         /\ In (Granules.CumulusEntry.collectionId e) Samples.cmrIds.
Proof.
  destruct (granules_compared_for_matched_collections Samples.constructOnlineAccessUrl
              Samples.buildS3Uri Samples.DISTRIBUTION_ENDPOINT CumulusCmrSamples.cmrGranulesOf
              CumulusCmrSamples.esGranulesOf Samples.bucketsConfig ∅ Samples.twoWayParams
              Samples.cmrIds Samples.esIds
              ltac:(repeat constructor) ltac:(repeat constructor))
    as (r & Hr & H).
  exists r. split; [exact Hr|]. intros e He. destruct (H e He) as (H1 & H2 & _).
  split; assumption.
Defined.

(** ** Strings *)

Lemma string_app_cons (c : ascii) (a b : string) : String c a +:+ b = String c (a +:+ b).
Proof. reflexivity. Qed.

Lemma string_app_assoc (a b c : string) : (a +:+ b) +:+ c = a +:+ (b +:+ c).
Proof.
  induction a as [|x a IH]; [reflexivity|]. rewrite !string_app_cons, IH. reflexivity.
Qed.

Lemma string_app_nil_r (a : string) : a +:+ "" = a.
Proof. induction a as [|x a IH]; [reflexivity|]. rewrite string_app_cons, IH. reflexivity. Qed.

Lemma ascii_compare_refl (c : ascii) : Ascii.compare c c = Eq.
Proof.
  pose proof (Ascii.compare_antisym c c) as H.
  destruct (Ascii.compare c c); [reflexivity|discriminate H|discriminate H].
Qed.

(** The order of two strings that begin alike is the order of what
    follows. *)
Lemma ltb_app (p a b : string) : String.ltb (p +:+ a) (p +:+ b) = String.ltb a b.
Proof.
  unfold String.ltb. induction p as [|c p IH]; [reflexivity|].
  rewrite !string_app_cons. cbn [String.compare]. rewrite ascii_compare_refl. exact IH.
Qed.

(** ** Paths and keys *)

Lemma split_cons (s : string) :
  exists segment segments, S3.split s = segment :: segments.
Proof.
  induction s as [|c s (seg & segs & IH)]; simpl; [eauto|].
  destruct (Ascii.eqb c "/"); [eauto|]. rewrite IH. eauto.
Qed.

(** [s.split('/').join('/')] is [s]. *)
Lemma concat_cons (x y : string) (l : list string) :
  String.concat "/" (x :: y :: l) = x +:+ "/" +:+ String.concat "/" (y :: l).
Proof. reflexivity. Qed.

Lemma join_split (s : string) : String.concat "/" (S3.split s) = s.
Proof.
  induction s as [|c s IH]; [reflexivity|]. cbn [S3.split].
  destruct (split_cons s) as (seg & segs & Hs). rewrite Hs in *.
  destruct (Ascii.eqb_spec c "/") as [->|Hc].
  - rewrite concat_cons, IH. reflexivity.
  - destruct segs as [|seg' segs].
    + cbn [String.concat] in *. rewrite IH. reflexivity.
    + rewrite concat_cons in *. rewrite string_app_cons, IH. reflexivity.
Qed.

(** The first segment has no slash. *)
Lemma split_head (s segment : string) (segments : list string) :
  S3.split s = segment :: segments -> S3.hasSlash segment = false.
Proof.
  revert segment segments. induction s as [|c s IH]; intros seg segs; simpl.
  - intros [= <- <-]. reflexivity.
  - destruct (Ascii.eqb c "/") eqn:Hc; [intros [= <- <-]; reflexivity|].
    destruct (split_cons s) as (seg' & segs' & Hs). rewrite Hs.
    intros [= <- <-]. simpl. rewrite Hc. exact (IH _ _ Hs).
Qed.

(** The segments of a string that has no slash up to its first one. *)
Lemma split_app (b k : string) :
  S3.hasSlash b = false -> S3.split (b +:+ "/" +:+ k) = b :: S3.split k.
Proof.
  induction b as [|c b IH]; simpl; [reflexivity|].
  intros H. apply orb_false_iff in H as [Hc Hb]. rewrite Hc, (IH Hb). reflexivity.
Qed.

Lemma length_zero (s : string) : (String.length s =? 0) = true <-> s = "".
Proof. destruct s; simpl; split; congruence. Qed.

(** Property X10 ([getFileBucketAndKey]).  The function returns
    [[Bucket, Key]] exactly for the paths [Bucket/Key] in which [Bucket]
    is not empty and has no slash and [Key] is not empty: what it returns
    makes up the path again, and it returns the two parts of every such
    path.  For any other path (no slash, a slash at the start, nothing
    after the first slash) it throws an [UnparsableFileLocationError]. *)
Theorem getFileBucketAndKey_round_trip :
  (forall pathParams Bucket Key,
     S3.getFileBucketAndKey pathParams = Effects.Returned (Bucket, Key) ->
     pathParams = Bucket +:+ "/" +:+ Key
     /\ Bucket <> "" /\ Key <> "" /\ S3.hasSlash Bucket = false)
  /\ (forall Bucket Key,
        Bucket <> "" -> Key <> "" -> S3.hasSlash Bucket = false ->
        S3.getFileBucketAndKey (Bucket +:+ "/" +:+ Key) = Effects.Returned (Bucket, Key))
  /\ (forall pathParams e,
        S3.getFileBucketAndKey pathParams = Effects.Threw e ->
        Effects.name e = "UnparsableFileLocationError"
        /\ (S3.hasSlash pathParams = false
            \/ S3.startsWithSlash pathParams = true
            \/ exists Bucket, pathParams = Bucket +:+ "/")).
Proof.
  repeat split.
  - unfold S3.getFileBucketAndKey in H.
    destruct (split_cons pathParams) as (b & fields & Hs). rewrite Hs in H.
    destruct (String.length b =? 0); [discriminate|].
    destruct (String.length (String.concat "/" fields) =? 0) eqn:Hk; [discriminate|].
    injection H as <- <-. rewrite <- (join_split pathParams), Hs.
    destruct fields as [|f fields]; [discriminate Hk|]. reflexivity.
  - unfold S3.getFileBucketAndKey in H.
    destruct (split_cons pathParams) as (b & fields & Hs). rewrite Hs in H.
    destruct (String.length b =? 0) eqn:Hb; [discriminate|].
    destruct (String.length (String.concat "/" fields) =? 0); [discriminate|].
    injection H as <- <-. intros ->. discriminate Hb.
  - unfold S3.getFileBucketAndKey in H.
    destruct (split_cons pathParams) as (b & fields & Hs). rewrite Hs in H.
    destruct (String.length b =? 0); [discriminate|].
    destruct (String.length (String.concat "/" fields) =? 0) eqn:Hk; [discriminate|].
    injection H as <- <-. intros E. rewrite E in Hk. discriminate Hk.
  - unfold S3.getFileBucketAndKey in H.
    destruct (split_cons pathParams) as (b & fields & Hs). rewrite Hs in H.
    destruct (String.length b =? 0); [discriminate|].
    destruct (String.length (String.concat "/" fields) =? 0); [discriminate|].
    injection H as <- <-. exact (split_head _ _ _ Hs).
  - intros Bucket Key Hb Hk Hslash. unfold S3.getFileBucketAndKey.
    rewrite (split_app _ _ Hslash), join_split.
    destruct (String.length Bucket =? 0) eqn:E1; [apply length_zero in E1; contradiction|].
    destruct (String.length Key =? 0) eqn:E2; [apply length_zero in E2; contradiction|].
    reflexivity.
  - unfold S3.getFileBucketAndKey in H.
    destruct (split_cons pathParams) as (b & fields & Hs). rewrite Hs in H.
    destruct ((String.length b =? 0) || (String.length (String.concat "/" fields) =? 0));
      [|discriminate].
    injection H as <-. reflexivity.
  - unfold S3.getFileBucketAndKey in H.
    destruct (split_cons pathParams) as (b & fields & Hs). rewrite Hs in H.
    pose proof (join_split pathParams) as Hjoin. rewrite Hs in Hjoin.
    pose proof (split_head _ _ _ Hs) as Hb.
    destruct (String.length b =? 0) eqn:E1.
    + apply length_zero in E1. subst b.
      destruct fields as [|f fields]; cbn [String.concat] in Hjoin.
      * left. subst pathParams. reflexivity.
      * right. left. subst pathParams. reflexivity.
    + destruct (String.length (String.concat "/" fields) =? 0) eqn:E2; [|discriminate].
      apply length_zero in E2. destruct fields as [|f fields].
      * left. cbn [String.concat] in Hjoin. subst pathParams. exact Hb.
      * right. right. exists b. rewrite <- Hjoin.
        change (String.concat "/" (b :: f :: fields))
          with (b +:+ "/" +:+ String.concat "/" (f :: fields)).
        rewrite E2. reflexivity.
Qed.

(** ** Tags *)

Lemma tags_fold (tagset : list S3.Tag) (acc : string) :
  fold_left (fun acc tag => acc +:+ ("&" +:+ S3.Key tag +:+ "=" +:+ S3.Value tag)) tagset acc
  = acc +:+ fold_right (fun tag rest => "&" +:+ S3.Key tag +:+ "=" +:+ S3.Value tag +:+ rest)
                       "" tagset.
Proof.
  revert acc. induction tagset as [|t ts IH]; intros acc; cbn [fold_left fold_right].
  - rewrite string_app_nil_r. reflexivity.
  - rewrite IH, !string_app_assoc. reflexivity.
Qed.

Lemma tags_join (t : S3.Tag) (ts : list S3.Tag) :
  String.concat "&" (map (fun tag => S3.Key tag +:+ "=" +:+ S3.Value tag) (t :: ts))
  = S3.Key t +:+ "=" +:+ S3.Value t
    +:+ fold_right (fun tag rest => "&" +:+ S3.Key tag +:+ "=" +:+ S3.Value tag +:+ rest) "" ts.
Proof.
  revert t. induction ts as [|t' ts IH]; intros t.
  - cbn [map String.concat fold_right]. rewrite ?string_app_assoc, string_app_nil_r.
    reflexivity.
  - change (String.concat "&" (map (fun tag => S3.Key tag +:+ "=" +:+ S3.Value tag)
                                   (t :: t' :: ts)))
      with ((S3.Key t +:+ "=" +:+ S3.Value t) +:+ "&"
            +:+ String.concat "&" (map (fun tag => S3.Key tag +:+ "=" +:+ S3.Value tag)
                                       (t' :: ts))).
    rewrite IH. cbn [fold_right]. rewrite !string_app_assoc. reflexivity.
Qed.

(** Property X11 ([s3TagSetToQueryString]).  The query string of a tag
    set is its [Key=Value] pairs, in their order, with an ampersand
    between two of them and none in front; that of the empty tag set is
    the empty string. *)
Theorem s3TagSetToQueryString_joins (tagset : list S3.Tag) :
  S3.s3TagSetToQueryString tagset
  = String.concat "&" (map (fun tag => S3.Key tag +:+ "=" +:+ S3.Value tag) tagset).
Proof.
  unfold S3.s3TagSetToQueryString. rewrite tags_fold.
  destruct tagset as [|t ts]; [reflexivity|].
  rewrite tags_join. cbn [fold_right]. reflexivity.
Qed.

(** ** URIs *)

Lemma removeLeadingSlashes_clean (key : string) :
  S3.startsWithSlash key = false -> S3.removeLeadingSlashes key = key.
Proof. destruct key as [|c key]; simpl; [reflexivity|]. intros ->. reflexivity. Qed.

Lemma removeLeadingSlashes_done (key : string) :
  S3.startsWithSlash (S3.removeLeadingSlashes key) = false.
Proof.
  induction key as [|c key IH]; [reflexivity|]. simpl.
  destruct (Ascii.eqb c "/") eqn:Hc; [exact IH|]. simpl. exact Hc.
Qed.

(** Two strings with no slash before the slash that ends them, followed
    by anything: equal wholes have equal parts. *)
Lemma app_slash_inj (b b' k k' : string) :
  S3.hasSlash b = false -> S3.hasSlash b' = false ->
  b +:+ "/" +:+ k = b' +:+ "/" +:+ k' -> b = b' /\ k = k'.
Proof.
  revert b'. induction b as [|c b IH]; intros [|c' b'] Hb Hb' E.
  - change (String "/" k = String "/" k') in E. injection E as ->. split; reflexivity.
  - change (String "/" k = String c' (b' +:+ "/" +:+ k')) in E. injection E as <- _.
    simpl in Hb'. discriminate Hb'.
  - change (String c (b +:+ "/" +:+ k) = String "/" k') in E. injection E as -> _.
    simpl in Hb. discriminate Hb.
  - rewrite !string_app_cons in E. injection E as -> E.
    simpl in Hb, Hb'. apply orb_false_iff in Hb as [_ Hb]. apply orb_false_iff in Hb' as [_ Hb'].
    destruct (IH b' Hb Hb' E) as [-> ->]. split; reflexivity.
Qed.

Lemma buildS3Uri_inj (bucket bucket' key key' : string) :
  S3.hasSlash bucket = false -> S3.hasSlash bucket' = false ->
  S3.startsWithSlash key = false -> S3.startsWithSlash key' = false ->
  S3.buildS3Uri bucket key = S3.buildS3Uri bucket' key' -> bucket = bucket' /\ key = key'.
Proof.
  intros Hb Hb' Hk Hk'. unfold S3.buildS3Uri.
  rewrite !removeLeadingSlashes_clean by assumption.
  intros E. apply String.app_inj in E. exact (app_slash_inj _ _ _ _ Hb Hb' E).
Qed.

Lemma buildS3Uri_ltb (bucket key key' : string) :
  S3.startsWithSlash key = false -> S3.startsWithSlash key' = false ->
  String.ltb (S3.buildS3Uri bucket key) (S3.buildS3Uri bucket key') = String.ltb key key'.
Proof.
  intros Hk Hk'. unfold S3.buildS3Uri. rewrite !removeLeadingSlashes_clean by assumption.
  rewrite <- !string_app_assoc. apply ltb_app.
Qed.

(** Property X12 ([buildS3Uri]).  The URI of an object is [s3://], the
    bucket, a slash and the key without the slashes it begins with: a
    key and the same key behind more slashes have the same URI.  Among
    the buckets whose names have no slash and the keys that do not begin
    with one, two objects that have the same URI are the same object. *)
Theorem buildS3Uri_identifies :
  (forall bucket key,
     S3.buildS3Uri bucket ("/" +:+ key) = S3.buildS3Uri bucket key
     /\ exists key', S3.buildS3Uri bucket key = "s3://" +:+ bucket +:+ "/" +:+ key'
                     /\ S3.startsWithSlash key' = false)
  /\ (forall bucket key,
        S3.startsWithSlash key = false ->
        S3.buildS3Uri bucket key = "s3://" +:+ bucket +:+ "/" +:+ key)
  /\ (forall bucket bucket' key key',
        S3.hasSlash bucket = false -> S3.hasSlash bucket' = false ->
        S3.startsWithSlash key = false -> S3.startsWithSlash key' = false ->
        S3.buildS3Uri bucket key = S3.buildS3Uri bucket' key' ->
        bucket = bucket' /\ key = key').
Proof.
  split; [|split].
  - intros bucket key. split; [reflexivity|].
    exists (S3.removeLeadingSlashes key). split; [reflexivity|].
    apply removeLeadingSlashes_done.
  - intros bucket key Hk. unfold S3.buildS3Uri.
    rewrite removeLeadingSlashes_clean by exact Hk. reflexivity.
  - apply buildS3Uri_inj.
Qed.

(** ** The report of a bucket with the URIs of the client package *)

Section BucketByKeys.
Variable Bucket : string.

Abbreviation uriOfKey := (S3.buildS3Uri Bucket).

Lemma buildS3Uri_same_bucket (key key' : string) :
  S3.startsWithSlash key = false -> S3.startsWithSlash key' = false ->
  uriOfKey key = uriOfKey key' -> key = key'.
Proof.
  intros Hk Hk'. unfold S3.buildS3Uri. rewrite !removeLeadingSlashes_clean by assumption.
  rewrite <- !string_app_assoc. apply String.app_inj.
Qed.

(** Keys in ascending order have their URIs in ascending order. *)
Lemma sorted_uris (keys : list string) :
  Forall (fun k => S3.startsWithSlash k = false) keys ->
  Sorted JS.lt keys -> Sorted JS.lt (map uriOfKey keys).
Proof.
  intros Hclean Hsorted. induction Hsorted as [|k ks Hks IH Hhd]; [constructor|].
  apply Forall_cons in Hclean as [Hk Hclean]. cbn [map]. constructor; [exact (IH Hclean)|].
  destruct Hhd as [|k' ks' Hlt]; [constructor|]. cbn [map]. constructor.
  apply Forall_cons in Hclean as [Hk' _]. unfold JS.lt in *.
  rewrite buildS3Uri_ltb by assumption. exact Hlt.
Qed.

Lemma uri_elem_of (key : string) (keys : list string) :
  S3.startsWithSlash key = false ->
  Forall (fun k => S3.startsWithSlash k = false) keys ->
  uriOfKey key ∈ map uriOfKey keys <-> key ∈ keys.
Proof.
  intros Hk Hkeys. rewrite !list_elem_of_In, in_map_iff. split.
  - intros (k' & E & Hin). rewrite Forall_forall in Hkeys.
    assert (Hk' : S3.startsWithSlash k' = false).
    { apply Hkeys. apply list_elem_of_In. exact Hin. }
    rewrite (buildS3Uri_same_bucket key k' Hk Hk' (eq_sym E)). exact Hin.
  - intros Hin. exists key. split; [reflexivity|exact Hin].
Qed.

End BucketByKeys.

(** Property X13 ([createReconciliationReportForBucket] with the
    [buildS3Uri] of the client package).  When the listing of the bucket
    and the scan of the files table come in ascending order of their
    keys, with no key twice and no key that begins with a slash, the
    report is the comparison of the keys: [okCount] is the number of
    keys that both have, [onlyInS3] has the URIs [s3://Bucket/Key] of
    the keys that only the bucket has and [onlyInDynamoDb] the URIs and
    granule ids of those that only the table has, in the order of the
    listings. *)
Theorem bucket_report_by_keys (Bucket : string)
    (s3Listing : list (list Bucket.S3Object))
    (dynamoDbScan : list (list Bucket.DynamoDbItem)) :
  let A := concat s3Listing in
  let B := concat dynamoDbScan in
  Sorted JS.lt (map Bucket.Key A) ->
  Sorted JS.lt (map Bucket.key B) ->
  Forall (fun k => S3.startsWithSlash k = false) (map Bucket.Key A) ->
  Forall (fun k => S3.startsWithSlash k = false) (map Bucket.key B) ->
  exists r,
    Bucket.createReconciliationReportForBucket S3.buildS3Uri Bucket s3Listing dynamoDbScan
    = Some r
    /\ Bucket.okCount r = length (filter (fun a => Bucket.Key a ∈ map Bucket.key B) A)
    /\ Bucket.onlyInS3 r
       = map (fun a => "s3://" +:+ Bucket +:+ "/" +:+ Bucket.Key a)
             (filter (fun a => Bucket.Key a ∉ map Bucket.key B) A)
    /\ Bucket.onlyInDynamoDb r
       = map (fun b => {| Bucket.Entry.uri := "s3://" +:+ Bucket +:+ "/" +:+ Bucket.key b;
                          Bucket.Entry.granuleId := Bucket.granuleId b |})
             (filter (fun b => Bucket.key b ∉ map Bucket.Key A) B).
Proof.
  intros A B HA HB CA CB.
  set (uriA := Folds.s3Uri S3.buildS3Uri Bucket).
  set (uriB := Folds.dynamoDbUri S3.buildS3Uri Bucket).
  assert (EA : map uriA A = map (S3.buildS3Uri Bucket) (map Bucket.Key A)).
  { rewrite map_map. reflexivity. }
  assert (EB : map uriB B = map (S3.buildS3Uri Bucket) (map Bucket.key B)).
  { rewrite map_map. reflexivity. }
  assert (HA' : Sorted JS.lt (map uriA A)) by (rewrite EA; apply sorted_uris; assumption).
  assert (HB' : Sorted JS.lt (map uriB B)) by (rewrite EB; apply sorted_uris; assumption).
  eexists. split; [apply bucket_report|].
  unfold Folds.bucketReportOf. fold A B uriA uriB.
  destruct (bucket_fold_fields S3.buildS3Uri Bucket
              (MergeJoin.mergeJoin uriA uriB A B) (Folds.emptyBucketReport))
    as (H1 & H2 & H3).
  destruct (mergeJoin_sorted uriA uriB A B HA' HB') as (S1 & S2 & S3).
  cbn zeta in H1, H2, H3. rewrite H1, H2, H3, S1, S2, S3.
  cbn [Folds.emptyBucketReport Bucket.okCount Bucket.onlyInS3 Bucket.onlyInDynamoDb
       app Nat.add].
  rewrite Forall_map_iff in CA. rewrite Forall_map_iff in CB.
  assert (FA : forall a, a ∈ A -> (uriA a ∈ map uriB B <-> Bucket.Key a ∈ map Bucket.key B)).
  { intros a Ha. rewrite EB. apply uri_elem_of.
    - rewrite Forall_forall in CA. exact (CA a Ha).
    - rewrite Forall_map_iff. exact CB. }
  assert (FB : forall b, b ∈ B -> (uriB b ∈ map uriA A <-> Bucket.key b ∈ map Bucket.Key A)).
  { intros b Hb. rewrite EA. apply uri_elem_of.
    - rewrite Forall_forall in CB. exact (CB b Hb).
    - rewrite Forall_map_iff. exact CA. }
  rewrite (filter_agree (fun a => uriA a ∈ map uriB B)
                        (fun a => Bucket.Key a ∈ map Bucket.key B) A)
    by (apply Forall_forall; exact FA).
  rewrite (filter_agree (fun a => uriA a ∉ map uriB B)
                        (fun a => Bucket.Key a ∉ map Bucket.key B) A)
    by (apply Forall_forall; intros a Ha; specialize (FA a Ha); tauto).
  rewrite (filter_agree (fun b => uriB b ∉ map uriA A)
                        (fun b => Bucket.key b ∉ map Bucket.Key A) B)
    by (apply Forall_forall; intros b Hb; specialize (FB b Hb); tauto).
  repeat split.
  - apply map_ext_in. intros a Ha.
    apply list_elem_of_In, list_elem_of_filter in Ha as [_ Ha].
    unfold uriA, Folds.s3Uri, S3.buildS3Uri. rewrite removeLeadingSlashes_clean; [reflexivity|].
    rewrite Forall_forall in CA. exact (CA a Ha).
  - apply map_ext_in. intros b Hb.
    apply list_elem_of_In, list_elem_of_filter in Hb as [_ Hb].
    unfold Bucket.entryOf, S3.buildS3Uri. rewrite removeLeadingSlashes_clean; [reflexivity|].
    rewrite Forall_forall in CB. exact (CB b Hb).
Qed.

Ltac sorted_strings := simpl; repeat constructor.

Lemma bucket_report_by_keys_witness :
  exists r,
    Bucket.createReconciliationReportForBucket S3.buildS3Uri "data"
      S3Samples.s3Listing S3Samples.dynamoDbScan = Some r
    /\ Bucket.okCount r = 1
    /\ Bucket.onlyInS3 r = ["s3://data/b.hdf"]
    /\ Bucket.onlyInDynamoDb r
       = [{| Bucket.Entry.uri := "s3://data/c.hdf"; Bucket.Entry.granuleId := "g1" |}].
Proof.
  destruct (bucket_report_by_keys "data" S3Samples.s3Listing S3Samples.dynamoDbScan
              ltac:(sorted_strings) ltac:(sorted_strings)
              ltac:(sorted_strings) ltac:(sorted_strings))
    as (r & Hr & H1 & H2 & H3).
  exists r. rewrite H1, H2, H3. split; [exact Hr|]. repeat split.
Defined.

(** ** Joining keys *)

Lemma removeLeadingSlash_clean (token : string) :
  S3.startsWithSlash token = false -> S3.removeLeadingSlash token = token.
Proof. destruct token as [|c token]; simpl; [reflexivity|]. intros ->. reflexivity. Qed.

Lemma removeTrailingSlash_clean (token : string) :
  S3.endsWithSlash token = false -> S3.removeTrailingSlash token = token.
Proof.
  induction token as [|c token IH]; [reflexivity|]. cbn [S3.endsWithSlash S3.removeTrailingSlash].
  destruct token as [|c' token]; [intros ->; reflexivity|].
  intros H. rewrite (IH H). reflexivity.
Qed.

Lemma removeTrailingSlash_slash (token : string) :
  S3.removeTrailingSlash (token +:+ "/") = token.
Proof.
  induction token as [|c token IH]; [reflexivity|].
  rewrite string_app_cons. cbn [S3.removeTrailingSlash]. rewrite IH.
  destruct token; reflexivity.
Qed.

Lemma endsWithSlash_slash (token : string) : S3.endsWithSlash (token +:+ "/") = true.
Proof.
  induction token as [|c token IH]; [reflexivity|].
  rewrite string_app_cons. cbn [S3.endsWithSlash]. rewrite IH.
  destruct token; reflexivity.
Qed.

Lemma endsWithSlash_cons (c : ascii) (token : string) :
  token <> "" -> S3.endsWithSlash (String c token) = S3.endsWithSlash token.
Proof. destruct token; [congruence|reflexivity]. Qed.

Lemma isNotEmptyString_true (token : string) :
  token <> "" -> S3.isNotEmptyString token = true.
Proof. destruct token; [congruence|reflexivity]. Qed.

Lemma clean_tokens_kept (tokens : list string) :
  Forall S3.cleanToken tokens ->
  List.filter S3.isNotEmptyString
    (map S3.removeTrailingSlash (map S3.removeLeadingSlash tokens)) = tokens.
Proof.
  induction 1 as [|t ts (Hne & Hs & He) _ IH]; [reflexivity|].
  cbn [map List.filter].
  rewrite removeLeadingSlash_clean, removeTrailingSlash_clean, isNotEmptyString_true, IH
    by assumption.
  reflexivity.
Qed.

Lemma slashed_tokens_kept (tokens : list string) :
  Forall S3.cleanToken tokens ->
  List.filter S3.isNotEmptyString
    (map S3.removeTrailingSlash
       (map S3.removeLeadingSlash (map (fun t => "/" +:+ t +:+ "/") tokens))) = tokens.
Proof.
  induction 1 as [|t ts (Hne & Hs & He) _ IH]; [reflexivity|].
  cbn [map List.filter].
  change (S3.removeLeadingSlash ("/" +:+ t +:+ "/")) with (t +:+ "/").
  rewrite removeTrailingSlash_slash, isNotEmptyString_true, IH by assumption.
  reflexivity.
Qed.

(** Property X14 ([s3Join]).  Tokens that are not empty and have no
    slash at either end are joined with one slash between two of them.
    A slash in front of a token and a slash behind a token that is not
    the last change nothing; a slash behind the last token is kept at
    the end of the key.  With no token at all the function throws. *)
Theorem s3Join_of_clean_tokens (tokens : list string) (lastToken : string) :
  Forall S3.cleanToken tokens ->
  S3.cleanToken lastToken ->
  let key := String.concat "/" (tokens ++ [lastToken]) in
  S3.s3Join (tokens ++ [lastToken]) = Effects.Returned key
  /\ S3.s3Join (map (fun t => "/" +:+ t +:+ "/") tokens ++ ["/" +:+ lastToken])
     = Effects.Returned key
  /\ S3.s3Join (tokens ++ [lastToken +:+ "/"]) = Effects.Returned (key +:+ "/")
  /\ Effects.returned (S3.s3Join []) = false.
Proof.
  intros Htokens Hlast key. unfold S3.s3Join.
  destruct Hlast as (Hne & Hs & He).
  assert (Hlast : S3.cleanToken lastToken) by (repeat split; assumption).
  repeat split.
  - rewrite last_snoc, He.
    rewrite clean_tokens_kept; [reflexivity|].
    apply Forall_app. split; [exact Htokens|]. constructor; [exact Hlast|constructor].
  - rewrite last_snoc.
    change ("/" +:+ lastToken) with (String "/" lastToken).
    rewrite (endsWithSlash_cons _ _ Hne), He.
    rewrite !map_app, List.filter_app, slashed_tokens_kept by exact Htokens.
    cbn [map List.filter]. change (S3.removeLeadingSlash (String "/" lastToken)) with lastToken.
    rewrite removeTrailingSlash_clean, isNotEmptyString_true by assumption.
    reflexivity.
  - rewrite last_snoc, endsWithSlash_slash.
    rewrite !map_app, List.filter_app, clean_tokens_kept by exact Htokens.
    cbn [map List.filter].
    rewrite removeLeadingSlash_clean.
    2:{ destruct lastToken; [congruence|exact Hs]. }
    rewrite removeTrailingSlash_slash, isNotEmptyString_true by assumption.
    reflexivity.
Qed.

Lemma s3Join_of_clean_tokens_witness :
  S3.s3Join ["a"; "b/c"; "d.txt"] = Effects.Returned "a/b/c/d.txt"
  /\ S3.s3Join ["/a/"; "/b/c/"; "/d.txt"] = Effects.Returned "a/b/c/d.txt"
  /\ S3.s3Join ["a"; "b/c"; "d.txt/"] = Effects.Returned "a/b/c/d.txt/".
Proof.
  destruct (s3Join_of_clean_tokens ["a"; "b/c"] "d.txt"
              ltac:(repeat constructor; discriminate)
              ltac:(repeat constructor; discriminate)) as (H1 & H2 & H3 & _).
  repeat split; assumption.
Defined.

(** ** Listing a bucket page by page *)

Section ListingFacts.
Variable listObjectsV2 : S3.ListObjectsV2Request -> S3.ListObjectsV2Output.

Abbreviation response := (S3.response listObjectsV2).
Abbreviation listMore := (S3.listMore listObjectsV2).

Abbreviation contentsOf := (S3.contentsOf listObjectsV2).

Lemma listMore_unfold (fuel : nat) (r : S3.ListObjectsV2Output)
    (discovered : option (list Bucket.S3Object)) :
  listMore fuel r discovered =
  if S3.IsTruncated r then
    match fuel with
    | 0 => None
    | S fuel' =>
        let r' := listObjectsV2 (S3.WithContinuationToken (S3.NextContinuationToken r)) in
        listMore fuel' r' (Some (default [] discovered ++ default [] (S3.Contents r')))
    end
  else Some discovered.
Proof. destruct fuel; reflexivity. Qed.

(** From the answer [i] on, with [n] more answers to the first that is
    not truncated. *)
Lemma listMore_spec (n i fuel : nat) (discovered : option (list Bucket.S3Object)) :
  (forall j, j < n -> S3.IsTruncated (response (i + j)) = true) ->
  S3.IsTruncated (response (i + n)) = false ->
  n <= fuel ->
  listMore fuel (response i) discovered
  = Some (match n with
          | 0 => discovered
          | S _ => Some (default [] discovered ++ contentsOf (S i) n)
          end).
Proof.
  revert i fuel discovered. induction n as [|n IH]; intros i fuel discovered Hmore Hlast Hfuel.
  - rewrite listMore_unfold. rewrite Nat.add_0_r in Hlast. rewrite Hlast. reflexivity.
  - rewrite listMore_unfold. rewrite <- (Nat.add_0_r i) at 1.
    rewrite (Hmore 0) by lia. destruct fuel as [|fuel]; [lia|]. cbn zeta.
    change (listObjectsV2 (S3.WithContinuationToken (S3.NextContinuationToken (response i))))
      with (response (S i)).
    rewrite (IH (S i) fuel).
    + unfold S3.contentsOf. cbn [seq map concat default from_option id].
      destruct n as [|n]; [cbn [seq map concat]; rewrite app_nil_r; reflexivity|].
      rewrite <- app_assoc. reflexivity.
    + intros j Hj. replace (S i + j) with (i + S j) by lia. apply Hmore. lia.
    + replace (S i + n) with (i + S n) by lia. exact Hlast.
    + lia.
Qed.

End ListingFacts.

(** Property X15 ([listS3ObjectsV2]).  When the answers of S3 are
    truncated up to the answer [n] and that one is not, the function
    makes [n] calls after the first, each with the
    [NextContinuationToken] of the answer before, and returns the
    [Contents] of all the answers, one after the other, an answer
    without [Contents] adding nothing.  When the first answer is not
    truncated it returns the [Contents] of that answer as they are,
    [undefined] if it has none. *)
Theorem listS3ObjectsV2_pages
    (listObjectsV2 : S3.ListObjectsV2Request -> S3.ListObjectsV2Output) (n fuel : nat) :
  (forall j, j < n -> S3.IsTruncated (S3.response listObjectsV2 j) = true) ->
  S3.IsTruncated (S3.response listObjectsV2 n) = false ->
  n <= fuel ->
  S3.listS3ObjectsV2 listObjectsV2 fuel
  = Some (match n with
          | 0 => S3.Contents (listObjectsV2 S3.Params)
          | S _ => Some (S3.contentsOf listObjectsV2 0 (S n))
          end).
Proof.
  intros Hmore Hlast Hfuel. unfold S3.listS3ObjectsV2.
  change (listObjectsV2 S3.Params) with (S3.response listObjectsV2 0).
  rewrite (listMore_spec listObjectsV2 n 0 fuel _ Hmore Hlast Hfuel).
  destruct n; reflexivity.
Qed.

Lemma listS3ObjectsV2_pages_witness :
  S3.listS3ObjectsV2 S3Samples.listObjectsV2 2
  = Some (Some [{| Bucket.Key := "a" |}; {| Bucket.Key := "b" |}; {| Bucket.Key := "c" |}]).
Proof.
  exact (listS3ObjectsV2_pages S3Samples.listObjectsV2 2 2
           ltac:(intros [|[|j]] Hj; [reflexivity|reflexivity|lia]) eq_refl ltac:(lia)).
Defined.

(** ** The providers endpoint *)

(** Setting keys one after the other, each from its own value: every key
    of the list gets the image of the value it had, the others stay. *)
Lemma set_each_key (f : Value.value -> Value.value) (keys : list string) (o : Value.object)
    (k : string) :
  NoDup keys ->
  fold_left (fun acc key => <[key := f (Value.get acc key)]> acc) keys o !! k
  = if decide (k ∈ keys) then Some (f (Value.get o k)) else o !! k.
Proof.
  revert o. induction keys as [|key keys IH]; intros o Hkeys; cbn [fold_left].
  - rewrite decide_False by apply not_elem_of_nil. reflexivity.
  - apply NoDup_cons in Hkeys as [Hkey Hkeys]. rewrite (IH _ Hkeys).
    destruct (decide (k = key)) as [->|Hne].
    + rewrite decide_False by exact Hkey.
      rewrite decide_True by apply list_elem_of_here. apply lookup_insert_eq.
    + unfold Value.get. rewrite lookup_insert_ne by congruence.
      destruct (decide (k ∈ keys)) as [Hin|Hout].
      * rewrite decide_True by (apply list_elem_of_further; exact Hin). reflexivity.
      * rewrite decide_False; [reflexivity|].
        intros Hin. apply elem_of_cons in Hin as [?|?]; contradiction.
Qed.

Lemma optionalValues_NoDup : NoDup Providers.optionalValues.
Proof. apply (bool_decide_unpack _). vm_compute. exact I. Qed.

Lemma nullifyUndefinedValues_lookup (data : Value.object) (k : string) :
  Providers.nullifyUndefinedValues data !! k
  = if decide (k ∈ Providers.optionalValues) then Some (Providers.orNull (Value.get data k))
    else data !! k.
Proof. apply (set_each_key Providers.orNull). apply optionalValues_NoDup. Qed.

Lemma orNull_orNull (v : Value.value) : Providers.orNull (Providers.orNull v) = Providers.orNull v.
Proof. unfold Providers.orNull. destruct (Value.truthy v) eqn:Hv; [rewrite Hv|]; reflexivity. Qed.

Lemma omit_lookup (o : Value.object) (keys : list string) (k : string) :
  Providers.omit o keys !! k = if decide (k ∈ keys) then None else o !! k.
Proof.
  unfold Providers.omit. revert o. induction keys as [|key keys IH]; intros o; cbn [fold_left].
  - rewrite decide_False by apply not_elem_of_nil. reflexivity.
  - rewrite IH. destruct (decide (k = key)) as [->|Hne].
    + rewrite lookup_delete_eq. rewrite (decide_True (P := key ∈ key :: keys))
        by apply list_elem_of_here.
      destruct (decide (key ∈ keys)); reflexivity.
    + rewrite lookup_delete_ne by congruence.
      destruct (decide (k ∈ keys)) as [Hin|Hout].
      * rewrite decide_True by (apply list_elem_of_further; exact Hin). reflexivity.
      * rewrite decide_False; [reflexivity|].
        intros Hin. apply elem_of_cons in Hin as [?|?]; contradiction.
Qed.

(** Property X16 ([nullifyUndefinedValues]).  The result has all seven
    optional keys: each holds the value it had when that value is
    truthy, and [null] when it is falsy ([undefined], [null], [0], the
    empty string, [false]) or when the key was missing.  The other keys
    are as they were.  Applying the function again changes nothing. *)
Theorem nullifyUndefinedValues_blanks (data : Value.object) :
  let returnData := Providers.nullifyUndefinedValues data in
  (forall k, In k Providers.optionalValues ->
     returnData !! k
     = Some (if Value.truthy (Value.get data k) then Value.get data k else Value.Null))
  /\ (forall k, ~ In k Providers.optionalValues -> returnData !! k = data !! k)
  /\ Providers.nullifyUndefinedValues returnData = returnData.
Proof.
  cbn zeta. repeat split.
  - intros k Hk. rewrite nullifyUndefinedValues_lookup.
    rewrite decide_True by (apply list_elem_of_In; exact Hk). reflexivity.
  - intros k Hk. rewrite nullifyUndefinedValues_lookup.
    rewrite decide_False by (rewrite list_elem_of_In; exact Hk). reflexivity.
  - apply map_eq. intros k. rewrite !nullifyUndefinedValues_lookup.
    destruct (decide (k ∈ Providers.optionalValues)) as [Hk|Hk]; [|reflexivity].
    unfold Value.get at 1. rewrite nullifyUndefinedValues_lookup.
    rewrite decide_True by exact Hk. cbn [default from_option]. unfold id.
    rewrite orNull_orNull. reflexivity.
Qed.

(** Property X17 ([put]).  [put] writes nothing unless the id of the
    path is the id of the body and both stores have the provider: it
    answers 400 in the first case and 404 in the second.  Otherwise it
    updates the row of the providers table whose [name] is the id, and
    the [name] it writes is that id again, so the update cannot rename
    the provider; the object it writes has none of [id], [encrypted],
    [createdAt] and [updatedAt], has the times under [created_at] and
    [updated_at], and has every optional key, with [null] for a falsy
    value.  Then it has the model create the record from the body and
    sends what the model returns. *)
Theorem put_updates_in_place (id : string) (body : Value.object)
    (existsInDynamo existsInPostgres : bool) (record : Value.object) :
  let run := Providers.put id body existsInDynamo existsInPostgres record in
  (Value.get body "id" <> Value.Str id ->
   fst run = [] /\ exists message, snd run = Providers.BadRequest message)
  /\ (Value.get body "id" = Value.Str id ->
      existsInDynamo && existsInPostgres = false ->
      fst run = [] /\ exists message, snd run = Providers.NotFound message)
  /\ (Value.get body "id" = Value.Str id ->
      existsInDynamo && existsInPostgres = true ->
      exists createObject,
        run = ([Providers.PostgresUpdate id createObject; Providers.DynamoCreate body],
               Providers.Send record)
        /\ createObject !! "name" = Some (Value.Str id)
        /\ createObject !! "id" = None
        /\ createObject !! "encrypted" = None
        /\ createObject !! "createdAt" = None
        /\ createObject !! "updatedAt" = None
        /\ createObject !! "created_at" = Some (Value.get body "createdAt")
        /\ createObject !! "updated_at" = Some (Value.get body "updatedAt")
        /\ forall k, In k Providers.optionalValues ->
             createObject !! k
             = Some (if Value.truthy (Value.get body k) then Value.get body k
                     else Value.Null)).
Proof.
  cbn zeta. unfold Providers.put. repeat split.
  - destruct (Value.get body "id") as [| | | | |s|]; try reflexivity.
    cbn [Value.isStr]. destruct (String.eqb_spec s id) as [->|]; [congruence|reflexivity].
  - destruct (Value.get body "id") as [| | | | |s|]; try (eexists; reflexivity).
    cbn [Value.isStr]. destruct (String.eqb_spec s id) as [->|]; [congruence|].
    eexists; reflexivity.
  - rewrite H. cbn [Value.isStr]. rewrite String.eqb_refl.
    destruct existsInDynamo, existsInPostgres; try discriminate; reflexivity.
  - rewrite H. cbn [Value.isStr]. rewrite String.eqb_refl.
    destruct existsInDynamo, existsInPostgres; try discriminate; eexists; reflexivity.
  - intros Hid Hboth. rewrite Hid. cbn [Value.isStr]. rewrite String.eqb_refl.
    apply andb_true_iff in Hboth as [-> ->]. cbn [negb List.filter length Nat.eqb].
    eexists. split; [reflexivity|]. unfold Providers.createObjectOf.
    assert (Hlookup : forall k,
              (<["updated_at" := Value.get body "updatedAt"]>
                 (<["created_at" := Value.get body "createdAt"]>
                    (<["name" := Value.get body "id"]>
                       (Providers.omit body ["id"; "encrypted"; "createdAt"; "updatedAt"]))))
              !! k
              = if decide (k = "updated_at") then Some (Value.get body "updatedAt")
                else if decide (k = "created_at") then Some (Value.get body "createdAt")
                else if decide (k = "name") then Some (Value.get body "id")
                else if decide (k ∈ ["id"; "encrypted"; "createdAt"; "updatedAt"]) then None
                else body !! k).
    { intros k. destruct (decide (k = "updated_at")) as [->|H1]; [apply lookup_insert_eq|].
      rewrite lookup_insert_ne by congruence.
      destruct (decide (k = "created_at")) as [->|H2]; [apply lookup_insert_eq|].
      rewrite lookup_insert_ne by congruence.
      destruct (decide (k = "name")) as [->|H3]; [apply lookup_insert_eq|].
      rewrite lookup_insert_ne by congruence. apply omit_lookup. }
    repeat split; try (rewrite nullifyUndefinedValues_lookup, Hlookup, ?Hid; reflexivity).
    intros k Hk. rewrite nullifyUndefinedValues_lookup.
    rewrite decide_True by (apply list_elem_of_In; exact Hk).
    unfold Value.get at 1. rewrite Hlookup.
    repeat (destruct Hk as [<-|Hk]; [reflexivity|]). destruct Hk.
Qed.

Lemma put_updates_in_place_witness :
  exists createObject,
    Providers.put "p1" ProviderSamples.body true true ProviderSamples.body
    = ([Providers.PostgresUpdate "p1" createObject;
        Providers.DynamoCreate ProviderSamples.body],
       Providers.Send ProviderSamples.body)
    /\ createObject !! "name" = Some (Value.Str "p1")
    /\ createObject !! "id" = None
    /\ createObject !! "port" = Some Value.Null
    /\ createObject !! "password" = Some Value.Null
    /\ createObject !! "username" = Some (Value.Str "u").
Proof.
  destruct (put_updates_in_place "p1" ProviderSamples.body true true ProviderSamples.body)
    as (_ & _ & H).
  destruct (H eq_refl eq_refl) as (createObject & Hrun & Hname & Hid & _ & _ & _ & _ & _ & Hopt).
  exists createObject. split; [exact Hrun|]. split; [exact Hname|]. split; [exact Hid|].
  repeat split.
  - exact (Hopt "port" ltac:(simpl; tauto)).
  - exact (Hopt "password" ltac:(simpl; tauto)).
  - exact (Hopt "username" ltac:(simpl; tauto)).
Defined.

(** ** The parameters that [normalizeEvent] returns *)

Section NormalizedFacts.
Variable env : gmap string string.
Variable dateValue : Value.value -> option Z.
Variable toISOString : Z -> string.
Variable JSON_stringify : Value.value -> string.
Variable removeNilProperties : Value.object -> Value.object.

Abbreviation normalizeEvent :=
  (Normalize.normalizeEvent env dateValue toISOString JSON_stringify removeNilProperties).

(** [removeNilProperties] of the common package drops the properties
    whose value is [null] or [undefined] and keeps the others. *)
Hypothesis removeNilProperties_spec :
  forall (o : Value.object) (k : string),
    removeNilProperties o !! k
    = match o !! k with
      | Some v => if Value.isNil v then None else Some v
      | None => None
      end.

Lemma truthy_not_nil (v : Value.value) : Value.truthy v = true -> Value.isNil v = false.
Proof. destruct v; simpl; congruence. Qed.

(** What the parameters hold under [reportType], [collectionIds] and
    [collectionId]. *)
Lemma normalizeEvent_fields (event reportParams : Value.object) :
  normalizeEvent event = Effects.Returned reportParams ->
  let collectionId := Value.get event "collectionId" in
  exists reportType,
    reportParams !! "reportType" = Some (Value.Str reportType)
    /\ (Value.truthy collectionId = true ->
        reportParams !! "collectionIds"
        = Some (if Value.isString collectionId then Value.Arr [collectionId] else collectionId)
        /\ reportParams !! "collectionId"
           = (if String.eqb reportType "Internal" then Some collectionId else None)
        /\ (String.eqb reportType "Internal" = true -> Value.isString collectionId = true))
    /\ (Value.truthy collectionId = false ->
        reportParams !! "collectionIds" = None /\ reportParams !! "collectionId" = None).
Proof.
  unfold Normalize.normalizeEvent, mbind, Effects.result_bind.
  destruct (Normalize.isoTimestamp _ _ (Value.get event "startTimestamp")) as [s|e1];
    [|discriminate].
  destruct (Normalize.isoTimestamp _ _ (Value.get event "endTimestamp")) as [t|e2];
    [|discriminate].
  destruct (Normalize.toLowerCase _) as [l|e3] eqn:Hlower; [|discriminate].
  destruct (Value.truthy (Value.get event "collectionIds")) eqn:Hplural; [discriminate|].
  set (reportType :=
         if String.eqb l "granulenotfound" then Value.Str "Granule Not Found"
         else Value.or (Value.get event "reportType") (Value.Str "Inventory")).
  assert (Htype : exists name, reportType = Value.Str name).
  { subst reportType. destruct (String.eqb l "granulenotfound"); [eauto|].
    destruct (Value.or _ _); try discriminate Hlower. eauto. }
  destruct Htype as (name & Htype). rewrite Htype. cbn [Value.isStr].
  destruct (Value.truthy (Value.get event "collectionId")) eqn:Hone.
  - destruct (String.eqb name "Internal") eqn:Hinternal.
    + destruct (Value.isString (Value.get event "collectionId")) eqn:Hstring;
        cbn [negb]; [|discriminate].
      intros [= <-]. exists name. split.
      { rewrite removeNilProperties_spec, lookup_insert_eq. reflexivity. }
      split; [|intros [=]].
      intros _. rewrite !removeNilProperties_spec, ?Hinternal.
      repeat (rewrite lookup_insert_ne by discriminate).
      rewrite lookup_insert_eq.
      repeat (rewrite lookup_insert_ne by discriminate).
      unfold Value.get in Hone |- *.
      destruct (event !! "collectionId") as [v|]; cbn [default from_option id] in *;
        [|discriminate Hone].
      unfold id in *. cbn [Value.isNil]. rewrite (truthy_not_nil _ Hone).
      repeat split.
    + intros [= <-]. exists name. split.
      { rewrite removeNilProperties_spec, lookup_insert_eq. reflexivity. }
      split; [|intros [=]].
      intros _. rewrite !removeNilProperties_spec.
      repeat (rewrite lookup_insert_ne by discriminate).
      rewrite lookup_insert_eq.
      repeat (rewrite lookup_insert_ne by discriminate).
      rewrite lookup_delete_eq.
      destruct (Value.isString (Value.get event "collectionId")); cbn [Value.isNil];
        [|rewrite (truthy_not_nil _ Hone)]; rewrite Hinternal; repeat split; intros [=].
  - intros [= <-]. exists name. split.
    { rewrite removeNilProperties_spec, lookup_insert_eq. reflexivity. }
    split; [intros [=]|]. intros _.
    rewrite !removeNilProperties_spec.
    repeat (rewrite lookup_insert_ne by discriminate).
    rewrite lookup_delete_ne by discriminate. rewrite !lookup_delete_eq. split; reflexivity.
Qed.

(** Property X18.  Of a request that [normalizeEvent] accepts, with
    [removeNilProperties] dropping exactly the properties that are [null]
    or [undefined]: when its [collectionId] is truthy, the parameters
    carry it under [collectionIds], a string wrapped in an array of one
    and any other value as it is, and the singular [collectionId] is kept
    only for an Internal report; when it is falsy, the parameters hold
    neither key. *)
Theorem collectionId_becomes_collectionIds (event reportParams : Value.object) :
  normalizeEvent event = Effects.Returned reportParams ->
  let collectionId := Value.get event "collectionId" in
  (Value.truthy collectionId = true ->
   reportParams !! "collectionIds"
   = Some (if Value.isString collectionId then Value.Arr [collectionId] else collectionId)
   /\ reportParams !! "collectionId"
      = (if Value.isStr (Value.get reportParams "reportType") "Internal"
         then Some collectionId else None))
  /\ (Value.truthy collectionId = false ->
      reportParams !! "collectionIds" = None /\ reportParams !! "collectionId" = None).
Proof.
  intros Hrun collectionId.
  destruct (normalizeEvent_fields _ _ Hrun) as (name & Htype & Hone & Hnone).
  unfold Value.get. rewrite Htype. cbn [default from_option Value.isStr].
  split; [|exact Hnone].
  intros Htruthy. destruct (Hone Htruthy) as (Hplural & Hsingular & _).
  split; assumption.
Qed.

(** Property X19.  The parameters that [normalizeEvent] makes of a
    request with a truthy [collectionId] are no request: normalised once
    more they are rejected with a [TypeError], for the [collectionIds]
    they now carry. *)
Theorem normalized_parameters_are_rejected (event reportParams : Value.object) :
  normalizeEvent event = Effects.Returned reportParams ->
  Value.truthy (Value.get event "collectionId") = true ->
  exists e, normalizeEvent reportParams = Effects.Threw e
            /\ Effects.name e = "TypeError".
Proof.
  intros Hrun Htruthy.
  destruct (normalizeEvent_fields _ _ Hrun) as (name & _ & Hone & _).
  destruct (Hone Htruthy) as (Hplural & _ & _).
  assert (Hcarried : Value.truthy (Value.get reportParams "collectionIds") = true).
  { unfold Value.get at 1. rewrite Hplural. cbn [default from_option].
    destruct (Value.isString _); [reflexivity|exact Htruthy]. }
  destruct (normalizeEvent reportParams) as [p|e] eqn:Hagain.
  - apply normalizeEvent_Returned in Hagain as (_ & _ & Hfalsy). congruence.
  - exists e. split; [reflexivity|]. exact (normalizeEvent_Threw _ _ _ _ _ _ _ Hagain).
Qed.

End NormalizedFacts.

(** The sample [removeNilProperties] drops the properties that are
    [null] or [undefined] and keeps the others. *)
Lemma removeNilProperties_lookup (o : Value.object) (k : string) :
  Samples.removeNilProperties o !! k
  = match o !! k with
    | Some v => if Value.isNil v then None else Some v
    | None => None
    end.
Proof.
  unfold Samples.removeNilProperties. rewrite map_lookup_filter.
  destruct (o !! k) as [v|]; [|reflexivity]. cbn [mbind option_bind snd].
  destruct (Value.isNil v); reflexivity.
Qed.

Lemma normalizeEvent_internalEvent :
  Normalize.normalizeEvent ∅ Samples.dateValue Samples.toISOString Value.toString
    Samples.removeNilProperties RequestSamples.internalEvent
  = Effects.Returned RequestSamples.internalParams.
Proof. vm_compute. reflexivity. Qed.

Lemma normalizeEvent_inventoryEvent :
  Normalize.normalizeEvent ∅ Samples.dateValue Samples.toISOString Value.toString
    Samples.removeNilProperties RequestSamples.inventoryEvent
  = Effects.Returned RequestSamples.inventoryParams.
Proof. vm_compute. reflexivity. Qed.

Lemma collectionId_becomes_collectionIds_witness :
  RequestSamples.internalParams !! "collectionIds" = Some (Value.Arr [Value.Str "X___1"])
  /\ RequestSamples.internalParams !! "collectionId" = Some (Value.Str "X___1").
Proof.
  destruct (collectionId_becomes_collectionIds _ _ _ _ _ removeNilProperties_lookup _ _
              normalizeEvent_internalEvent) as (Hone & _).
  destruct (Hone ltac:(vm_compute; reflexivity)) as (Hplural & Hsingular).
  split; [rewrite Hplural|rewrite Hsingular]; vm_compute; reflexivity.
Defined.

Lemma normalized_parameters_are_rejected_witness :
  exists e,
    Normalize.normalizeEvent ∅ Samples.dateValue Samples.toISOString Value.toString
      Samples.removeNilProperties RequestSamples.inventoryParams = Effects.Threw e
    /\ Effects.name e = "TypeError".
Proof.
  exact (normalized_parameters_are_rejected _ _ _ _ _ removeNilProperties_lookup _ _
           normalizeEvent_inventoryEvent ltac:(vm_compute; reflexivity)).
Defined.

(** ** The record of a report points at its document *)

Lemma writtenPlaces_app (evs evs' : list Effects.Effect) :
  Places.writtenPlaces (evs ++ evs') = Places.writtenPlaces evs ++ Places.writtenPlaces evs'.
Proof. unfold Places.writtenPlaces. apply flat_map_app. Qed.

Section LocationFacts.
Variable buildS3Uri : string -> string -> string.
Variable camelCase : string -> string.
Variable errorify : Effects.Error -> string.
Variable startStamp : string.
Variable startTime : string.
Variable endTime : string.
Variable bucketsConfigJson : Effects.result (list (string * BucketsConfig.Config)).
Variable distributionBucketMapJson : Effects.result (gmap string string).
Variable bucketReports : list string -> Effects.result (list Bucket.Report).
Variable reconciliationReportForCumulusCMR :
  BucketsConfig.t -> gmap string string -> Value.object ->
  Effects.result Effects.CumulusCmrReport.
Variable createInternalReconciliationReport : Value.object -> Effects.result unit.

Abbreviation createReconciliationReport :=
  (Orchestrator.createReconciliationReport endTime bucketsConfigJson
     distributionBucketMapJson bucketReports reconciliationReportForCumulusCMR).
Abbreviation outcome :=
  (Orchestrator.outcome bucketsConfigJson distributionBucketMapJson
     bucketReports reconciliationReportForCumulusCMR createInternalReconciliationReport).
Abbreviation processRequest :=
  (Orchestrator.processRequest buildS3Uri camelCase errorify startStamp startTime endTime
     bucketsConfigJson distributionBucketMapJson bucketReports
     reconciliationReportForCumulusCMR createInternalReconciliationReport).

Ltac run_effects :=
  unfold Orchestrator.putObject, Effects.settle, Effects.emit, Effects.setObjects,
    Effects.setReports, mbind, Effects.M_bind, Effects.result_bind, Effects.bind;
  cbn [Effects.reports Effects.objects Effects.log fst snd].

(** [createReconciliationReport] leaves the records alone and writes
    under one key of one bucket only; when it returns, the document
    under that key has the status SUCCESS, and when it throws, whatever
    is under that key is the first document or what was there before. *)
Lemma createReconciliationReport_places (recReportParams : Value.object) (w : Effects.World) :
  let Bucket := Value.toString (Value.get recReportParams "systemBucket") in
  let Key := Value.toString (Value.get recReportParams "reportKey") in
  let run := createReconciliationReport recReportParams w in
  Effects.reports (fst run) = Effects.reports w
  /\ (exists evs,
        Effects.log (fst run) = Effects.log w ++ evs
        /\ Forall (fun place => place = (Bucket, Key)) (Places.writtenPlaces evs))
  /\ match snd run with
     | Effects.Returned _ =>
         exists doc, Effects.objects (fst run) !! (Bucket, Key) = Some doc
                     /\ Effects.reportStatus (Effects.header doc) = "SUCCESS"
     | Effects.Threw _ =>
         Effects.objects (fst run) !! (Bucket, Key) = Effects.objects w !! (Bucket, Key)
         \/ exists doc, Effects.objects (fst run) !! (Bucket, Key) = Some doc
                        /\ Effects.header doc = Orchestrator.initialReportHeader recReportParams
     end.
Proof.
  intros Bucket Key run. subst run Bucket Key.
  unfold Orchestrator.createReconciliationReport. run_effects.
  destruct bucketsConfigJson as [json|e1]; cbn [fst snd Effects.reports Effects.log Effects.objects].
  2:{ repeat split; [eexists; split; [reflexivity|repeat constructor]|left; reflexivity]. }
  destruct distributionBucketMapJson as [dmap|e2];
    cbn [fst snd Effects.reports Effects.log Effects.objects].
  2:{ repeat split; [eexists; split; [rewrite <- !app_assoc; reflexivity|repeat constructor]
                    |left; reflexivity]. }
  destruct (bucketReports (Orchestrator.dataBucketsOf json)) as [reports|e3];
    cbn [fst snd Effects.reports Effects.log Effects.objects].
  2:{ repeat split; [eexists; split; [rewrite <- !app_assoc; reflexivity|repeat constructor]|].
      right. eexists. split; [apply lookup_insert_eq|reflexivity]. }
  destruct (reconciliationReportForCumulusCMR _ dmap recReportParams) as [cmr|e4];
    cbn [fst snd Effects.reports Effects.log Effects.objects].
  - repeat split; [eexists; split; [rewrite <- !app_assoc; reflexivity|repeat constructor]|].
    eexists. split; [apply lookup_insert_eq|reflexivity].
  - repeat split; [eexists; split; [rewrite <- !app_assoc; reflexivity|repeat constructor]|].
    right. eexists. split; [apply lookup_insert_eq|reflexivity].
Qed.

(** What [recReportParamsOf] adds to the parameters and what it keeps. *)
Lemma recReportParamsOf_fields (params : Value.object) :
  let recReportParams := Orchestrator.recReportParamsOf camelCase startStamp startTime params in
  Value.get recReportParams "reportType" = Value.get params "reportType"
  /\ Value.get recReportParams "systemBucket" = Value.get params "systemBucket"
  /\ Value.get recReportParams "reportKey"
     = Value.Str (Orchestrator.reportKeyOf camelCase startStamp params).
Proof.
  unfold Orchestrator.recReportParamsOf, Value.get. repeat split.
  - rewrite lookup_insert_eq. reflexivity.
  - rewrite !lookup_insert_ne by discriminate. reflexivity.
  - rewrite lookup_insert_ne by discriminate. rewrite lookup_insert_eq. reflexivity.
Qed.

(** Property X20 ([processRequest] with [createReconciliationReport]).
    For a request of a type other than Internal, the record of the
    report points at the document: every [putObject] of the run goes to
    the system bucket and to the key of the report, and the location of
    the record that the run returns is the URI of that bucket and key.
    The record has the status Generated or Failed, and when it is
    Generated the document under that key has the status SUCCESS. *)
Theorem record_points_at_document (params : Value.object) (w : Effects.World) :
  let Bucket := Value.toString (Value.get params "systemBucket") in
  let Key := Orchestrator.reportKeyOf camelCase startStamp params in
  let run := processRequest params w in
  Value.isStr (Value.get params "reportType") "Internal" = false ->
  exists evs finalRecord,
    Effects.log (fst run) = Effects.log w ++ evs
    /\ Forall (fun place => place = (Bucket, Key)) (Places.writtenPlaces evs)
    /\ snd run = Effects.Returned finalRecord
    /\ Effects.location finalRecord = buildS3Uri Bucket Key
    /\ (Effects.status finalRecord = "Generated" \/ Effects.status finalRecord = "Failed")
    /\ (Effects.status finalRecord = "Generated" ->
        exists doc, Effects.objects (fst run) !! (Bucket, Key) = Some doc
                    /\ Effects.reportStatus (Effects.header doc) = "SUCCESS").
Proof.
  intros Bucket Key run Htype. subst run. unfold Orchestrator.processRequest.
  unfold ReconciliationReport.create, ReconciliationReport.updateStatus,
    ReconciliationReport.update, ReconciliationReport.get, ReconciliationReport.read,
    Effects.try_catch, Orchestrator.createReport.
  destruct (recReportParamsOf_fields params) as (Ht & Hb & Hk). cbn zeta in Ht, Hb, Hk.
  rewrite Ht, Htype. run_effects.
  match goal with
  | |- context [Orchestrator.createReconciliationReport _ _ _ _ _ ?p ?w1] =>
      destruct (createReconciliationReport_places p w1) as (Hreports & (evs & Hlog & Hevs) & Hdoc);
      destruct (createReconciliationReport p w1) as [w2 out]
  end.
  cbn zeta in Hreports, Hlog, Hevs, Hdoc. rewrite Hb, Hk in Hevs, Hdoc.
  cbn [Value.toString fst snd Effects.reports Effects.objects Effects.log]
    in Hreports, Hlog, Hevs, Hdoc.
  fold Bucket Key in Hevs, Hdoc.
  destruct out as [[]|e];
    cbn [fst snd Effects.reports Effects.objects Effects.log];
    rewrite Hreports, lookup_alter_eq, lookup_insert_eq;
    cbn [fmap option_fmap option_map fst snd Effects.reports Effects.objects Effects.log];
    eexists _, _; rewrite Hlog, <- !app_assoc; cbn [app];
    (split; [reflexivity|]);
    (split; [unfold Places.writtenPlaces; cbn [flat_map app]; rewrite flat_map_app;
             apply Forall_app; split; [exact Hevs|constructor]|]);
    (split; [reflexivity|]); (split; [reflexivity|]).
  - split; [left; reflexivity|]. intros _. exact Hdoc.
  - split; [right; reflexivity|]. intros [=].
Qed.

End LocationFacts.

Lemma record_points_at_document_witness :
  exists finalRecord,
    snd (Orchestrator.processRequest S3.buildS3Uri (fun s => s) Effects.message
           "20200901T000000" "2020-09-01T00:00:00.000Z" "2020-09-01T00:00:05.000Z"
           (Effects.Returned (BucketsConfig.buckets Samples.bucketsConfig))
           (Effects.Returned ∅)
           (fun _ => Effects.Returned [])
           (fun _ _ _ => Effects.Returned Samples.noCumulusCmrReport)
           (fun _ => Effects.Returned tt)
           PlacesSamples.params Samples.emptyWorld)
    = Effects.Returned finalRecord
    /\ Effects.location finalRecord = "s3://internal/stack/reconciliation-reports/r.json".
Proof.
  destruct (record_points_at_document S3.buildS3Uri (fun s => s) Effects.message
              "20200901T000000" "2020-09-01T00:00:00.000Z" "2020-09-01T00:00:05.000Z"
              (Effects.Returned (BucketsConfig.buckets Samples.bucketsConfig))
              (Effects.Returned ∅)
              (fun _ => Effects.Returned [])
              (fun _ _ _ => Effects.Returned Samples.noCumulusCmrReport)
              (fun _ => Effects.Returned tt)
              PlacesSamples.params Samples.emptyWorld ltac:(vm_compute; reflexivity))
    as (evs & finalRecord & _ & _ & Hrun & Hlocation & _).
  exists finalRecord. split; [exact Hrun|].
  rewrite Hlocation. vm_compute. reflexivity.
Defined.

(** ** The requests that [normalizeEvent] accepts *)

Section AcceptedRequests.
Variable env : gmap string string.
Variable dateValue : Value.value -> option Z.
Variable toISOString : Z -> string.
Variable JSON_stringify : Value.value -> string.
Variable removeNilProperties : Value.object -> Value.object.

Abbreviation isoTimestamp := (Normalize.isoTimestamp dateValue toISOString).
Abbreviation normalizeEvent :=
  (Normalize.normalizeEvent env dateValue toISOString JSON_stringify removeNilProperties).

(** [isoTimestamp] returns for a falsy value, which it leaves out, and
    for a value that [new Date] can read. *)
Lemma isoTimestamp_returns (dateable : Value.value) :
  Effects.returned (isoTimestamp dateable) = true
  <-> (Value.truthy dateable = true -> dateValue dateable <> None).
Proof.
  unfold Normalize.isoTimestamp. destruct (Value.truthy dateable).
  - destruct (dateValue dateable); simpl; split; try discriminate; auto.
    intros H. exfalso. apply H; reflexivity.
  - simpl. split; [discriminate|reflexivity].
Qed.

(** Property X21.  [normalizeEvent] accepts a request exactly when each
    of [startTimestamp] and [endTimestamp] is falsy or a value that
    [new Date] can read, [reportType] is falsy or a string, the plural
    [collectionIds] is falsy, and, for the report type Internal, the
    [collectionId] is falsy or a string.  A falsy value, be it
    [undefined], [null], [0], [false] or the empty string, is as good
    as none. *)
Theorem normalizeEvent_accepts (event : Value.object) :
  let startTimestamp := Value.get event "startTimestamp" in
  let endTimestamp := Value.get event "endTimestamp" in
  let reportType := Value.or (Value.get event "reportType") (Value.Str "Inventory") in
  let collectionId := Value.get event "collectionId" in
  Effects.returned (normalizeEvent event) = true
  <-> (Value.truthy startTimestamp = true -> dateValue startTimestamp <> None)
      /\ (Value.truthy endTimestamp = true -> dateValue endTimestamp <> None)
      /\ Value.isString reportType = true
      /\ Value.truthy (Value.get event "collectionIds") = false
      /\ (reportType = Value.Str "Internal" -> Value.truthy collectionId = true ->
          Value.isString collectionId = true).
Proof.
  cbn zeta. rewrite <- !isoTimestamp_returns.
  unfold Normalize.normalizeEvent, mbind, Effects.result_bind.
  destruct (isoTimestamp (Value.get event "startTimestamp")) as [s|e1];
    [|simpl; split; [discriminate|intros (H & _); discriminate H]].
  destruct (isoTimestamp (Value.get event "endTimestamp")) as [t|e2];
    [|simpl; split; [discriminate|intros (_ & H & _); discriminate H]].
  destruct (Value.or (Value.get event "reportType") (Value.Str "Inventory")) as [| | | | |name|];
    cbn [Normalize.toLowerCase Value.isString];
    try (simpl; split; [discriminate|intros (_ & _ & H & _); discriminate H]).
  destruct (Value.truthy (Value.get event "collectionIds"));
    [simpl; split; [discriminate|intros (_ & _ & _ & H & _); discriminate H]|].
  destruct (Value.truthy (Value.get event "collectionId")) eqn:Hone;
    [|simpl; split; [intros _; repeat split; discriminate|reflexivity]].
  destruct (String.eqb (Normalize.lower name) "granulenotfound") eqn:Hlower.
  - cbn [Value.isStr String.eqb Ascii.eqb Bool.eqb]. simpl. split; [|reflexivity].
    intros _. repeat split. intros [= ->]. vm_compute in Hlower. discriminate Hlower.
  - cbn [Value.isStr]. destruct (String.eqb_spec name "Internal") as [->|Hne].
    + destruct (Value.isString (Value.get event "collectionId")); simpl.
      * split; [|reflexivity]. intros _. repeat split.
      * split; [discriminate|]. intros (_ & _ & _ & _ & H). specialize (H eq_refl eq_refl).
        discriminate H.
    + simpl. split; [|reflexivity]. intros _. repeat split. intros [= ->]. contradiction.
Qed.

End AcceptedRequests.
